(** * Nemo Store dashboard (app.py): price conversion, formatting, filters, views

    A shallow embedding of the transform / format / filter logic of
    [app.py] and the properties its specification states about it.

    Conventions of the model.
    - A pandas [DataFrame] is a list of column names together with a list of
      rows; a row is a finite map from column name to cell value.
    - Python [str] values are [string]s holding the UTF-8 encoding of the
      text.  Substring containment on well-formed UTF-8 coincides with
      containment on code points.
    - A Python number is the rational it denotes; NaN is a separate value.
      The float arithmetic of [convert_price] is the exact operation
      followed by the rounding to the nearest double ([b64]), [int(x)]
      truncates toward zero, and a result beyond the largest double is
      IEEE's infinity.  Comparisons, the aggregates of pandas and the
      formatting read the exact value of the number they are given.
    - Code that can raise returns in the error monad [res].
    - The libraries the script calls into ([json.loads], the regular
      expression search behind [Series.str.contains], [pd.to_datetime],
      the charts of plotly and the display calls of streamlit) are
      parameters of the model. *)

From Stdlib Require Import ZArith QArith Qround String Ascii List Permutation Lia.
From Stdlib Require Import DecimalString Lqa Qpower.
From stdpp Require Import gmap strings list fin_maps.
Import ListNotations.

Local Open Scope string_scope.
Local Open Scope Z_scope.
Set Warnings "-register-all".

(* ===================================================================== *)
(** ** Numbers *)
(* ===================================================================== *)

(** A Python number as the script sees it in a numeric column. *)
Inductive number :=
| NaN
| Num (q : Q).

(** [int(x)]: truncation toward zero. *)
Definition py_int (q : Q) : Z := Z.quot (Qnum q) (Zpos (Qden q)).

Definition num_eqb (a b : number) : bool :=
  match a, b with
  | Num x, Num y => Qeq_bool x y
  | _, _ => false
  end.

Definition num_leb (a b : number) : bool :=
  match a, b with
  | Num x, Num y => Qle_bool x y
  | _, _ => false
  end.

Definition Qlt_bool (x y : Q) : bool := negb (Qle_bool y x).

Definition num_ltb (a b : number) : bool :=
  match a, b with
  | Num x, Num y => Qlt_bool x y
  | _, _ => false
  end.

(** A rational rounded to the nearest integer, ties to even. *)
Definition round_half_even (q : Q) : Z :=
  let f := Qfloor q in
  let r := (q - inject_Z f)%Q in
  match (r ?= 1 # 2)%Q with
  | Lt => f
  | Gt => f + 1
  | Eq => if Z.even f then f else f + 1
  end.

Definition Qabs' (q : Q) : Q := if Qlt_bool q 0 then (- q)%Q else q.

(** *** IEEE binary64 *)

(** A Python [float] is an IEEE binary64 number, and so is every cell of a
    numeric column that holds a NULL or a REAL.  A finite double is the
    rational it denotes.  [b64] is the rounding a float operation ends
    with: the nearest double, ties to the even significand, subnormals
    included; [None] stands for a result beyond the largest double, IEEE's
    infinity. *)

(** [2^e]. *)
Definition Qpow2 (e : Z) : Q := (2 ^ e)%Q.

(** The binary exponent [k] of a positive rational: [2^k <= a < 2^(k+1)]. *)
Definition binade (a : Q) : Z :=
  if Qle_bool 1 a then Z.log2 (Qfloor a)
  else - Z.log2_up (Qceiling (/ a)).

(** The exponent of the last place: 53 significant bits, and nothing finer
    than the subnormal step [2^-1074]. *)
Definition b64_ulp (a : Q) : Z := Z.max (binade a - 52) (-1074).

Definition b64 (q : Q) : option Q :=
  if Qeq_bool q 0 then Some 0%Q
  else
    let a := Qabs' q in
    let e := b64_ulp a in
    let r := (inject_Z (round_half_even (a / Qpow2 e)) * Qpow2 e)%Q in
    if Qle_bool (Qpow2 1024) r then None
    else Some (Qred (if Qlt_bool q 0 then - r else r)).

(* ===================================================================== *)
(** ** Exceptions *)
(* ===================================================================== *)

Inductive exn :=
| DatabaseError
| JSONDecodeError
| ReError
| KeyError
| TypeError
| IndexError
| ValueError
| OverflowError
| ParserError.

Inductive res (A : Type) :=
| Ok (a : A)
| Raise (e : exn).
Arguments Ok {A} a.
Arguments Raise {A} e.

Definition res_bind {A B} (m : res A) (k : A -> res B) : res B :=
  match m with
  | Ok a => k a
  | Raise e => Raise e
  end.

#[global] Instance res_ret : MRet res := @Ok.
#[global] Instance res_mbind : MBind res := fun A B k m => res_bind m k.

Fixpoint res_mapM {A B} (f : A -> res B) (l : list A) : res (list B) :=
  match l with
  | [] => Ok []
  | a :: t => b ← f a; bs ← res_mapM f t; Ok (b :: bs)
  end.

(* ===================================================================== *)
(** ** 2. Utility functions: conversion and formatting *)
(* ===================================================================== *)

Definition unit_won : string := "원".
Definition unit_man : string := "만".

(** [convert_price(val, to_unit='만')].  The first branch is
    [pd.isna(val) or val is None]; [None] is Python's [None].  [val * 1000]
    and [val / 10] are float operations and end with [b64]; [int] of an
    infinite product raises [OverflowError].  A Python [int] behaves as the
    double of the same value as long as [val * 1000] stays below [2^53],
    where both products are exact. *)
Definition convert_price (val : option number) (to_unit : string) : res number :=
  match val with
  | None | Some NaN => Ok (Num 0)
  | Some (Num v) =>
      if String.eqb to_unit "원"
      then match b64 (v * 1000) with
           | Some p => Ok (Num (inject_Z (py_int p)))
           | None => Raise OverflowError
           end
      else match b64 (v / 10) with
           | Some q => Ok (Num q)
           | None => Raise OverflowError
           end
  end.

(** *** Number rendering used by the f-strings *)

(** [str(n)] for a non-negative integer. *)
Definition dec_of_N (n : N) : string := NilZero.string_of_uint (N.to_uint n).

(** [f"{n}"] for an integer. *)
Definition fmt_int (z : Z) : string :=
  if z <? 0 then "-" ++ dec_of_N (Z.abs_N z) else dec_of_N (Z.abs_N z).

(** Thousands separators, on the digits listed from the least significant. *)
Fixpoint group_rev (ds : list ascii) : list ascii :=
  match ds with
  | a :: b :: c :: rest =>
      match rest with
      | [] => ds
      | _ :: _ => a :: b :: c :: ","%char :: group_rev rest
      end
  | _ => ds
  end.

Definition group_digits (s : string) : string :=
  string_of_list_ascii (rev (group_rev (rev (list_ascii_of_string s)))).

(** [f"{n:,}"] for an integer. *)
Definition fmt_int_grouped (z : Z) : string :=
  if z <? 0 then "-" ++ group_digits (dec_of_N (Z.abs_N z))
  else group_digits (dec_of_N (Z.abs_N z)).

(** [f"{x:,.0f}"]: no fractional digits, thousands separators.  A negative
    value keeps its sign even when it rounds to zero. *)
Definition fmt_f0_grouped (q : Q) : string :=
  let body := group_digits (dec_of_N (Z.to_N (round_half_even (Qabs' q)))) in
  if Qlt_bool q 0 then "-" ++ body else body.

(** [f"{x:.1f}"]: one fractional digit. *)
Definition fmt_f1 (q : Q) : string :=
  let t := round_half_even (Qabs' q * 10) in
  let body := dec_of_N (Z.to_N (t / 10)) ++ "." ++ dec_of_N (Z.to_N (t mod 10)) in
  if Qlt_bool q 0 then "-" ++ body else body.

(** [a // b] and [a % b] for a positive divisor. *)
Definition py_floordiv (a b : Q) : Q := inject_Z (Qfloor (a / b)).
Definition py_mod (a b : Q) : Q := (a - b * py_floordiv a b)%Q.

(** [format_price_display(val, unit='만')].  The locals [억] and [만] of the
    source are [eok] and [man]. *)
Definition format_price_display (val : number) (unit : string) : string :=
  match val with
  | NaN => if String.eqb unit "만" then "nan만" else "₩nan"
  | Num v =>
      if Qeq_bool v 0 then "-"
      else if String.eqb unit "만" then
        if Qle_bool 10000 v then
          let eok := py_int (py_floordiv v 10000) in
          let man := py_int (py_mod v 10000) in
          if 0 <? man
          then fmt_int eok ++ "억 " ++ fmt_int_grouped man ++ "만"
          else fmt_int eok ++ "억"
        else fmt_f0_grouped v ++ "만"
      else "₩" ++ fmt_f0_grouped v
  end.

(* ===================================================================== *)
(** ** Cell values, exceptions, tables *)
(* ===================================================================== *)

(** The values a cell of the table can hold: SQL NULL ([None]), NaN, a
    number, a boolean, text, a list (a decoded JSON array) and a calendar
    date (encoded as the integer [yyyymmdd], which orders as dates do). *)
Inductive pyval :=
| VNone
| VNaN
| VNum (q : Q)
| VBool (b : bool)
| VStr (s : string)
| VList (l : list pyval)
| VDate (d : Z).

(** Python truthiness, as used by [x if x else []]. *)
Definition truthy (x : pyval) : bool :=
  match x with
  | VNone => false
  | VNaN => true
  | VNum q => negb (Qeq_bool q 0)
  | VBool b => b
  | VStr s => negb (String.eqb s "")
  | VList l => match l with [] => false | _ :: _ => true end
  | VDate _ => true
  end.

Record DataFrame := {
  columns : list string;
  rows : list (gmap string pyval)
}.

(** [pd.DataFrame()]. *)
Definition empty_frame : DataFrame := {| columns := []; rows := [] |}.

(** [col in df.columns]. *)
Definition has_col (col : string) (df : DataFrame) : bool :=
  existsb (String.eqb col) (columns df).

(** The cell of a row under a column; a cell that was never written reads
    as NaN, as pandas fills it. *)
Definition cell (r : gmap string pyval) (col : string) : pyval :=
  default VNaN (r !! col).

(** [df[col] = ...]: the column list after an assignment. *)
Definition add_col (col : string) (cols : list string) : list string :=
  if existsb (String.eqb col) cols then cols else cols ++ [col].

(** [df.empty]: no row, or no column. *)
Definition frame_empty (df : DataFrame) : bool :=
  match rows df with
  | [] => true
  | _ :: _ => match columns df with [] => true | _ :: _ => false end
  end.

(** [f_df[mask]]: keep the rows that satisfy a row test. *)
Definition filter_rows (p : gmap string pyval -> bool) (df : DataFrame) : DataFrame :=
  {| columns := columns df; rows := List.filter p (rows df) |}.

(** A cell of a price column as the argument of [convert_price]; [None]
    stands for Python's [None].  Price columns hold numbers or NULL: text,
    lists and dates there are outside the model and answer [TypeError]. *)
Definition as_price (x : pyval) : res (option number) :=
  match x with
  | VNone => Ok None
  | VNaN => Ok (Some NaN)
  | VNum q => Ok (Some (Num q))
  | VBool b => Ok (Some (Num (if b then 1 else 0)))
  | VStr _ | VList _ | VDate _ => Raise TypeError
  end.

(** A cell of a numeric column as a number, NULL reading as NaN as in a
    pandas float column; comparing or aggregating anything else raises. *)
Definition as_number (x : pyval) : res number :=
  match x with
  | VNone | VNaN => Ok NaN
  | VNum q => Ok (Num q)
  | VBool b => Ok (Num (if b then 1 else 0))
  | VStr _ | VList _ | VDate _ => Raise TypeError
  end.

Definition of_number (n : number) : pyval :=
  match n with
  | NaN => VNaN
  | Num q => VNum q
  end.

(* ===================================================================== *)
(** ** Reference instances of the library calls

    The script delegates to [json.loads], to the regular-expression search
    of [Series.str.contains] and to [pd.to_datetime].  The model takes them
    as parameters; the functions below are small executable instances, each
    faithful on the fragment it names, used to run the model on concrete
    inputs. *)
(* ===================================================================== *)

Definition quote_char : ascii := "034"%char.
Definition backslash_char : ascii := "092"%char.
Definition newline_char : ascii := "010"%char.

Definition is_ws (c : ascii) : bool :=
  (c =? " ")%char || (c =? "009")%char || (c =? "010")%char || (c =? "013")%char.

Fixpoint skip_ws (cs : list ascii) : list ascii :=
  match cs with
  | c :: t => if is_ws c then skip_ws t else cs
  | [] => []
  end.

Definition all_ws (cs : list ascii) : bool := forallb is_ws cs.

(** The body of a JSON string without escapes, up to the closing quote. *)
Fixpoint scan_string (cs acc : list ascii) : option (string * list ascii) :=
  match cs with
  | [] => None
  | c :: t =>
      if (c =? quote_char)%char then Some (string_of_list_ascii (rev acc), t)
      else if (c =? backslash_char)%char || (nat_of_ascii c <? 32)%nat then None
      else scan_string t (c :: acc)
  end.

Fixpoint parse_items (fuel : nat) (cs : list ascii) : option (list pyval) :=
  match fuel with
  | O => None
  | S fuel' =>
      match skip_ws cs with
      | q :: t =>
          if (q =? quote_char)%char then
            match scan_string t [] with
            | Some (s, rest) =>
                match skip_ws rest with
                | c :: rest' =>
                    if (c =? ",")%char
                    then option_map (cons (VStr s)) (parse_items fuel' rest')
                    else if (c =? "]")%char
                    then (if all_ws rest' then Some [VStr s] else None)
                    else None
                | [] => None
                end
            | None => None
            end
          else None
      | [] => None
      end
  end.

(** [json.loads] on the fragment "array of escape-free strings"; [None]
    stands for [JSONDecodeError], which is also what the instance answers
    outside the fragment. *)
Definition json_loads_strings (s : string) : option pyval :=
  match skip_ws (list_ascii_of_string s) with
  | c :: t =>
      if (c =? "[")%char then
        match skip_ws t with
        | d :: rest =>
            if (d =? "]")%char
            then (if all_ws rest then Some (VList []) else None)
            else option_map VList (parse_items (List.length t) t)
        | [] => None
        end
      else None
  | [] => None
  end.

(** Regular expressions on the fragment "literal characters and [.]". *)
Inductive atom :=
| Lit (c : ascii)
| AnyChar.

Definition is_meta (c : ascii) : bool :=
  existsb (Ascii.eqb c)
    [backslash_char; "^"; "$"; "*"; "+"; "?"; "{"; "}"; "["; "]"; "|"; "("; ")"]%char.

(** [re.compile]; [None] stands for a pattern outside the fragment. *)
Fixpoint compile_atoms (cs : list ascii) : option (list atom) :=
  match cs with
  | [] => Some []
  | c :: t =>
      if is_meta c then None
      else option_map (cons (if (c =? ".")%char then AnyChar else Lit c))
                      (compile_atoms t)
  end.

Definition re_compile_literal_dot (pat : string) : option (list atom) :=
  compile_atoms (list_ascii_of_string pat).

(** A UTF-8 continuation byte. *)
Definition is_cont (c : ascii) : bool :=
  (128 <=? nat_of_ascii c)%nat && (nat_of_ascii c <? 192)%nat.

Fixpoint drop_cont (cs : list ascii) : list ascii :=
  match cs with
  | c :: t => if is_cont c then drop_cont t else cs
  | [] => []
  end.

(** [.] consumes one encoded character other than a newline. *)
Fixpoint match_here (re : list atom) (cs : list ascii) : bool :=
  match re with
  | [] => true
  | Lit c :: re' =>
      match cs with
      | x :: t => (x =? c)%char && match_here re' t
      | [] => false
      end
  | AnyChar :: re' =>
      match cs with
      | x :: t => negb (x =? newline_char)%char && match_here re' (drop_cont t)
      | [] => false
      end
  end.

Fixpoint search_from (re : list atom) (cs : list ascii) : bool :=
  match_here re cs
  || match cs with
     | [] => false
     | _ :: t => search_from re t
     end.

(** [pattern.search(text) is not None]. *)
Definition re_search_literal_dot (re : list atom) (text : string) : bool :=
  search_from re (list_ascii_of_string text).

(** [pd.to_datetime(x).date()] on ISO text [YYYY-MM-DD...]; NULL gives NaT,
    written [VNaN]. *)
Definition digit_of (c : ascii) : option Z :=
  let n := nat_of_ascii c in
  if (48 <=? n)%nat && (n <=? 57)%nat then Some (Z.of_nat n - 48) else None.

Fixpoint digits_value (cs : list ascii) (acc : Z) : option Z :=
  match cs with
  | [] => Some acc
  | c :: t =>
      match digit_of c with
      | Some d => digits_value t (10 * acc + d)
      | None => None
      end
  end.

Definition to_date_iso (x : pyval) : res pyval :=
  match x with
  | VNone | VNaN => Ok VNaN
  | VDate d => Ok (VDate d)
  | VStr s =>
      match list_ascii_of_string s with
      | y1 :: y2 :: y3 :: y4 :: d1 :: m1 :: m2 :: d2 :: a1 :: a2 :: _ =>
          match digits_value [y1; y2; y3; y4] 0, digits_value [m1; m2] 0,
                digits_value [a1; a2] 0 with
          | Some y, Some m, Some d =>
              if (d1 =? "-")%char && (d2 =? "-")%char
                 && (1 <=? m) && (m <=? 12) && (1 <=? d) && (d <=? 31)
              then Ok (VDate (y * 10000 + m * 100 + d))
              else Raise ParserError
          | _, _, _ => Raise ParserError
          end
      | _ => Raise ParserError
      end
  | _ => Raise ParserError
  end.

(** The column-wise call over [to_date_iso]: one format for the whole
    column, and one cell that does not follow it fails the call. *)
Definition to_datetime_iso (values : list pyval) : res (list pyval) :=
  res_mapM to_date_iso values.

(** Text between double quotes, to write JSON literals. *)
Definition quoted (s : string) : string :=
  String quote_char (s ++ String quote_char "").

(* ===================================================================== *)
(** ** The script *)
(* ===================================================================== *)

Fixpoint res_foldM {A B} (f : A -> B -> res A) (l : list B) (a : A) : res A :=
  match l with
  | [] => Ok a
  | b :: t => a' ← f a b; res_foldM f t a'
  end.

(** [df[dst] = df[src].apply(f)]. *)
Definition apply_col (f : pyval -> res pyval) (src dst : string)
    (df : DataFrame) : res DataFrame :=
  rows' ← res_mapM (fun r => v ← f (cell r src); Ok (<[dst := v]> r)) (rows df);
  Ok {| columns := add_col dst (columns df); rows := rows' |}.

(** A column as the list of its numbers; non-numeric cells raise, as a
    comparison or an aggregation over them does. *)
Definition numeric_col (col : string) (df : DataFrame) : res (list number) :=
  res_mapM (fun r => as_number (cell r col)) (rows df).

Definition num_min2 (a b : number) : number :=
  match a, b with
  | NaN, _ => b
  | _, NaN => a
  | Num x, Num y => if Qle_bool x y then a else b
  end.

Definition num_max2 (a b : number) : number :=
  match a, b with
  | NaN, _ => b
  | _, NaN => a
  | Num x, Num y => if Qle_bool x y then b else a
  end.

(** [Series.min()] and [Series.max()]: NaN is skipped, and is the answer
    when nothing is left. *)
Definition col_min (l : list number) : number := fold_right num_min2 NaN l.
Definition col_max (l : list number) : number := fold_right num_max2 NaN l.

(** [Series.median()] and [Series.mean()]: NaN is skipped, and is the answer
    when nothing is left. *)
Definition drop_nan (l : list number) : list Q :=
  flat_map (fun n => match n with Num q => [q] | NaN => [] end) l.

Fixpoint insert_sorted (x : Q) (l : list Q) : list Q :=
  match l with
  | [] => [x]
  | y :: t => if Qle_bool x y then x :: l else y :: insert_sorted x t
  end.

Definition sort_Q (l : list Q) : list Q := fold_right insert_sorted [] l.

Definition median (l : list number) : number :=
  let s := sort_Q (drop_nan l) in
  let n := List.length s in
  if (n =? 0)%nat then NaN
  else if Nat.even n
       then Num ((nth (n / 2 - 1)%nat s 0%Q + nth (n / 2)%nat s 0%Q) / 2)
       else Num (nth (n / 2)%nat s 0%Q).

Definition mean (l : list number) : number :=
  let s := drop_nan l in
  if (List.length s =? 0)%nat then NaN
  else Num (fold_right Qplus 0%Q s / inject_Z (Z.of_nat (List.length s))).

(** [needle in hay] on text. *)
Fixpoint contains (needle hay : string) : bool :=
  String.prefix needle hay
  || match hay with
     | EmptyString => false
     | String _ t => contains needle t
     end.

(** [groupby(col).size()]: the keys in ascending order with their counts;
    rows whose key is missing are left out. *)
Fixpoint count_insert (d : Z) (acc : list (Z * nat)) : list (Z * nat) :=
  match acc with
  | [] => [(d, 1%nat)]
  | (k, n) :: t =>
      if d <? k then (d, 1%nat) :: acc
      else if d =? k then (k, S n) :: t
      else (k, n) :: count_insert d t
  end.

Definition groupby_size (col : string) (df : DataFrame) : list (Z * nat) :=
  fold_left (fun acc r => match cell r col with
                          | VDate d => count_insert d acc
                          | _ => acc
                          end) (rows df) [].

(** [df[cols]]: the listed columns only. *)
Definition project (cols : list string) (df : DataFrame) : DataFrame :=
  {| columns := cols;
     rows := List.map (fun r => list_to_map (List.map (fun c => (c, cell r c)) cols))
                      (rows df) |}.

(** [df.drop(columns=[col])]. *)
Definition drop_col (col : string) (df : DataFrame) : DataFrame :=
  {| columns := List.filter (fun c => negb (String.eqb c col)) (columns df);
     rows := List.map (delete col) (rows df) |}.

(** [df.rename(columns={old: new})]. *)
Definition rename_col (old new : string) (df : DataFrame) : DataFrame :=
  {| columns := List.map (fun c => if String.eqb c old then new else c) (columns df);
     rows := List.map (fun r => match r !! old with
                                | Some x => <[new := x]> (delete old r)
                                | None => r
                                end) (rows df) |}.

(** The characters of a text, each as the text of its UTF-8 bytes. *)
Fixpoint chars_of (cs cur : list ascii) : list string :=
  let flush := match cur with
               | [] => []
               | _ :: _ => [string_of_list_ascii (rev cur)]
               end in
  match cs with
  | [] => flush
  | c :: t => if is_cont c then chars_of t (c :: cur) else flush ++ chars_of t [c]
  end.

(** [df[col]]: the cells of a column, in row order. *)
Definition column (col : string) (df : DataFrame) : list pyval :=
  List.map (fun r => cell r col) (rows df).

(** [df[dst] = values]: one value per row; pandas refuses any other
    length. *)
Fixpoint set_cells (dst : string) (rs : list (gmap string pyval))
    (vals : list pyval) : res (list (gmap string pyval)) :=
  match rs, vals with
  | [], [] => Ok []
  | r :: rs', v :: vals' => rows' ← set_cells dst rs' vals'; Ok (<[dst := v]> r :: rows')
  | _, _ => Raise ValueError
  end.

Definition assign_col (dst : string) (vals : list pyval) (df : DataFrame)
    : res DataFrame :=
  rows' ← set_cells dst (rows df) vals;
  Ok {| columns := add_col dst (columns df); rows := rows' |}.

(** What [<] is defined between: text and text, number and number (NaN and
    the booleans are numbers to Python), date and date.  [None] compares
    with nothing, and a list cannot be hashed. *)
Inductive kind := KNone | KNumber | KText | KList | KDate.

Definition kind_of (x : pyval) : kind :=
  match x with
  | VNone => KNone
  | VNaN | VNum _ | VBool _ => KNumber
  | VStr _ => KText
  | VList _ => KList
  | VDate _ => KDate
  end.

Definition kind_eqb (a b : kind) : bool :=
  match a, b with
  | KNone, KNone | KNumber, KNumber | KText, KText | KList, KList
  | KDate, KDate => true
  | _, _ => false
  end.

(** Whether [sorted(values.unique().tolist())] goes through.  [unique]
    hashes every value, and [sorted] has to compare values of every kind
    present with one another: a list among the values, or two values of
    different kinds, raise [TypeError]. *)
Definition sortable (values : list pyval) : bool :=
  match values with
  | [] => true
  | x :: rest =>
      negb (kind_eqb (kind_of x) KList)
      && forallb (fun y => kind_eqb (kind_of y) (kind_of x)) rest
  end.

(** The display layer: the three charts of plotly express, each with the
    [st.plotly_chart] that shows it, [st.dataframe] and [st.image].  A call
    shows what it is given or raises; which of the two is the library's
    business (a chart misses a column it is told to read, an image cannot
    be opened). *)
Record display := {
  (** [px.scatter(f_df, x="deposit_disp", y="monthly_rent_disp",
      size="size", color="business_middle_code_name", hover_name="title")]. *)
  px_scatter : DataFrame -> res unit;
  (** [px.histogram(f_df, x="premium_disp", nbins=15)]. *)
  px_histogram : DataFrame -> res unit;
  (** [px.line(trend, x='regDate', y='count')]. *)
  px_line : list (Z * nat) -> res unit;
  (** [st.dataframe(table_df)]. *)
  st_dataframe : DataFrame -> res unit;
  (** [st.image(url)]. *)
  st_image : pyval -> res unit
}.

(** [item.get(col, default)] on a row of [df]. *)
Definition item_get (df : DataFrame) (item : gmap string pyval) (col : string)
    (dflt : pyval) : pyval :=
  if has_col col df then cell item col else dflt.

Section Script.

(** [json.loads]; [None] stands for [JSONDecodeError]. *)
Variable json_loads : string -> option pyval.
(** [re.compile] ([None] stands for [re.error]) and [pattern.search]. *)
Variable regex : Type.
Variable re_compile : string -> option regex.
Variable re_search : regex -> string -> bool.
(** [pd.to_datetime(column).dt.date]: the whole column at once, since the
    format is inferred from the column and one cell can make the call fail
    for all of them. *)
Variable to_datetime : list pyval -> res (list pyval).
(** The display calls. *)
Variable ui : display.

(** *** [load_db_data] *)

(** The lambda applied to the cells of a JSON column:
    [json.loads(x) if isinstance(x, str) and x.startswith('[')
     else (x if x else [])]. *)
Definition decode_json_cell (x : pyval) : res pyval :=
  match x with
  | VStr s =>
      if String.prefix "[" s then
        match json_loads s with
        | Some v => Ok v
        | None => Raise JSONDecodeError
        end
      else Ok (if truthy x then x else VList [])
  | _ => Ok (if truthy x then x else VList [])
  end.

Definition json_cols : list string := ["small_photo_urls"; "origin_photo_urls"].

Definition decode_json_cols (df : DataFrame) : res DataFrame :=
  res_foldM (fun df col =>
               if has_col col df then apply_col decode_json_cell col col df
               else Ok df)
            json_cols df.

(** [load_db_data]: [query] is the outcome of connecting and reading the
    table.  The result is the returned frame and the error reported with
    [st.error], if any: every exception raised in the body is caught. *)
Definition load_db_data (query : res DataFrame) : DataFrame * option exn :=
  match (df ← query; decode_json_cols df) with
  | Ok df => (df, None)
  | Raise e => (empty_frame, Some e)
  end.

(** *** Unit choice and derived columns *)

Definition target_unit_of (unit_choice : string) : string :=
  if String.eqb unit_choice "원" then "원" else "만".

Definition price_cols : list string :=
  ["deposit"; "monthly_rent"; "premium"; "maintenance_fee"; "sale"].

Definition disp (col : string) : string := col ++ "_disp".

(** [lambda x: convert_price(x, target_unit)] on a cell. *)
Definition convert_cell (target_unit : string) (x : pyval) : res pyval :=
  v ← as_price x; n ← convert_price v target_unit; Ok (of_number n).

Definition add_disp_col (target_unit : string) (df : DataFrame) (col : string)
    : res DataFrame :=
  if has_col col df
  then apply_col (convert_cell target_unit) col (disp col) df
  else Ok df.

Definition add_reg_date (df : DataFrame) : res DataFrame :=
  if has_col "created_date_utc" df
  then dates ← to_datetime (column "created_date_utc" df);
       assign_col "regDate" dates df
  else Ok df.

(** Lines 164-173: the display columns and the registration date. *)
Definition preprocess (target_unit : string) (raw_df : DataFrame) : res DataFrame :=
  df ← res_foldM (add_disp_col target_unit) price_cols raw_df;
  add_reg_date df.

(** *** Sidebar: filter criteria *)

(** What the user set in the widgets.  The industry select box offers
    ["전체"] and the sorted categories of the table ([industries]); its
    outcome is [industry_choice]. *)
Record widgets := {
  unit_choice : string;
  industry_choice : string;
  search_station : string;
  premium_checkbox : bool;
  slider_choice : option (number * number)
}.

Definition all_industries : string := "전체".

(** Line 179: [sorted(df[col_ind].unique().tolist())], the options of the
    select box.  Only whether the call goes through matters to the rest of
    the script. *)
Definition industries (df : DataFrame) : res unit :=
  if has_col "business_middle_code_name" df then
    if sortable (column "business_middle_code_name" df) then Ok tt
    else Raise TypeError
  else Ok tt.

Definition sel_ind (w : widgets) (df : DataFrame) : string :=
  if has_col "business_middle_code_name" df then industry_choice w
  else all_industries.

Definition hide_premium_closed (w : widgets) (df : DataFrame) : bool :=
  if has_col "is_premium_closed" df then premium_checkbox w else false.

(** [st.slider(label, lo, hi, (lo, hi))]: the chosen pair, the whole
    range until the user moves it. *)
Definition slider (w : widgets) (lo hi : number) : number * number :=
  match slider_choice w with
  | Some choice => choice
  | None => (lo, hi)
  end.

(** Lines 192-202. *)
Definition rent_range (w : widgets) (df : DataFrame) : res (number * number) :=
  if has_col "monthly_rent_disp" df then
    col ← numeric_col "monthly_rent_disp" df;
    let min_rent := col_min col in
    let max_rent := col_max col in
    if num_ltb min_rent max_rent
    then Ok (slider w min_rent max_rent)
    else Ok (min_rent, max_rent)
  else Ok (Num 0, Num 0).

(** *** Filtering (lines 204-213) *)

(** [cell == text], elementwise. *)
Definition eq_text (text : string) (x : pyval) : bool :=
  match x with
  | VStr s => String.eqb s text
  | _ => false
  end.

(** [cell == False], elementwise: [0 == False] holds in Python. *)
Definition eq_False (x : pyval) : bool :=
  match x with
  | VBool b => negb b
  | VNum q => Qeq_bool q 0
  | _ => false
  end.

(** [Series.str.contains(pat, na=False)] on one cell, the pattern being
    compiled already: a cell that is not text counts as missing. *)
Definition str_contains (re : regex) (x : pyval) : bool :=
  match x with
  | VStr s => re_search re s
  | _ => false
  end.

Definition in_range (range : number * number) (n : number) : bool :=
  num_leb (fst range) n && num_leb n (snd range).

Definition step_category (sel : string) (f_df : DataFrame) : res DataFrame :=
  if negb (String.eqb sel all_industries) then
    if has_col "business_middle_code_name" f_df
    then Ok (filter_rows (fun r => eq_text sel (cell r "business_middle_code_name")) f_df)
    else Raise KeyError
  else Ok f_df.

Definition step_location (search : string) (f_df : DataFrame) : res DataFrame :=
  if negb (String.eqb search "") && has_col "near_subway_station" f_df then
    match re_compile search with
    | Some re =>
        Ok (filter_rows (fun r => str_contains re (cell r "near_subway_station")) f_df)
    | None => Raise ReError
    end
  else Ok f_df.

Definition step_premium (hide : bool) (f_df : DataFrame) : res DataFrame :=
  if hide && has_col "is_premium_closed" f_df
  then Ok (filter_rows (fun r => eq_False (cell r "is_premium_closed")) f_df)
  else Ok f_df.

(** The mask is computed over the whole column before any row is dropped. *)
Definition step_rent (range : number * number) (f_df : DataFrame) : res DataFrame :=
  if has_col "monthly_rent_disp" f_df then
    _ ← numeric_col "monthly_rent_disp" f_df;
    Ok (filter_rows
          (fun r => match as_number (cell r "monthly_rent_disp") with
                    | Ok n => in_range range n
                    | Raise _ => false
                    end) f_df)
  else Ok f_df.

Record criteria := {
  c_sel_ind : string;
  c_search_station : string;
  c_hide_premium_closed : bool;
  c_rent_range : number * number
}.

Definition read_criteria (w : widgets) (df : DataFrame) : res criteria :=
  range ← rent_range w df;
  Ok {| c_sel_ind := sel_ind w df;
        c_search_station := search_station w;
        c_hide_premium_closed := hide_premium_closed w df;
        c_rent_range := range |}.

(** [f_df], as the script computes it. *)
Definition f_df (c : criteria) (df : DataFrame) : res DataFrame :=
  d1 ← step_category (c_sel_ind c) df;
  d2 ← step_location (c_search_station c) d1;
  d3 ← step_premium (c_hide_premium_closed c) d2;
  step_rent (c_rent_range c) d3.

(** The four filtering statements as a list, and a run of such
    statements in a given order. *)
Definition steps (c : criteria) : list (DataFrame -> res DataFrame) :=
  [step_category (c_sel_ind c);
   step_location (c_search_station c);
   step_premium (c_hide_premium_closed c);
   step_rent (c_rent_range c)].

Definition apply_steps (order : list (DataFrame -> res DataFrame))
    (df : DataFrame) : res DataFrame :=
  res_foldM (fun d step => step d) order df.

(** The row test each criterion stands for; a criterion that is not set
    lets every row pass.  [df] is the table before filtering: only its
    column list is consulted. *)
Definition keep_category (c : criteria) (r : gmap string pyval) : bool :=
  if negb (String.eqb (c_sel_ind c) all_industries)
  then eq_text (c_sel_ind c) (cell r "business_middle_code_name")
  else true.

Definition keep_location (c : criteria) (df : DataFrame) (r : gmap string pyval) : bool :=
  if negb (String.eqb (c_search_station c) "") && has_col "near_subway_station" df then
    match re_compile (c_search_station c) with
    | Some re => str_contains re (cell r "near_subway_station")
    | None => false
    end
  else true.

Definition keep_premium (c : criteria) (df : DataFrame) (r : gmap string pyval) : bool :=
  if c_hide_premium_closed c && has_col "is_premium_closed" df
  then eq_False (cell r "is_premium_closed")
  else true.

Definition keep_rent (c : criteria) (df : DataFrame) (r : gmap string pyval) : bool :=
  if has_col "monthly_rent_disp" df then
    match as_number (cell r "monthly_rent_disp") with
    | Ok n => in_range (c_rent_range c) n
    | Raise _ => false
    end
  else true.

Definition row_passes (c : criteria) (df : DataFrame) (r : gmap string pyval) : bool :=
  keep_category c r && keep_location c df r && keep_premium c df r && keep_rent c df r.

(** The truth value of an undisclosed-premium flag: a boolean, or a number
    as SQLite stores booleans.  Other cells carry no flag. *)
Definition flag_of (x : pyval) : option bool :=
  match x with
  | VBool b => Some b
  | VNum q => Some (negb (Qeq_bool q 0))
  | _ => None
  end.

(** *** 4. Main dashboard: KPIs and trend (lines 224-291) *)

Definition kpi_count (f_df : DataFrame) : string :=
  fmt_int (Z.of_nat (List.length (rows f_df))) ++ " 건".

Definition no_value : string := "-".

(** The median KPI of a display column. *)
Definition kpi_median (col target_unit : string) (f_df : DataFrame) : res string :=
  if negb (frame_empty f_df) && has_col col f_df then
    c ← numeric_col col f_df;
    Ok (format_price_display (median c) target_unit)
  else Ok no_value.

Definition fmt_area (val : number) : string :=
  match val with
  | NaN => "nan ㎡"
  | Num q => fmt_f1 q ++ " ㎡"
  end.

Definition kpi_size (f_df : DataFrame) : res string :=
  if negb (frame_empty f_df) && has_col "size" f_df then
    c ← numeric_col "size" f_df;
    Ok (fmt_area (mean c))
  else Ok no_value.

(** The data of the trend chart; [None] is the "no data" notice. *)
Definition trend (f_df : DataFrame) : option (list (Z * nat)) :=
  if has_col "regDate" f_df && negb (frame_empty f_df)
  then Some (groupby_size "regDate" f_df)
  else None.

(** *** 5. Table and detail panel (lines 299-367) *)

Definition cols_to_use : list string :=
  ["title"; "business_middle_code_name"; "size"; "floor"; "deposit_disp";
   "monthly_rent_disp"; "premium_disp"; "maintenance_fee_disp";
   "near_subway_station"; "regDate"].

Definition price_map : list (string * string) :=
  [("deposit_disp", "보증금"); ("monthly_rent_disp", "월세");
   ("premium_disp", "권리금"); ("maintenance_fee_disp", "관리비")].

Definition column_rename_map : list (string * string) :=
  [("title", "제목"); ("business_middle_code_name", "업종"); ("size", "면적(㎡)");
   ("floor", "층"); ("near_subway_station", "역정보"); ("regDate", "등록일")].

(** [lambda x: format_price_display(x, target_unit)] on a cell. *)
Definition format_cell (target_unit : string) (x : pyval) : res pyval :=
  n ← as_number x; Ok (VStr (format_price_display n target_unit)).

Definition format_price_col (target_unit : string) (table_df : DataFrame)
    (entry : string * string) : res DataFrame :=
  if has_col (fst entry) table_df then
    t ← apply_col (format_cell target_unit) (fst entry) (snd entry) table_df;
    Ok (drop_col (fst entry) t)
  else Ok table_df.

Definition rename_present (table_df : DataFrame) (entry : string * string) : DataFrame :=
  if has_col (fst entry) table_df
  then rename_col (fst entry) (snd entry) table_df
  else table_df.

Definition table_view (target_unit : string) (f_df : DataFrame) : res DataFrame :=
  let display_cols := List.filter (fun c => has_col c f_df) cols_to_use in
  t ← res_foldM (format_price_col target_unit) price_map (project display_cols f_df);
  Ok (fold_left rename_present column_rename_map t).

(** [st.selectbox(label, f_df['title'].unique())]: the user points at a
    listed title, the first one until the user picks another.  A title is
    listed exactly when some row carries it, so the choice is modelled by
    the position of such a row. *)
Record selection := { title_row : nat }.

Definition selected_title (s : selection) (f_df : DataFrame) : pyval :=
  match nth_error (rows f_df) (title_row s), rows f_df with
  | Some r, _ => cell r "title"
  | None, r :: _ => cell r "title"
  | None, [] => VNaN
  end.

(** [cell == selected_title], elementwise; NULL and NaN equal nothing. *)
Definition eq_cell (sel x : pyval) : res bool :=
  match sel with
  | VStr s => Ok (eq_text s x)
  | VNum q =>
      Ok (match x with
          | VNum y => Qeq_bool y q
          | VBool b => Qeq_bool (if b then 1 else 0) q
          | _ => false
          end)
  | VBool b =>
      Ok (match x with
          | VNum y => Qeq_bool y (if b then 1 else 0)
          | VBool b' => Bool.eqb b b'
          | _ => false
          end)
  | VDate d => Ok (match x with VDate d' => d =? d' | _ => false end)
  | VNone | VNaN => Ok false
  | VList _ => Raise ValueError
  end.

(** [f_df[f_df['title'] == selected_title].iloc[0]]. *)
Definition select_item (sel : pyval) (f_df : DataFrame) : res (gmap string pyval) :=
  mask ← res_mapM (fun r => eq_cell sel (cell r "title")) (rows f_df);
  match List.filter (fun r => match eq_cell sel (cell r "title") with
                              | Ok b => b
                              | Raise _ => false
                              end) (rows f_df) with
  | r :: _ => Ok r
  | [] => Raise IndexError
  end.

Definition marker : string := "이촌".
Definition comment_pending : string := "상세 코멘트 준비 중입니다.".
Definition comment_unavailable : string := "중개사 상세 설명이 등록되지 않은 매물입니다.".

(** Lines 362-365, for a title that is text. *)
Definition resolve_comment (base_comment title : string) : string :=
  if contains marker title
  then (if negb (String.eqb base_comment "") then base_comment else comment_pending)
  else comment_unavailable.

(** ["이촌" in item['title']] needs a title that supports [in]. *)
Definition comment_of (base_comment : string) (title : pyval) : res string :=
  match title with
  | VStr t => Ok (resolve_comment base_comment t)
  | _ => Raise TypeError
  end.

(** [for idx, url in enumerate(photos[:6]): st.image(url)]: the entries
    shown, once every one of them has been shown. *)
Definition show_images (urls : list pyval) : res (list pyval) :=
  _ ← res_mapM (st_image ui) urls; Ok urls.

(** The gallery (lines 339-345): the photo list, else the preview photo,
    cut to six entries, each handed to [st.image].  Slicing a text yields
    its characters; a value that is neither a list nor text cannot be
    sliced. *)
Definition gallery (f_df : DataFrame) (item : gmap string pyval) : res (list pyval) :=
  let photos := item_get f_df item "small_photo_urls" (VList []) in
  let photos := if negb (truthy photos) && has_col "preview_photo_url" f_df
                then VList [cell item "preview_photo_url"]
                else photos in
  let photos := if negb (truthy photos) then VList [] else photos in
  match photos with
  | VList l => show_images (firstn 6 l)
  | VStr t =>
      show_images (List.map VStr (firstn 6 (chars_of (list_ascii_of_string t) [])))
  | _ => Raise TypeError
  end.

(** [format_price_display(item.get(col, 0), target_unit)]. *)
Definition detail_metric (target_unit : string) (f_df : DataFrame)
    (item : gmap string pyval) (col : string) : res string :=
  n ← as_number (item_get f_df item col (VNum 0));
  Ok (format_price_display n target_unit).

(** The detail panel: title, gallery, the four price figures and the
    comment.  The badges and the location and area lines print cells as they
    are and are left out. *)
Record detail_view := {
  d_title : pyval;
  d_photos : list pyval;
  d_deposit : string;
  d_monthly_rent : string;
  d_premium : string;
  d_maintenance_fee : string;
  d_comment : string
}.

Definition detail (target_unit base_comment : string) (s : selection)
    (f_df : DataFrame) : res detail_view :=
  _ ← (if has_col "title" f_df then Ok tt else Raise KeyError);
  item ← select_item (selected_title s f_df) f_df;
  photos ← gallery f_df item;
  dep ← detail_metric target_unit f_df item "deposit_disp";
  rent ← detail_metric target_unit f_df item "monthly_rent_disp";
  prem ← detail_metric target_unit f_df item "premium_disp";
  fee ← detail_metric target_unit f_df item "maintenance_fee_disp";
  com ← comment_of base_comment (cell item "title");
  Ok {| d_title := cell item "title"; d_photos := photos; d_deposit := dep;
        d_monthly_rent := rent;
        d_premium := prem; d_maintenance_fee := fee; d_comment := com |}.

(** What one render cycle shows.  [None] in [v_trend] and in [v_results]
    is the "no data" notice of that area. *)
Record dashboard := {
  v_count : string;
  v_rent : string;
  v_deposit : string;
  v_size : string;
  v_charts : bool;
  v_trend : option (list (Z * nat));
  v_results : option (DataFrame * detail_view)
}.

(** Lines 249-276: the scatter plot and the histogram, or the notice that
    there is nothing to plot. *)
Definition charts (f_df : DataFrame) : res bool :=
  if negb (frame_empty f_df) then
    _ ← px_scatter ui f_df;
    _ ← px_histogram ui f_df;
    Ok true
  else Ok false.

(** Lines 280-291: the trend chart over [trend]. *)
Definition show_trend (f_df : DataFrame) : res (option (list (Z * nat))) :=
  match trend f_df with
  | Some t => _ ← px_line ui t; Ok (Some t)
  | None => Ok None
  end.

Definition render (target_unit base_comment : string) (s : selection)
    (f_df : DataFrame) : res dashboard :=
  rent ← kpi_median "monthly_rent_disp" target_unit f_df;
  dep ← kpi_median "deposit_disp" target_unit f_df;
  size ← kpi_size f_df;
  plotted ← charts f_df;
  counts ← show_trend f_df;
  results ← (if negb (frame_empty f_df) then
               t ← table_view target_unit f_df;
               _ ← st_dataframe ui t;
               d ← detail target_unit base_comment s f_df;
               Ok (Some (t, d))
             else Ok None);
  Ok {| v_count := kpi_count f_df; v_rent := rent; v_deposit := dep;
        v_size := size; v_charts := plotted;
        v_trend := counts; v_results := results |}.

(** The whole script on one render cycle; [None] is [st.stop()] after the
    warning that no data could be loaded.  [base_comment] is the comment
    text extracted from the markdown file, empty when there is none. *)
Definition run (query : res DataFrame) (base_comment : string) (w : widgets)
    (s : selection) : res (option dashboard) :=
  let raw_df := fst (load_db_data query) in
  if frame_empty raw_df then Ok None
  else
    let target_unit := target_unit_of (unit_choice w) in
    df ← preprocess target_unit raw_df;
    _ ← industries df;
    c ← read_criteria w df;
    filtered ← f_df c df;
    d ← render target_unit base_comment s filtered;
    Ok (Some d).

End Script.

(* ===================================================================== *)
(** ** The comment file (lines 84-99, 123-134, 148-150) *)
(* ===================================================================== *)

(** The UTF-8 bytes of a code point. *)
Definition byte_of (n : N) : ascii := ascii_of_N n.

Definition utf8_char (cp : N) : string :=
  string_of_list_ascii
    (if (cp <? 128)%N then [byte_of cp]
     else if (cp <? 2048)%N then
       [byte_of (192 + cp / 64); byte_of (128 + cp mod 64)]
     else if (cp <? 65536)%N then
       [byte_of (224 + cp / 4096); byte_of (128 + (cp / 64) mod 64);
        byte_of (128 + cp mod 64)]
     else
       [byte_of (240 + cp / 262144); byte_of (128 + (cp / 4096) mod 64);
        byte_of (128 + (cp / 64) mod 64); byte_of (128 + cp mod 64)])%N.

(** The characters [str.strip()] removes: those for which [str.isspace]
    holds. *)
Definition space_code_points : list N :=
  [9; 10; 11; 12; 13; 28; 29; 30; 31; 32; 133; 160; 5760; 8192; 8193; 8194;
   8195; 8196; 8197; 8198; 8199; 8200; 8201; 8202; 8232; 8233; 8239; 8287;
   12288]%N.

Definition is_space (ch : string) : bool :=
  existsb (fun cp => String.eqb ch (utf8_char cp)) space_code_points.

Fixpoint drop_spaces (chars : list string) : list string :=
  match chars with
  | ch :: t => if is_space ch then drop_spaces t else chars
  | [] => []
  end.

(** [s.strip()]. *)
Definition py_strip (s : string) : string :=
  String.concat ""
    (rev (drop_spaces (rev (drop_spaces (chars_of (list_ascii_of_string s) []))))).

Fixpoint string_drop (n : nat) (s : string) : string :=
  match n, s with
  | O, _ => s
  | S k, String _ t => string_drop k t
  | S _, EmptyString => EmptyString
  end.

(** The pieces of [s] between the occurrences of [sep], found from the left
    without overlap; [skip] counts the characters of a separator still to be
    passed over and [cur] holds the current piece, last character first. *)
Fixpoint split_go (sep s : string) (skip : nat) (cur : list ascii) : list string :=
  match s with
  | EmptyString => [string_of_list_ascii (rev cur)]
  | String c t =>
      match skip with
      | S k => split_go sep t k cur
      | O =>
          if String.prefix sep s
          then string_of_list_ascii (rev cur)
               :: split_go sep t (String.length sep - 1) []
          else split_go sep t O (c :: cur)
      end
  end.

(** [s.split(sep)]; an empty separator is a [ValueError]. *)
Definition py_split (sep s : string) : res (list string) :=
  if String.eqb sep "" then Raise ValueError else Ok (split_go sep s O []).

(** [s.find(needle)]: the position of the first occurrence, counted in
    bytes; [None] is the answer [-1].  The position is only used to cut [s]. *)
Fixpoint py_find (needle s : string) : option nat :=
  if String.prefix needle s then Some O
  else match s with
       | EmptyString => None
       | String _ t => option_map S (py_find needle t)
       end.

Definition json_end_marker : string :=
  "위 정보에 매핑되는 데이터는 다음 html에 들어 있습니다".

(** [load_html_from_md]: [file] is the outcome of opening and reading the
    file as text.  Every exception is swallowed by the bare [except]. *)
Definition load_html_from_md (file : res string) : string :=
  match file with
  | Ok content =>
      if contains json_end_marker content then
        match py_split json_end_marker content with
        | Ok pieces =>
            let html_part := py_strip (List.last pieces "") in
            match py_find "<div" html_part with
            | Some html_start => string_drop html_start html_part
            | None => ""
            end
        | Raise _ => ""
        end
      else ""
  | Raise _ => ""
  end.

Section Comment.

(** The BeautifulSoup part of [extract_agent_comment]: parsing, finding the
    [div] of class [comment], finding its [p] and reading its text with
    newline separators.  [Ok None] is "no such div", [Ok (Some None)] is
    "no p in it". *)
Variable find_comment_text : string -> res (option (option string)).

(** [extract_agent_comment]. *)
Definition extract_agent_comment (html_content : string) : string :=
  if String.eqb html_content "" then ""
  else match find_comment_text html_content with
       | Ok (Some (Some text)) => py_strip text
       | Ok (Some None) => ""
       | Ok None => ""
       | Raise _ => ""
       end.

(** [base_comment], as lines 149-150 compute it. *)
Definition base_comment_of (md_file : res string) : string :=
  extract_agent_comment (load_html_from_md md_file).

End Comment.

(** One render cycle from the two files to the dashboard. *)
Definition script (json_loads : string -> option pyval) (regex : Type)
    (re_compile : string -> option regex) (re_search : regex -> string -> bool)
    (to_datetime : list pyval -> res (list pyval)) (ui : display)
    (find_comment_text : string -> res (option (option string)))
    (query : res DataFrame) (md_file : res string) (w : widgets) (s : selection)
    : res (option dashboard) :=
  run json_loads regex re_compile re_search to_datetime ui query
      (base_comment_of find_comment_text md_file) w s.

(* ===================================================================== *)
(** ** Notions used to state the properties *)
(* ===================================================================== *)

(** The rent cell of a row is a number (possibly NaN). *)
Definition rent_ok (r : gmap string pyval) : Prop :=
  exists n, as_number (cell r "monthly_rent_disp") = Ok n.

(** What the filtering statements rely on and preserve: the column list is
    [cols], and the display rent column, when present, is numeric. *)
Definition step_inv (cols : list string) (d : DataFrame) : Prop :=
  columns d = cols
  /\ (existsb (String.eqb "monthly_rent_disp") cols = true -> Forall rent_ok (rows d)).

(** A statement that, on every frame satisfying [Inv], either keeps the rows
    passing one fixed row test or raises [e0]. *)
Definition row_wise (Inv : DataFrame -> Prop) (e0 : exn)
    (step : DataFrame -> res DataFrame) : Prop :=
  (exists p, forall d, Inv d -> step d = Ok (filter_rows p d))
  \/ (forall d, Inv d -> step d = Raise e0).

(** What the price figures of the detail panel are, for the selected row. *)
Definition detail_in_unit (target_unit : string) (f : DataFrame)
    (item : gmap string pyval) (dv : detail_view) : Prop :=
  (exists n, as_number (item_get f item "deposit_disp" (VNum 0)) = Ok n
             /\ d_deposit dv = format_price_display n target_unit)
  /\ (exists n, as_number (item_get f item "monthly_rent_disp" (VNum 0)) = Ok n
                /\ d_monthly_rent dv = format_price_display n target_unit)
  /\ (exists n, as_number (item_get f item "premium_disp" (VNum 0)) = Ok n
                /\ d_premium dv = format_price_display n target_unit)
  /\ (exists n, as_number (item_get f item "maintenance_fee_disp" (VNum 0)) = Ok n
                /\ d_maintenance_fee dv = format_price_display n target_unit).

(** What a rendered dashboard shows in the unit [u], over the filtered
    table [f]. *)
Definition views_in_unit (u : string) (f : DataFrame) (d : dashboard) : Prop :=
  (v_rent d = no_value
   \/ exists c, numeric_col "monthly_rent_disp" f = Ok c
                /\ v_rent d = format_price_display (median c) u)
  /\ (v_deposit d = no_value
      \/ exists c, numeric_col "deposit_disp" f = Ok c
                   /\ v_deposit d = format_price_display (median c) u)
  /\ forall t dv, v_results d = Some (t, dv) ->
       (forall e, In e price_map -> has_col (fst e) f = true ->
          Forall2 (fun r r' => exists n, as_number (cell r (fst e)) = Ok n
                                         /\ cell r' (snd e)
                                            = VStr (format_price_display n u))
                  (rows f) (rows t))
       /\ exists item, In item (rows f) /\ detail_in_unit u f item dv.





(** The exception [e] is one a display call raises, on some argument. *)
Definition display_raises (ui : display) (e : exn) : Prop :=
  (exists d, px_scatter ui d = Raise e)
  \/ (exists d, px_histogram ui d = Raise e)
  \/ (exists t, px_line ui t = Raise e)
  \/ (exists t, st_dataframe ui t = Raise e)
  \/ (exists x, st_image ui x = Raise e).

(** A step that goes through, or raises what a display call raised. *)
Definition ok_or_display {A} (ui : display) (m : res A) : Prop :=
  (exists a, m = Ok a) \/ (exists e, m = Raise e /\ display_raises ui e).


(* ===================================================================== *)
(** ** A small dataset to run the model on *)
(* ===================================================================== *)

Definition sample_columns : list string :=
  ["title"; "business_middle_code_name"; "size"; "floor"; "deposit";
   "monthly_rent"; "premium"; "maintenance_fee"; "sale"; "is_premium_closed";
   "near_subway_station"; "created_date_utc"; "small_photo_urls"].

Definition sample_row (title category : string) (size : Q) (floor deposit rent : Z)
    (premium : pyval) (closed : Z) (station photos : pyval) (created : string)
    : gmap string pyval :=
  list_to_map
    [("title", VStr title); ("business_middle_code_name", VStr category);
     ("size", VNum size); ("floor", VNum (inject_Z floor));
     ("deposit", VNum (inject_Z deposit)); ("monthly_rent", VNum (inject_Z rent));
     ("premium", premium); ("maintenance_fee", VNum 15); ("sale", VNaN);
     ("is_premium_closed", VNum (inject_Z closed));
     ("near_subway_station", station); ("created_date_utc", VStr created);
     ("small_photo_urls", photos)].

Definition sample_raw : DataFrame :=
  {| columns := sample_columns;
     rows :=
       [sample_row "동부이촌동 1층 상가" "A" (67 # 2) 1 3000 500 (VNum 1000) 0
          (VStr "이촌역, 도보 3분")
          (VStr ("[" ++ quoted "a.jpg" ++ ", " ++ quoted "b.jpg" ++ "]"))
          "2024-03-15T08:22:11Z";
        sample_row "Gangnam office" "B" 50 3 5000 800 VNaN 1
          VNone (VStr "") "2024-03-16T10:00:00Z";
        sample_row "Seoul cafe" "A" 20 2 1000 500 (VNum 0) 0
          (VStr "A") VNone "2024-03-15T23:59:59Z"] |}.

(** The sample with one more row, whose photo list is cut short. *)
Definition sample_malformed_row : gmap string pyval :=
  sample_row "Broken upload" "A" 10 1 100 10 VNaN 0 VNone (VStr "[abc")
    "2024-03-17T00:00:00Z".

Definition sample_malformed : DataFrame :=
  {| columns := sample_columns; rows := rows sample_raw ++ [sample_malformed_row] |}.

(** A table whose photo column holds text that is not JSON at all. *)
Definition sample_not_json : DataFrame :=
  {| columns := sample_columns;
     rows := [sample_row "Plain text photos" "A" 10 1 100 10 VNaN 0 VNone
                (VStr "not json") "2024-03-17T00:00:00Z"] |}.

Definition sample_widgets : widgets :=
  {| unit_choice := "만원"; industry_choice := "전체"; search_station := "";
     premium_checkbox := false; slider_choice := None |}.

Definition sample_active_widgets : widgets :=
  {| unit_choice := "만원"; industry_choice := "A"; search_station := "역";
     premium_checkbox := true; slider_choice := None |}.

(** The sample after preprocessing in the minor unit. *)
Definition sample_df : DataFrame :=
  match preprocess to_datetime_iso unit_man sample_raw with
  | Ok d => d
  | Raise _ => empty_frame
  end.

Definition sample_criteria : criteria :=
  match read_criteria sample_active_widgets sample_df with
  | Ok c => c
  | Raise _ =>
      {| c_sel_ind := all_industries; c_search_station := "";
         c_hide_premium_closed := false; c_rent_range := (NaN, NaN) |}
  end.

(** The two listings of the sample that ask the same rent. *)
Definition sample_uniform_raw : DataFrame :=
  {| columns := sample_columns;
     rows := List.filter (fun r => eq_text "A" (cell r "business_middle_code_name"))
                         (rows sample_raw) |}.

Definition sample_uniform_df : DataFrame :=
  match preprocess to_datetime_iso unit_man sample_uniform_raw with
  | Ok d => d
  | Raise _ => empty_frame
  end.

(** The sample filtered by a category no listing has. *)
Definition sample_no_match : DataFrame :=
  filter_rows (fun r => eq_text "C" (cell r "business_middle_code_name")) sample_df.

(** A markdown file as the script expects it: a JSON part, the marker
    sentence, then the HTML block. *)
Definition sample_md : string :=
  "{ title: 1 }" ++ "
" ++ json_end_marker ++ ":

<p>preface</p>
<div class=card><p>south-facing corner unit</p></div>
".

(** The outcome of the HTML search on a document without a comment block. *)
Definition find_comment_absent (html : string) : res (option (option string)) :=
  Ok None.

(** The sample as [load_db_data] returns it. *)
Definition sample_loaded : DataFrame :=
  fst (load_db_data json_loads_strings (Ok sample_raw)).

(** The sample with one more listing, whose undisclosed-premium flag is
    NULL. *)
Definition sample_unflagged_row : gmap string pyval :=
  <["is_premium_closed" := VNone]>
    (sample_row "No flag" "A" 10 1 100 10 VNaN 0 VNone VNone "2024-03-17T00:00:00Z").

Definition sample_flags : DataFrame :=
  {| columns := sample_columns; rows := rows sample_raw ++ [sample_unflagged_row] |}.

(** The sample without the flag column. *)
Definition sample_unflagged : DataFrame := drop_col "is_premium_closed" sample_raw.

(** A table whose first listing has no title. *)
Definition sample_untitled : DataFrame :=
  {| columns := sample_columns;
     rows := list_to_map [("title", VNone); ("business_middle_code_name", VStr "A")]
             :: rows sample_raw |}.

(** A display layer that shows whatever it is given. *)
Definition display_all : display :=
  {| px_scatter := fun _ => Ok tt;
     px_histogram := fun _ => Ok tt;
     px_line := fun _ => Ok tt;
     st_dataframe := fun _ => Ok tt;
     st_image := fun _ => Ok tt |}.

(** A display layer whose [st.image] opens no file: it shows the photos
    whose address starts with [http] and raises on anything else. *)
Definition display_web : display :=
  {| px_scatter := fun _ => Ok tt;
     px_histogram := fun _ => Ok tt;
     px_line := fun _ => Ok tt;
     st_dataframe := fun _ => Ok tt;
     st_image := fun x => match x with
                          | VStr url => if String.prefix "http" url then Ok tt
                                        else Raise ValueError
                          | _ => Raise ValueError
                          end |}.

(** The script with the reference instances of the library calls. *)
Definition run_ref : res DataFrame -> string -> widgets -> selection
                     -> res (option dashboard) :=
  run json_loads_strings (list atom) re_compile_literal_dot re_search_literal_dot
      to_datetime_iso display_all.

(* ===================================================================== *)
(** * Properties *)
(* ===================================================================== *)

(** ** Price conversion *)

Lemma py_int_nonneg_floor (q : Q) : (0 <= q)%Q -> py_int q = Qfloor q.
Proof.
  destruct q as [n d]. unfold Qle, py_int, Qfloor. simpl. intros H.
  apply Z.quot_div_nonneg; lia.
Qed.

Lemma py_int_inject_Z (n : Z) : py_int (inject_Z n) = n.
Proof. unfold py_int, inject_Z. simpl. apply Z.quot_1_r. Qed.

Lemma py_int_integral (q : Q) (n : Z) : (q == inject_Z n)%Q -> py_int q = n.
Proof.
  destruct q as [a d]. unfold Qeq, py_int. simpl. intros H.
  rewrite Z.mul_1_r in H. subst a. apply Z.quot_mul. lia.
Qed.

Lemma b64_zero (q : Q) : (q == 0)%Q -> b64 q = Some 0%Q.
Proof. intros H. unfold b64. apply Qeq_bool_iff in H. rewrite H. reflexivity. Qed.

Lemma convert_price_is_num (v : option number) (u : string) (n : number) :
  convert_price v u = Ok n -> exists q, n = Num q.
Proof.
  unfold convert_price. destruct v as [[|v]|].
  - intros H; inversion H; eauto.
  - destruct (String.eqb u "원").
    + destruct (b64 (v * 1000)); intros H; inversion H; eauto.
    + destruct (b64 (v / 10)); intros H; inversion H; eauto.
  - intros H; inversion H; eauto.
Qed.

(** A missing value and a zero convert to 0 in either unit. *)
Lemma convert_price_zero (v : option number) (u : string) :
  v = None \/ v = Some NaN \/ (exists q, v = Some (Num q) /\ (q == 0)%Q) ->
  exists z, convert_price v u = Ok (Num z) /\ (z == 0)%Q.
Proof.
  intros [->|[->|[q [-> Hq]]]]; try (exists 0%Q; split; reflexivity).
  unfold convert_price. destruct (String.eqb u "원").
  - rewrite b64_zero by (rewrite Hq; reflexivity).
    exists (inject_Z (py_int 0)). split; reflexivity.
  - rewrite b64_zero by (rewrite Hq; reflexivity).
    exists 0%Q. split; reflexivity.
Qed.

(** C1, at a stored value with a fraction of a 원.  The value [1/2048]
    (0.00048828125) is a double and so is its product by 1000, 0.48828125:
    no float rounding is involved.  [convert_price] returns 0 in the major
    unit, where the claim, and the formula of the docstring, give
    0.48828125: the [int] call cuts the fraction off.  On a whole value,
    here 180, both units are exact. *)
Theorem convert_price_major_truncates :
  b64 (1 # 2048) = Some (1 # 2048)
  /\ b64 ((1 # 2048) * 1000) = Some (125 # 256)
  /\ convert_price (Some (Num (1 # 2048))) unit_won = Ok (Num 0)
  /\ ~ (0 == (1 # 2048) * 1000)%Q
  /\ convert_price (Some (Num 180)) unit_won = Ok (Num 180000)
  /\ convert_price (Some (Num 180)) unit_man = Ok (Num 18).
Proof.
  repeat split; try (vm_compute; reflexivity). intros H. discriminate H.
Qed.

(** The double nearest 0.57 is a little below it; its product by 1000 is
    rounded to the double 570, which [int] leaves alone. *)
Lemma convert_price_rounds_product :
  convert_price (Some (Num (5134103575202365 # 9007199254740992))) unit_won
  = Ok (Num 570)
  /\ ((5134103575202365 # 9007199254740992) * 1000 < 570)%Q.
Proof. split; [vm_compute; reflexivity | reflexivity]. Qed.

(** ** Price formatting *)

(** C3: the strings the specification fixes. *)
Theorem format_price_display_examples :
  format_price_display (Num 0) unit_man = "-"
  /\ format_price_display (Num 0) unit_won = "-"
  /\ format_price_display (Num 10000) unit_man = "1억"
  /\ format_price_display (Num 12345) unit_man = "1억 2,345만"
  /\ format_price_display (Num 9999) unit_man = "9,999만"
  /\ format_price_display (Num 1230000) unit_man = "123억"
  /\ format_price_display (Num 1234567) unit_man = "123억 4,567만"
  /\ format_price_display (Num 1500) unit_won = "₩1,500".
Proof. repeat split; vm_compute; reflexivity. Qed.

(** Zero renders as the dash whatever the unit text. *)
Lemma format_price_display_zero (u : string) : format_price_display (Num 0) u = "-".
Proof. reflexivity. Qed.

(** ** Text containment *)

Lemma append_nil_l (s : string) : "" ++ s = s.
Proof. reflexivity. Qed.

Lemma append_cons (c : ascii) (s t : string) : String c s ++ t = String c (s ++ t).
Proof. reflexivity. Qed.

Lemma prefix_spec (s1 s2 : string) :
  String.prefix s1 s2 = true <-> exists post, s2 = s1 ++ post.
Proof.
  revert s1. induction s2 as [|d s2 IH]; intros [|c s1]; simpl.
  - split; [intros _; exists ""; reflexivity | intros _; reflexivity].
  - split; [discriminate | intros [post H]; discriminate].
  - split; [intros _; exists (String d s2); reflexivity | intros _; reflexivity].
  - destruct (ascii_dec c d) as [->|Hne].
    + rewrite IH. split; intros [post H]; exists post.
      * rewrite append_cons. now rewrite H.
      * rewrite append_cons in H. now inversion H.
    + split; [discriminate|]. intros [post H]. rewrite append_cons in H.
      inversion H. congruence.
Qed.

(** [contains needle hay] holds exactly when [needle] occurs in [hay]. *)
Lemma contains_spec (needle hay : string) :
  contains needle hay = true <-> exists pre post, hay = pre ++ needle ++ post.
Proof.
  induction hay as [|c hay IH].
  - change (contains needle "") with (String.prefix needle "" || false).
    rewrite orb_false_r, prefix_spec. split.
    + intros [post H]. exists "", post. exact H.
    + intros [pre [post H]]. destruct pre as [|d pre].
      * exists post. exact H.
      * rewrite append_cons in H. discriminate.
  - change (contains needle (String c hay))
      with (String.prefix needle (String c hay) || contains needle hay).
    rewrite orb_true_iff, prefix_spec, IH. split.
    + intros [[post H]|[pre [post H]]].
      * exists "", post. exact H.
      * exists (String c pre), post. rewrite append_cons. now rewrite H.
    + intros [pre [post H]]. destruct pre as [|d pre].
      * left. exists post. exact H.
      * right. rewrite append_cons in H. inversion H. exists pre, post. reflexivity.
Qed.

(** ** Comment resolution *)

(** C10: a record whose title does not contain the marker ["이촌"] receives
    the static not-available text; the auxiliary text is returned only for a
    title that contains the marker (where it is returned whenever it is not
    empty). *)
Theorem resolve_comment_by_marker (base_comment title : string) :
  (contains marker title = false ->
     resolve_comment base_comment title = comment_unavailable
     /\ comment_of base_comment (VStr title) = Ok comment_unavailable)
  /\ (contains marker title = true -> base_comment <> "" ->
        resolve_comment base_comment title = base_comment
        /\ comment_of base_comment (VStr title) = Ok base_comment)
  /\ (resolve_comment base_comment title <> comment_unavailable ->
        contains marker title = true).
Proof.
  unfold comment_of, resolve_comment.
  split; [|split].
  - intros ->. split; reflexivity.
  - intros -> Hne. destruct (String.eqb_spec base_comment ""); [contradiction|].
    split; reflexivity.
  - destruct (contains marker title); [reflexivity | congruence].
Qed.

Lemma resolve_comment_by_marker_witness :
  resolve_comment "채광이 좋은 코너 상가" "Seoul cafe" = comment_unavailable
  /\ resolve_comment "채광이 좋은 코너 상가" "동부이촌동 1층 상가" = "채광이 좋은 코너 상가"
  /\ contains marker "동부이촌동 1층 상가" = true.
Proof.
  split; [|split].
  - apply (proj1 (resolve_comment_by_marker "채광이 좋은 코너 상가" "Seoul cafe")).
    vm_compute; reflexivity.
  - apply (proj1 (proj2 (resolve_comment_by_marker "채광이 좋은 코너 상가"
                           "동부이촌동 1층 상가"))).
    + vm_compute; reflexivity.
    + discriminate.
  - apply (proj2 (proj2 (resolve_comment_by_marker "채광이 좋은 코너 상가"
                           "동부이촌동 1층 상가"))).
    vm_compute. discriminate.
Defined.

(** ** The error monad and column updates *)

(** A traversal stops at the first cell that raises. *)
Example res_mapM_ex :
  res_mapM as_number [VNum 1; VNone] = Ok [Num 1; NaN]
  /\ res_mapM as_number [VNum 1; VStr "x"; VNone] = Raise TypeError.
Proof. split; reflexivity. Qed.

Lemma res_mapM_Ok {A B} (f : A -> res B) (l : list A) (l' : list B) :
  res_mapM f l = Ok l' -> Forall2 (fun a b => f a = Ok b) l l'.
Proof.
  revert l'. induction l as [|a l IH]; intros l' H; simpl in H.
  - inversion H. constructor.
  - destruct (f a) as [b|e] eqn:Ha; simpl in H; [|discriminate].
    destruct (res_mapM f l) as [bs|e] eqn:Hl; simpl in H; [|discriminate].
    inversion H. constructor; [exact Ha | apply IH; reflexivity].
Qed.

Lemma res_mapM_total {A B} (f : A -> res B) (l : list A) :
  Forall (fun a => exists b, f a = Ok b) l -> exists l', res_mapM f l = Ok l'.
Proof.
  induction 1 as [|a l [b Hb] _ [l' Hl']]; simpl.
  - eexists; reflexivity.
  - rewrite Hb. simpl. rewrite Hl'. simpl. eexists; reflexivity.
Qed.

(** When [e] is the only exception [f] can raise on the elements of [l] and
    some element raises it, the traversal raises [e]. *)
Lemma res_mapM_raise {A B} (f : A -> res B) (l : list A) (e : exn) :
  Forall (fun a => forall e', f a = Raise e' -> e' = e) l ->
  Exists (fun a => f a = Raise e) l ->
  res_mapM f l = Raise e.
Proof.
  intros Hall Hex. induction Hex as [a l Ha | a l Hex IH]; simpl.
  - rewrite Ha. reflexivity.
  - inversion Hall as [|? ? Hone Hrest]; subst.
    destruct (f a) as [b|e'] eqn:Ha; simpl.
    + rewrite (IH Hrest). reflexivity.
    + f_equal. apply Hone. reflexivity.
Qed.

Lemma has_col_add_col (c dst : string) (cols : list string) :
  existsb (String.eqb c) (add_col dst cols)
  = existsb (String.eqb c) cols || String.eqb c dst.
Proof.
  unfold add_col. destruct (existsb (String.eqb dst) cols) eqn:Hd.
  - destruct (String.eqb_spec c dst) as [->|Hne].
    + rewrite Hd. reflexivity.
    + rewrite orb_false_r. reflexivity.
  - rewrite existsb_app. simpl. rewrite orb_false_r. reflexivity.
Qed.

Lemma apply_col_Ok (f : pyval -> res pyval) (src dst : string) (df t : DataFrame) :
  apply_col f src dst df = Ok t ->
  columns t = add_col dst (columns df)
  /\ Forall2 (fun r r' => exists v, f (cell r src) = Ok v /\ r' = <[dst := v]> r)
             (rows df) (rows t).
Proof.
  unfold apply_col. intros H.
  destruct (res_mapM _ (rows df)) as [rows'|e] eqn:Hm; simpl in H; [|discriminate].
  inversion H; subst; clear H. simpl. split; [reflexivity|].
  apply res_mapM_Ok in Hm. induction Hm as [|r r' l l' Hr _ IH]; constructor.
  - destruct (f (cell r src)) as [v|e] eqn:Hv; simpl in Hr; [|discriminate].
    inversion Hr. exists v. split; reflexivity.
  - exact IH.
Qed.

Lemma cell_insert_eq (r : gmap string pyval) (k : string) (v : pyval) :
  cell (<[k := v]> r) k = v.
Proof. unfold cell. rewrite lookup_insert_eq. reflexivity. Qed.

Lemma cell_insert_ne (r : gmap string pyval) (k k' : string) (v : pyval) :
  k <> k' -> cell (<[k := v]> r) k' = cell r k'.
Proof. intros Hne. unfold cell. rewrite lookup_insert_ne by exact Hne. reflexivity. Qed.

Lemma Forall2_compose {A B C} (P : A -> B -> Prop) (Q : B -> C -> Prop)
    (l1 : list A) (l2 : list B) (l3 : list C) :
  Forall2 P l1 l2 -> Forall2 Q l2 l3 ->
  Forall2 (fun a c => exists b, P a b /\ Q b c) l1 l3.
Proof.
  intros H. revert l3. induction H as [|a b l1 l2 Hab _ IH]; intros l3 H3.
  - inversion H3. constructor.
  - inversion H3; subst. constructor; [exists b; split; assumption | apply IH; assumption].
Qed.

Lemma Forall2_weaken {A B} (P Q : A -> B -> Prop) (l1 : list A) (l2 : list B) :
  (forall a b, P a b -> Q a b) -> Forall2 P l1 l2 -> Forall2 Q l1 l2.
Proof. intros HPQ H. induction H; constructor; auto. Qed.

Lemma Forall2_In_l {A B} (P : A -> B -> Prop) (l1 : list A) (l2 : list B) (a : A) :
  Forall2 P l1 l2 -> In a l1 -> exists b, In b l2 /\ P a b.
Proof.
  induction 1 as [|x y l1 l2 Hxy _ IH]; intros Hin; [destruct Hin|].
  destruct Hin as [->|Hin].
  - exists y. split; [left; reflexivity | exact Hxy].
  - destruct (IH Hin) as [b [Hb HP]]. exists b. split; [right; exact Hb | exact HP].
Qed.

Lemma res_mapM_raise_inv {A B} (f : A -> res B) (l : list A) (e : exn) :
  res_mapM f l = Raise e -> exists a, In a l /\ f a = Raise e.
Proof.
  induction l as [|a l IH]; simpl; [discriminate|].
  destruct (f a) as [b|e'] eqn:Ha; simpl.
  - destruct (res_mapM f l) as [bs|e'] eqn:Hl; simpl; [discriminate|].
    intros H. inversion H; subst. destruct (IH eq_refl) as [x [Hx Hfx]].
    exists x. split; [right; exact Hx | exact Hfx].
  - intros H. inversion H; subst. exists a. split; [left; reflexivity | exact Ha].
Qed.

Lemma apply_col_raise_inv (f : pyval -> res pyval) (src dst : string)
    (df : DataFrame) (e : exn) :
  apply_col f src dst df = Raise e ->
  exists r, In r (rows df) /\ f (cell r src) = Raise e.
Proof.
  unfold apply_col. intros H.
  destruct (res_mapM _ (rows df)) as [rows'|e'] eqn:Hm; simpl in H; [discriminate|].
  inversion H; subst. apply res_mapM_raise_inv in Hm. destruct Hm as [r [Hr Hf]].
  exists r. split; [exact Hr|].
  destruct (f (cell r src)) as [v|e']; simpl in Hf; [discriminate|].
  inversion Hf. reflexivity.
Qed.

(** ** Loading: the JSON columns *)

Section Loading.

Variable json_loads : string -> option pyval.

Lemma decode_raises_only_json (x : pyval) (e : exn) :
  decode_json_cell json_loads x = Raise e -> e = JSONDecodeError.
Proof.
  destruct x as [| |q|b|s|l|d]; simpl; try discriminate.
  destruct (String.prefix "[" s); [|discriminate].
  destruct (json_loads s); [discriminate|]. intros H. inversion H. reflexivity.
Qed.

Lemma decode_malformed (s : string) :
  String.prefix "[" s = true -> json_loads s = None ->
  decode_json_cell json_loads (VStr s) = Raise JSONDecodeError.
Proof. intros Hp Hj. simpl. rewrite Hp, Hj. reflexivity. Qed.

Lemma apply_decode_malformed (col : string) (df : DataFrame)
    (r : gmap string pyval) (s : string) :
  In r (rows df) -> cell r col = VStr s ->
  String.prefix "[" s = true -> json_loads s = None ->
  apply_col (decode_json_cell json_loads) col col df = Raise JSONDecodeError.
Proof.
  intros Hin Hcell Hp Hj. unfold apply_col.
  rewrite (res_mapM_raise _ (rows df) JSONDecodeError); [reflexivity| |].
  - apply Stdlib.Lists.List.Forall_forall. intros x _ e' He'.
    destruct (decode_json_cell json_loads (cell x col)) as [v|e] eqn:Hd;
      simpl in He'; [discriminate|].
    inversion He'; subst. eapply decode_raises_only_json. exact Hd.
  - apply Stdlib.Lists.List.Exists_exists. exists r. split; [exact Hin|].
    rewrite Hcell, (decode_malformed s Hp Hj). reflexivity.
Qed.

Lemma decode_json_cols_malformed (df : DataFrame) (col : string)
    (r : gmap string pyval) (s : string) :
  In col json_cols -> has_col col df = true -> In r (rows df) ->
  cell r col = VStr s -> String.prefix "[" s = true -> json_loads s = None ->
  decode_json_cols json_loads df = Raise JSONDecodeError.
Proof.
  intros Hcol Hhas Hin Hcell Hp Hj. unfold decode_json_cols, json_cols in *.
  simpl in Hcol. destruct Hcol as [<-|[<-|[]]]; simpl.
  - rewrite Hhas. rewrite (apply_decode_malformed _ df r s Hin Hcell Hp Hj).
    reflexivity.
  - destruct (has_col "small_photo_urls" df) eqn:Hsmall.
    + destruct (apply_col _ "small_photo_urls" "small_photo_urls" df)
        as [df1|e] eqn:H1; simpl.
      * apply apply_col_Ok in H1. destruct H1 as [Hcols Hrows].
        destruct (Forall2_In_l _ _ _ r Hrows Hin) as [r1 [Hin1 [v [_ Hr1]]]].
        assert (Hhas1 : has_col "origin_photo_urls" df1 = true).
        { unfold has_col. rewrite Hcols, has_col_add_col.
          unfold has_col in Hhas. rewrite Hhas. reflexivity. }
        rewrite Hhas1.
        rewrite (apply_decode_malformed _ df1 r1 s Hin1); try assumption; [reflexivity|].
        subst r1. rewrite cell_insert_ne by discriminate. exact Hcell.
      * apply apply_col_raise_inv in H1. destruct H1 as [x [_ Hx]].
        apply decode_raises_only_json in Hx. subst e. reflexivity.
    + simpl. rewrite Hhas.
      rewrite (apply_decode_malformed _ df r s Hin Hcell Hp Hj). reflexivity.
Qed.

(** After a successful load every cell of a JSON column that is present
    holds what the lambda returned for it. *)
Lemma decode_json_cols_Ok (df df' : DataFrame) (col : string) :
  decode_json_cols json_loads df = Ok df' ->
  In col json_cols -> has_col col df = true ->
  Forall2 (fun r r' => decode_json_cell json_loads (cell r col) = Ok (cell r' col))
          (rows df) (rows df').
Proof.
  unfold decode_json_cols, json_cols. simpl. intros H Hcol Hhas.
  destruct (has_col "small_photo_urls" df) eqn:Hsmall.
  - destruct (apply_col _ "small_photo_urls" "small_photo_urls" df)
      as [df1|e] eqn:H1; simpl in H; [|discriminate].
    apply apply_col_Ok in H1. destruct H1 as [Hcols1 Hrows1].
    destruct (has_col "origin_photo_urls" df1) eqn:Horigin.
    + destruct (apply_col _ "origin_photo_urls" "origin_photo_urls" df1)
        as [df2|e] eqn:H2; simpl in H; [|discriminate].
      inversion H; subst df2; clear H.
      apply apply_col_Ok in H2. destruct H2 as [_ Hrows2].
      eapply Forall2_weaken; [|exact (Forall2_compose _ _ _ _ _ Hrows1 Hrows2)].
      intros r r' [r1 [[v1 [Hv1 ->]] [v2 [Hv2 ->]]]].
      destruct Hcol as [<-|[<-|[]]].
      * rewrite cell_insert_ne by discriminate. rewrite cell_insert_eq. exact Hv1.
      * rewrite cell_insert_eq. rewrite cell_insert_ne in Hv2 by discriminate.
        exact Hv2.
    + simpl in H. inversion H; subst df1; clear H.
      destruct Hcol as [<-|[<-|[]]].
      * eapply Forall2_weaken; [|exact Hrows1].
        intros r r' [v [Hv ->]]. rewrite cell_insert_eq. exact Hv.
      * unfold has_col in Horigin, Hhas. rewrite Hcols1, has_col_add_col, Hhas in Horigin.
        discriminate.
  - simpl in H. destruct Hcol as [<-|[<-|[]]]; [congruence|].
    rewrite Hhas in H.
    destruct (apply_col _ "origin_photo_urls" "origin_photo_urls" df)
      as [df2|e] eqn:H2; simpl in H; [|discriminate].
    inversion H; subst df2; clear H.
    apply apply_col_Ok in H2. destruct H2 as [_ Hrows2].
    eapply Forall2_weaken; [|exact Hrows2].
    intros r r' [v [Hv ->]]. rewrite cell_insert_eq. exact Hv.
Qed.

(** One cell that [json.loads] rejects empties the table. *)
Lemma load_db_data_malformed (df : DataFrame) (col : string)
    (r : gmap string pyval) (s : string) :
  In col json_cols -> has_col col df = true -> In r (rows df) ->
  cell r col = VStr s -> String.prefix "[" s = true -> json_loads s = None ->
  load_db_data json_loads (Ok df) = (empty_frame, Some JSONDecodeError).
Proof.
  intros Hcol Hhas Hin Hcell Hp Hj. unfold load_db_data. simpl.
  rewrite (decode_json_cols_malformed df col r s); try assumption. reflexivity.
Qed.

End Loading.

(** C2, at the malformed values.  The sample with one more listing whose
    photo list is cut short (["[abc"]): [json.loads] rejects that cell, the
    exception leaves the lambda and the loop, and the [except] clause of
    [load_db_data] answers with the empty table, so that the three
    well-formed listings are lost with the malformed one; the claim
    recovers the one cell as an empty sequence, as the lambda itself does
    for an empty value.  Text that does not start with a bracket is not
    decoded at all: it stays in the column as text. *)
Theorem load_db_data_malformed_not_soft :
  decode_json_cell json_loads_strings (VStr "[abc") = Raise JSONDecodeError
  /\ List.length (rows sample_malformed) = 4%nat
  /\ load_db_data json_loads_strings (Ok sample_malformed)
     = (empty_frame, Some JSONDecodeError)
  /\ decode_json_cell json_loads_strings (VStr "") = Ok (VList [])
  /\ decode_json_cell json_loads_strings (VStr "not json") = Ok (VStr "not json")
  /\ (exists df',
        load_db_data json_loads_strings (Ok sample_not_json) = (df', None)
        /\ column "small_photo_urls" df' = [VStr "not json"]).
Proof.
  split; [reflexivity|]. split; [reflexivity|]. split; [|split; [|split]].
  - apply (load_db_data_malformed json_loads_strings sample_malformed
             "small_photo_urls" sample_malformed_row "[abc");
      [simpl; auto | reflexivity | simpl; auto | vm_compute; reflexivity
       | reflexivity | reflexivity].
  - reflexivity.
  - reflexivity.
  - eexists. split; vm_compute; reflexivity.
Qed.

(** ** Filtering *)

Lemma res_bind_ret {A} (m : res A) : (a ← m; Ok a) = m.
Proof. destruct m; reflexivity. Qed.

Lemma frame_eta (df : DataFrame) : {| columns := columns df; rows := rows df |} = df.
Proof. destruct df; reflexivity. Qed.

Lemma filter_all {A} (p : A -> bool) (l : list A) :
  Forall (fun a => p a = true) l -> List.filter p l = l.
Proof. induction 1 as [|a l Ha _ IH]; simpl; [|rewrite Ha, IH]; reflexivity. Qed.

Lemma filter_and {A} (p q : A -> bool) (l : list A) :
  List.filter q (List.filter p l) = List.filter (fun a => p a && q a) l.
Proof.
  induction l as [|a l IH]; simpl; [reflexivity|].
  destruct (p a); simpl; [destruct (q a)|]; rewrite IH; reflexivity.
Qed.

Lemma filter_comm {A} (p q : A -> bool) (l : list A) :
  List.filter q (List.filter p l) = List.filter p (List.filter q l).
Proof.
  rewrite !filter_and. apply List.filter_ext. intros a. apply andb_comm.
Qed.

Lemma filter_rows_all (p : gmap string pyval -> bool) (df : DataFrame) :
  Forall (fun r => p r = true) (rows df) -> filter_rows p df = df.
Proof.
  intros H. unfold filter_rows. rewrite (filter_all p _ H). apply frame_eta.
Qed.

Lemma filter_rows_and (p q : gmap string pyval -> bool) (df : DataFrame) :
  filter_rows q (filter_rows p df) = filter_rows (fun r => p r && q r) df.
Proof. unfold filter_rows. simpl. rewrite filter_and. reflexivity. Qed.

Lemma filter_rows_comm (p q : gmap string pyval -> bool) (df : DataFrame) :
  filter_rows q (filter_rows p df) = filter_rows p (filter_rows q df).
Proof. unfold filter_rows. simpl. rewrite filter_comm. reflexivity. Qed.

Lemma Forall_filter {A} (P : A -> Prop) (p : A -> bool) (l : list A) :
  Forall P l -> Forall P (List.filter p l).
Proof.
  induction 1 as [|a l Ha _ IH]; simpl; [constructor|].
  destruct (p a); [constructor; assumption | assumption].
Qed.

Lemma step_inv_filter (cols : list string) (p : gmap string pyval -> bool)
    (d : DataFrame) :
  step_inv cols d -> step_inv cols (filter_rows p d).
Proof.
  intros [Hc Hr]. split; [exact Hc|]. intros H. simpl. apply Forall_filter. auto.
Qed.

Lemma has_col_columns (k : string) (d d' : DataFrame) :
  columns d = columns d' -> has_col k d = has_col k d'.
Proof. unfold has_col. intros ->. reflexivity. Qed.

Lemma numeric_col_total (d : DataFrame) :
  Forall rent_ok (rows d) -> exists col, numeric_col "monthly_rent_disp" d = Ok col.
Proof. intros H. unfold numeric_col. apply res_mapM_total. exact H. Qed.

(** Statements that act row by row commute: any two orders of running them
    agree, on the result as on the exception. *)
Section OrderIndependence.

Variable Inv : DataFrame -> Prop.
Hypothesis Inv_filter : forall p d, Inv d -> Inv (filter_rows p d).
Variable e0 : exn.

Lemma apply_steps_perm (l l' : list (DataFrame -> res DataFrame)) :
  Permutation l l' -> Forall (row_wise Inv e0) l ->
  forall d, Inv d -> apply_steps l d = apply_steps l' d.
Proof.
  induction 1 as [|x l l' Hperm IH|x y l|l l' l'' H1 IH1 H2 IH2];
    intros Hall d Hd.
  - reflexivity.
  - inversion Hall as [|? ? Hx Hl]; subst. unfold apply_steps in *. simpl.
    destruct Hx as [[p Hp]|Hraise].
    + rewrite (Hp d Hd). simpl. apply IH; [exact Hl | apply Inv_filter; exact Hd].
    + rewrite (Hraise d Hd). reflexivity.
  - inversion Hall as [|? ? Hy Hl]; subst.
    inversion Hl as [|? ? Hx Hl']; subst. unfold apply_steps. simpl.
    destruct Hx as [[p Hp]|Hxr]; destruct Hy as [[q Hq]|Hyr].
    + rewrite (Hq d Hd), (Hp d Hd). simpl.
      rewrite (Hp _ (Inv_filter q d Hd)), (Hq _ (Inv_filter p d Hd)). simpl.
      rewrite filter_rows_comm. reflexivity.
    + rewrite (Hyr d Hd), (Hp d Hd). simpl.
      rewrite (Hyr _ (Inv_filter p d Hd)). reflexivity.
    + rewrite (Hq d Hd), (Hxr d Hd). simpl.
      rewrite (Hxr _ (Inv_filter q d Hd)). reflexivity.
    + rewrite (Hyr d Hd), (Hxr d Hd). reflexivity.
  - rewrite (IH1 Hall d Hd). apply IH2; [|exact Hd].
    eapply Permutation_Forall; eassumption.
Qed.

End OrderIndependence.

Section Filtering.

Variable regex : Type.
Variable re_compile : string -> option regex.
Variable re_search : regex -> string -> bool.

#[local] Abbreviation loc_step := (step_location regex re_compile re_search).
#[local] Abbreviation loc_keep := (keep_location regex re_compile re_search).
#[local] Abbreviation passes := (row_passes regex re_compile re_search).
#[local] Abbreviation all_steps := (steps regex re_compile re_search).
#[local] Abbreviation filtered := (f_df regex re_compile re_search).

Lemma f_df_apply_steps (c : criteria) (df : DataFrame) :
  filtered c df = apply_steps (all_steps c) df.
Proof.
  unfold f_df, apply_steps, steps. simpl.
  destruct (step_category _ df) as [d1|e]; simpl; [|reflexivity].
  destruct (loc_step _ d1) as [d2|e]; simpl; [|reflexivity].
  destruct (step_premium _ d2) as [d3|e]; simpl; [|reflexivity].
  destruct (step_rent _ d3) as [d4|e]; reflexivity.
Qed.

(** What [read_criteria] guarantees about the table it read. *)
Lemma read_criteria_inv (w : widgets) (df : DataFrame) (c : criteria) :
  read_criteria w df = Ok c ->
  step_inv (columns df) df
  /\ (c_sel_ind c = all_industries \/ has_col "business_middle_code_name" df = true).
Proof.
  unfold read_criteria, rent_range. intros H. split.
  - split; [reflexivity|]. intros Hcol. fold (has_col "monthly_rent_disp" df) in Hcol.
    rewrite Hcol in H.
    destruct (numeric_col "monthly_rent_disp" df) as [col|e] eqn:Hn;
      simpl in H; [|discriminate].
    unfold numeric_col in Hn. apply res_mapM_Ok in Hn.
    clear H. induction Hn as [|r n l l' Hr _ IH]; constructor; [|exact IH].
    exists n. exact Hr.
  - destruct (rent_range w df) as [range|e] eqn:Hr.
    + unfold rent_range in Hr. unfold rent_range in H.
      rewrite Hr in H. simpl in H. inversion H; subst c; simpl.
      unfold sel_ind. destruct (has_col "business_middle_code_name" df);
        [right | left]; reflexivity.
    + unfold rent_range in H. unfold rent_range in Hr.
      rewrite Hr in H. discriminate.
Qed.

Section Steps.

Variable c : criteria.
Variable df : DataFrame.
Hypothesis Hcategory :
  c_sel_ind c = all_industries \/ has_col "business_middle_code_name" df = true.

Lemma step_category_keep (d : DataFrame) :
  step_inv (columns df) d ->
  step_category (c_sel_ind c) d = Ok (filter_rows (keep_category c) d).
Proof.
  intros [Hcols _]. unfold step_category, keep_category.
  destruct (String.eqb_spec (c_sel_ind c) all_industries) as [Heq|Hne]; simpl.
  - rewrite filter_rows_all; [reflexivity|]. apply Forall_forall. reflexivity.
  - destruct Hcategory as [Heq|Hhas]; [contradiction|].
    rewrite (has_col_columns _ d df Hcols), Hhas. reflexivity.
Qed.

Lemma step_location_keep (d : DataFrame) :
  step_inv (columns df) d ->
  loc_step (c_search_station c) d
  = if negb (String.eqb (c_search_station c) "")
       && has_col "near_subway_station" df
    then match re_compile (c_search_station c) with
         | Some _ => Ok (filter_rows (loc_keep c df) d)
         | None => Raise ReError
         end
    else Ok (filter_rows (loc_keep c df) d).
Proof.
  intros [Hcols _]. unfold step_location, keep_location.
  rewrite (has_col_columns _ d df Hcols).
  destruct (negb (String.eqb (c_search_station c) "")
            && has_col "near_subway_station" df).
  - destruct (re_compile (c_search_station c)); reflexivity.
  - rewrite filter_rows_all; [reflexivity|]. apply Forall_forall. reflexivity.
Qed.

Lemma step_premium_keep (d : DataFrame) :
  step_inv (columns df) d ->
  step_premium (c_hide_premium_closed c) d = Ok (filter_rows (keep_premium c df) d).
Proof.
  intros [Hcols _]. unfold step_premium, keep_premium.
  rewrite (has_col_columns _ d df Hcols).
  destruct (c_hide_premium_closed c && has_col "is_premium_closed" df);
    [reflexivity|].
  rewrite filter_rows_all; [reflexivity|]. apply Forall_forall. reflexivity.
Qed.

Lemma step_rent_keep (d : DataFrame) :
  step_inv (columns df) d ->
  step_rent (c_rent_range c) d = Ok (filter_rows (keep_rent c df) d).
Proof.
  intros [Hcols Hnum]. unfold step_rent, keep_rent.
  rewrite (has_col_columns _ d df Hcols).
  destruct (has_col "monthly_rent_disp" df) eqn:Hhas.
  - destruct (numeric_col_total d (Hnum Hhas)) as [col ->]. reflexivity.
  - rewrite filter_rows_all; [reflexivity|]. apply Forall_forall. reflexivity.
Qed.

Lemma steps_row_wise :
  Forall (row_wise (step_inv (columns df)) ReError) (all_steps c).
Proof.
  unfold steps.
  constructor; [|constructor; [|constructor; [|constructor; [|constructor]]]].
  - left. exists (keep_category c). apply step_category_keep.
  - destruct (negb (String.eqb (c_search_station c) "")
              && has_col "near_subway_station" df) eqn:Hactive;
      [destruct (re_compile (c_search_station c)) eqn:Hre|].
    + left. exists (loc_keep c df). intros d Hd.
      rewrite (step_location_keep d Hd), Hactive, Hre. reflexivity.
    + right. intros d Hd.
      rewrite (step_location_keep d Hd), Hactive, Hre. reflexivity.
    + left. exists (loc_keep c df). intros d Hd.
      rewrite (step_location_keep d Hd), Hactive. reflexivity.
  - left. exists (keep_premium c df). apply step_premium_keep.
  - left. exists (keep_rent c df). apply step_rent_keep.
Qed.

Lemma f_df_Ok (out : DataFrame) :
  step_inv (columns df) df ->
  filtered c df = Ok out -> out = filter_rows (passes c df) df.
Proof.
  intros Hinv. unfold f_df.
  rewrite (step_category_keep df Hinv). simpl.
  pose proof (step_inv_filter _ (keep_category c) _ Hinv) as H1.
  rewrite (step_location_keep _ H1).
  destruct (negb (String.eqb (c_search_station c) "")
            && has_col "near_subway_station" df);
    [destruct (re_compile (c_search_station c)); [|discriminate]|]; simpl.
  all: pose proof (step_inv_filter _ (loc_keep c df) _ H1) as H2;
    rewrite (step_premium_keep _ H2); simpl;
    pose proof (step_inv_filter _ (keep_premium c df) _ H2) as H3;
    rewrite (step_rent_keep _ H3);
    intros H; inversion H; rewrite !filter_rows_and; unfold filter_rows;
    f_equal; apply List.filter_ext; intros x; unfold row_passes;
    rewrite !andb_assoc; reflexivity.
Qed.

End Steps.

(** C4: once the criteria are read from the table (the rent bounds being
    computed there, before any row is dropped), running the four filtering
    statements in any order gives what the script's order gives; and that
    result keeps exactly the rows that pass all four row tests, a criterion
    that is not set letting every row pass. *)
Theorem filter_order_independent (w : widgets) (df : DataFrame) (c : criteria)
    (Hread : read_criteria w df = Ok c) :
  (forall order, Permutation order (all_steps c) ->
     apply_steps order df = filtered c df)
  /\ (forall out, filtered c df = Ok out -> out = filter_rows (passes c df) df)
  /\ (forall r, passes c df r
                = keep_category c r && loc_keep c df r
                  && keep_premium c df r && keep_rent c df r)
  /\ (forall r, c_sel_ind c = all_industries -> keep_category c r = true)
  /\ (forall r, c_search_station c = "" -> loc_keep c df r = true)
  /\ (forall r, c_hide_premium_closed c = false -> keep_premium c df r = true)
  /\ (forall r, has_col "monthly_rent_disp" df = false -> keep_rent c df r = true).
Proof.
  destruct (read_criteria_inv w df c Hread) as [Hinv Hcat].
  split; [|split; [|split; [|split; [|split; [|split]]]]].
  - intros order Hperm. rewrite f_df_apply_steps. symmetry.
    apply (apply_steps_perm (step_inv (columns df))
             (step_inv_filter (columns df)) ReError (all_steps c) order).
    + apply Permutation_sym. exact Hperm.
    + apply steps_row_wise. exact Hcat.
    + exact Hinv.
  - intros out. apply f_df_Ok; assumption.
  - reflexivity.
  - intros r H. unfold keep_category. rewrite H. reflexivity.
  - intros r H. unfold keep_location. rewrite H. reflexivity.
  - intros r H. unfold keep_premium. rewrite H. reflexivity.
  - intros r H. unfold keep_rent. rewrite H. reflexivity.
Qed.

End Filtering.

(** ** The location and undisclosed-premium criteria *)

Section Location.

Variable regex : Type.
Variable re_compile : string -> option regex.
Variable re_search : regex -> string -> bool.

(** What the location statement does when a search text is set and the
    column is present: the text is compiled as a pattern, and a row is kept
    exactly when its location is text in which the pattern is found.  Rows
    without a location are dropped. *)
Lemma step_location_rows (search : string) (df : DataFrame) :
  search <> "" -> has_col "near_subway_station" df = true ->
  match re_compile search with
  | Some re =>
      exists out,
        step_location regex re_compile re_search search df = Ok out
        /\ columns out = columns df
        /\ forall r, In r (rows out) <->
                     In r (rows df)
                     /\ exists s, cell r "near_subway_station" = VStr s
                                  /\ re_search re s = true
  | None => step_location regex re_compile re_search search df = Raise ReError
  end.
Proof.
  intros Hne Hhas. unfold step_location. rewrite Hhas.
  destruct (String.eqb_spec search ""); [contradiction|]. simpl.
  destruct (re_compile search) as [re|]; [|reflexivity].
  eexists. split; [reflexivity|]. split; [reflexivity|].
  intros r. simpl. rewrite filter_In. split.
  - intros [Hin Hk]. split; [exact Hin|]. unfold str_contains in Hk.
    destruct (cell r "near_subway_station"); try discriminate.
    eexists. split; [reflexivity | exact Hk].
  - intros [Hin [s [Hs Hk]]]. split; [exact Hin|].
    unfold str_contains. rewrite Hs. exact Hk.
Qed.

End Location.

(** On a search text of plain characters the reference pattern search is
    substring containment. *)
Lemma match_here_literal (pat text : string) :
  match_here (List.map Lit (list_ascii_of_string pat)) (list_ascii_of_string text)
  = String.prefix pat text.
Proof.
  revert pat. induction text as [|d text IH]; intros [|c pat]; simpl;
    try reflexivity.
  rewrite IH. destruct (ascii_dec c d) as [->|Hne].
  - rewrite Ascii.eqb_refl. reflexivity.
  - destruct (Ascii.eqb_spec d c); [congruence | reflexivity].
Qed.

Lemma search_from_literal (pat text : string) :
  search_from (List.map Lit (list_ascii_of_string pat)) (list_ascii_of_string text)
  = contains pat text.
Proof.
  induction text as [|d text IH].
  - change (list_ascii_of_string "") with (@nil ascii).
    change (contains pat "") with (String.prefix pat "" || false).
    rewrite <- match_here_literal. destruct (list_ascii_of_string pat); reflexivity.
  - change (contains pat (String d text))
      with (String.prefix pat (String d text) || contains pat text).
    rewrite <- IH, <- match_here_literal.
    change (list_ascii_of_string (String d text)) with (d :: list_ascii_of_string text).
    destruct (List.map Lit (list_ascii_of_string pat)); reflexivity.
Qed.

Lemma compile_atoms_literal (cs : list ascii) :
  forallb (fun c => negb (is_meta c) && negb (c =? ".")%char) cs = true ->
  compile_atoms cs = Some (List.map Lit cs).
Proof.
  induction cs as [|c cs IH]; simpl; [reflexivity|].
  intros H. apply andb_true_iff in H. destruct H as [Hc Hcs].
  apply andb_true_iff in Hc. destruct Hc as [Hmeta Hdot].
  apply negb_true_iff in Hmeta, Hdot. rewrite Hmeta, Hdot, (IH Hcs). reflexivity.
Qed.

Lemma literal_search_is_contains (pat text : string) :
  forallb (fun c => negb (is_meta c) && negb (c =? ".")%char)
          (list_ascii_of_string pat) = true ->
  exists re, re_compile_literal_dot pat = Some re
             /\ re_search_literal_dot re text = contains pat text.
Proof.
  intros H. exists (List.map Lit (list_ascii_of_string pat)). split.
  - apply compile_atoms_literal. exact H.
  - apply search_from_literal.
Qed.

(** The rows the comparison with [False] keeps are those whose flag is
    false. *)
Lemma eq_False_flag (x : pyval) : eq_False x = true <-> flag_of x = Some false.
Proof.
  destruct x as [| |q|b|s|l|d]; simpl; split; intros H; try discriminate.
  - rewrite H. reflexivity.
  - inversion H as [Hq]. destruct (Qeq_bool q 0); [reflexivity | discriminate].
  - destruct b; [discriminate | reflexivity].
  - inversion H. reflexivity.
Qed.

(** C7, as the code has it: with the option enabled and the flag column
    present, the filter keeps exactly the rows whose flag is false; it
    drops the rows whose flag is true and, with them, the rows whose flag
    is missing.  Without the flag column, and with the option off, the
    table is left as it is. *)
Theorem exclude_undisclosed_premium (w : widgets) (df : DataFrame) :
  (premium_checkbox w = true -> has_col "is_premium_closed" df = true ->
     hide_premium_closed w df = true
     /\ exists out,
          step_premium (hide_premium_closed w df) df = Ok out
          /\ columns out = columns df
          /\ rows out = List.filter (fun r => eq_False (cell r "is_premium_closed"))
                                    (rows df)
          /\ (forall r, In r (rows out) <->
                        In r (rows df)
                        /\ flag_of (cell r "is_premium_closed") = Some false)
          /\ (forall r, flag_of (cell r "is_premium_closed") = Some true ->
                        ~ In r (rows out))
          /\ (forall r, cell r "is_premium_closed" = VNone
                        \/ cell r "is_premium_closed" = VNaN ->
                        ~ In r (rows out)))
  /\ (has_col "is_premium_closed" df = false ->
        step_premium (hide_premium_closed w df) df = Ok df
        /\ step_premium true df = Ok df)
  /\ (premium_checkbox w = false ->
        step_premium (hide_premium_closed w df) df = Ok df).
Proof.
  unfold hide_premium_closed, step_premium. split; [|split].
  - intros Hw Hhas. rewrite Hhas, Hw. split; [reflexivity|]. simpl.
    eexists. split; [reflexivity|]. split; [reflexivity|]. split; [reflexivity|].
    assert (Hkept : forall r,
              In r (List.filter (fun r => eq_False (cell r "is_premium_closed"))
                      (rows df))
              <-> In r (rows df)
                  /\ flag_of (cell r "is_premium_closed") = Some false).
    { intros r. rewrite filter_In, eq_False_flag. reflexivity. }
    split; [exact Hkept|]. split.
    + intros r Hflag Hin. apply Hkept in Hin. destruct Hin as [_ Hf].
      rewrite Hf in Hflag. discriminate.
    + intros r Hcell Hin. apply Hkept in Hin. destruct Hin as [_ Hf].
      destruct Hcell as [Hc|Hc]; rewrite Hc in Hf; discriminate.
  - intros ->. simpl. split; reflexivity.
  - intros ->. destruct (has_col "is_premium_closed" df); reflexivity.
Qed.

(** The same statement drops a row whose flag is missing (NULL or NaN): a
    missing value is not equal to [False]. *)
Lemma step_premium_drops_missing (df : DataFrame) (r : gmap string pyval) :
  has_col "is_premium_closed" df = true ->
  cell r "is_premium_closed" = VNone \/ cell r "is_premium_closed" = VNaN ->
  forall out, step_premium true df = Ok out -> ~ In r (rows out).
Proof.
  intros Hhas Hcell out. unfold step_premium. rewrite Hhas. simpl.
  intros H. inversion H; subst. simpl. rewrite filter_In. intros [_ Hk].
  destruct Hcell as [Hc|Hc]; rewrite Hc in Hk; discriminate.
Qed.

(** ** Derived columns *)

Lemma apply_col_other (f : pyval -> res pyval) (src dst k : string) (d d' : DataFrame) :
  apply_col f src dst d = Ok d' -> k <> dst ->
  Forall2 (fun r r' => cell r' k = cell r k) (rows d) (rows d')
  /\ has_col k d' = has_col k d.
Proof.
  intros H Hne. apply apply_col_Ok in H. destruct H as [Hcols Hrows]. split.
  - eapply Forall2_weaken; [|exact Hrows]. intros r r' [v [_ ->]].
    apply cell_insert_ne. congruence.
  - unfold has_col. rewrite Hcols, has_col_add_col.
    destruct (String.eqb_spec k dst); [contradiction|]. apply orb_false_r.
Qed.

Lemma apply_col_target (f : pyval -> res pyval) (src dst : string) (d d' : DataFrame) :
  apply_col f src dst d = Ok d' ->
  Forall2 (fun r r' => f (cell r src) = Ok (cell r' dst)) (rows d) (rows d')
  /\ has_col dst d' = true.
Proof.
  intros H. apply apply_col_Ok in H. destruct H as [Hcols Hrows]. split.
  - eapply Forall2_weaken; [|exact Hrows]. intros r r' [v [Hv ->]].
    rewrite cell_insert_eq. exact Hv.
  - unfold has_col. rewrite Hcols, has_col_add_col, String.eqb_refl. apply orb_true_r.
Qed.

Lemma Forall2_refl_cell (k : string) (l : list (gmap string pyval)) :
  Forall2 (fun r r' => cell r' k = cell r k) l l.
Proof. induction l; constructor; [reflexivity | assumption]. Qed.

Lemma Forall2_cell_trans (k : string) (l1 l2 l3 : list (gmap string pyval)) :
  Forall2 (fun r r' => cell r' k = cell r k) l1 l2 ->
  Forall2 (fun r r' => cell r' k = cell r k) l2 l3 ->
  Forall2 (fun r r' => cell r' k = cell r k) l1 l3.
Proof.
  intros H1 H2. eapply Forall2_weaken; [|exact (Forall2_compose _ _ _ _ _ H1 H2)].
  intros r r' [x [Hx Hr']]. congruence.
Qed.

Lemma set_cells_Ok (dst : string) (rs rs' : list (gmap string pyval))
    (vals : list pyval) :
  set_cells dst rs vals = Ok rs' ->
  Forall2 (fun r r' => exists v, r' = <[dst := v]> r) rs rs'
  /\ Forall2 (fun v r' => cell r' dst = v) vals rs'.
Proof.
  revert vals rs'. induction rs as [|r rs IH]; intros [|v vals] rs' H; simpl in H;
    try discriminate.
  - inversion H; subst. split; constructor.
  - destruct (set_cells dst rs vals) as [l|e] eqn:Hl; simpl in H; [|discriminate].
    inversion H; subst. destruct (IH vals l Hl) as [H1 H2]. split.
    + constructor; [eexists; reflexivity | exact H1].
    + constructor; [apply cell_insert_eq | exact H2].
Qed.

Lemma assign_col_Ok (dst : string) (vals : list pyval) (d d' : DataFrame) :
  assign_col dst vals d = Ok d' ->
  columns d' = add_col dst (columns d)
  /\ Forall2 (fun r r' => exists v, r' = <[dst := v]> r) (rows d) (rows d')
  /\ column dst d' = vals.
Proof.
  unfold assign_col. intros H.
  destruct (set_cells dst (rows d) vals) as [l|e] eqn:Hl; simpl in H; [|discriminate].
  inversion H; subst. simpl. destruct (set_cells_Ok _ _ _ _ Hl) as [H1 H2].
  split; [reflexivity|]. split; [exact H1|].
  unfold column. simpl. clear -H2. induction H2; simpl; [reflexivity|].
  congruence.
Qed.

Lemma assign_col_other (dst k : string) (vals : list pyval) (d d' : DataFrame) :
  assign_col dst vals d = Ok d' -> k <> dst ->
  Forall2 (fun r r' => r' !! k = r !! k) (rows d) (rows d')
  /\ Forall2 (fun r r' => cell r' k = cell r k) (rows d) (rows d')
  /\ has_col k d' = has_col k d.
Proof.
  intros H Hne. apply assign_col_Ok in H. destruct H as (Hcols & Hrows & _).
  split; [|split].
  - eapply Forall2_weaken; [|exact Hrows]. intros r r' [v ->].
    apply lookup_insert_ne. congruence.
  - eapply Forall2_weaken; [|exact Hrows]. intros r r' [v ->].
    apply cell_insert_ne. congruence.
  - unfold has_col. rewrite Hcols, has_col_add_col.
    destruct (String.eqb_spec k dst); [contradiction|]. apply orb_false_r.
Qed.


Section DisplayColumns.

Variable target_unit : string.

Lemma add_disp_col_other (d d' : DataFrame) (col k : string) :
  add_disp_col target_unit d col = Ok d' -> k <> disp col ->
  Forall2 (fun r r' => cell r' k = cell r k) (rows d) (rows d')
  /\ has_col k d' = has_col k d.
Proof.
  unfold add_disp_col. destruct (has_col col d).
  - intros H Hne. eapply apply_col_other; eassumption.
  - intros H _. inversion H; subst. split; [apply Forall2_refl_cell | reflexivity].
Qed.

Lemma fold_disp_other (cols : list string) (k : string) :
  (forall c, In c cols -> k <> disp c) ->
  forall d d', res_foldM (add_disp_col target_unit) cols d = Ok d' ->
  Forall2 (fun r r' => cell r' k = cell r k) (rows d) (rows d')
  /\ has_col k d' = has_col k d.
Proof.
  induction cols as [|c0 cols IH]; intros Hk d d' H; simpl in H.
  - inversion H; subst. split; [apply Forall2_refl_cell | reflexivity].
  - destruct (add_disp_col target_unit d c0) as [d1|e] eqn:H1; simpl in H;
      [|discriminate].
    destruct (add_disp_col_other d d1 c0 k H1 (Hk c0 (or_introl eq_refl)))
      as [Hr1 Hc1].
    destruct (IH (fun c Hc => Hk c (or_intror Hc)) d1 d' H) as [Hr2 Hc2].
    split; [eapply Forall2_cell_trans; eassumption | congruence].
Qed.

Lemma add_disp_col_target (d d' : DataFrame) (col : string) :
  add_disp_col target_unit d col = Ok d' -> has_col col d = true ->
  Forall2 (fun r r' => exists v n, as_price (cell r col) = Ok v
                                 /\ convert_price v target_unit = Ok n
                                 /\ cell r' (disp col) = of_number n)
          (rows d) (rows d')
  /\ has_col (disp col) d' = true.
Proof.
  unfold add_disp_col. intros H Hhas. rewrite Hhas in H.
  apply apply_col_target in H. destruct H as [Hrows Hcol]. split; [|exact Hcol].
  eapply Forall2_weaken; [|exact Hrows]. intros r r' Hr. unfold convert_cell in Hr.
  destruct (as_price (cell r col)) as [v|e]; simpl in Hr; [|discriminate].
  destruct (convert_price v target_unit) as [n|e] eqn:Hn; simpl in Hr; [|discriminate].
  exists v, n. split; [reflexivity|]. split; [exact Hn|]. inversion Hr. reflexivity.
Qed.

(** After the loop over [cols], the display column of every listed column
    that is present holds the conversion of that column, provided no
    display name is itself a listed column and display names are distinct. *)
Lemma fold_disp_target (cols : list string) :
  List.NoDup cols ->
  (forall c c', In c cols -> In c' cols -> c' <> disp c) ->
  (forall c c', In c cols -> In c' cols -> c <> c' -> disp c <> disp c') ->
  forall d d' col,
    res_foldM (add_disp_col target_unit) cols d = Ok d' ->
    In col cols -> has_col col d = true ->
    Forall2 (fun r r' => exists v n, as_price (cell r col) = Ok v
                                   /\ convert_price v target_unit = Ok n
                                   /\ cell r' (disp col) = of_number n)
            (rows d) (rows d')
    /\ has_col (disp col) d' = true.
Proof.
  induction cols as [|c0 cols IH]; intros Hnd Hfresh Hdist d d' col H Hin Hhas;
    [destruct Hin|].
  simpl in H.
  destruct (add_disp_col target_unit d c0) as [d1|e] eqn:H1; simpl in H;
    [|discriminate].
  inversion Hnd as [|? ? Hnotin Hnd']; subst.
  destruct Hin as [<-|Hin].
  - destruct (add_disp_col_target d d1 c0 H1 Hhas) as [Hr1 Hc1].
    assert (Hk : forall c, In c cols -> disp c0 <> disp c).
    { intros c Hc. apply Hdist; [left; reflexivity | right; exact Hc|].
      intros ->. contradiction. }
    destruct (fold_disp_other cols (disp c0) Hk d1 d' H) as [Hr2 Hc2].
    split; [|congruence].
    eapply Forall2_weaken; [|exact (Forall2_compose _ _ _ _ _ Hr1 Hr2)].
    intros r r' [x [(v & n & Hv & Hn & Hx) Hr']]. exists v, n.
    split; [exact Hv|]. split; [exact Hn | congruence].
  - assert (Hne : col <> disp c0).
    { apply Hfresh; [left; reflexivity | right; exact Hin]. }
    destruct (add_disp_col_other d d1 c0 col H1 Hne) as [Hr1 Hc1].
    assert (Hhas1 : has_col col d1 = true) by congruence.
    destruct (IH Hnd'
                 (fun c c' Hc Hc' => Hfresh c c' (or_intror Hc) (or_intror Hc'))
                 (fun c c' Hc Hc' => Hdist c c' (or_intror Hc) (or_intror Hc'))
                 d1 d' col H Hin Hhas1) as [Hr2 Hc2].
    split; [|exact Hc2].
    eapply Forall2_weaken; [|exact (Forall2_compose _ _ _ _ _ Hr1 Hr2)].
    intros r r' [x [Hx (v & n & Hv & Hn & Hr')]]. exists v, n.
    split; [congruence|]. split; [exact Hn | exact Hr'].
Qed.

Lemma price_cols_NoDup : List.NoDup price_cols.
Proof.
  unfold price_cols.
  repeat (constructor; [simpl; intuition discriminate|]).
  constructor.
Qed.

Lemma price_cols_fresh (c c' : string) :
  In c price_cols -> In c' price_cols -> c' <> disp c.
Proof.
  unfold price_cols. simpl. intros Hc Hc'.
  intuition (subst; discriminate).
Qed.

Lemma price_cols_distinct (c c' : string) :
  In c price_cols -> In c' price_cols -> c <> c' -> disp c <> disp c'.
Proof.
  unfold price_cols. simpl. intros Hc Hc' Hne.
  intuition (subst; first [discriminate | congruence]).
Qed.

Lemma price_cols_not_regDate (c : string) : In c price_cols -> "regDate" <> disp c.
Proof.
  unfold price_cols. simpl. intros Hc.
  intuition (subst; discriminate).
Qed.

Variable to_datetime : list pyval -> res (list pyval).

(** The display columns after the whole preprocessing. *)
Lemma preprocess_disp (raw df : DataFrame) (col : string) :
  preprocess to_datetime target_unit raw = Ok df ->
  In col price_cols -> has_col col raw = true ->
  Forall2 (fun r r' => exists v n, as_price (cell r col) = Ok v
                                 /\ convert_price v target_unit = Ok n
                                 /\ cell r' (disp col) = of_number n)
          (rows raw) (rows df)
  /\ has_col (disp col) df = true.
Proof.
  unfold preprocess. intros H Hin Hhas.
  destruct (res_foldM (add_disp_col target_unit) price_cols raw) as [d1|e] eqn:H1;
    simpl in H; [|discriminate].
  destruct (fold_disp_target price_cols price_cols_NoDup price_cols_fresh
              price_cols_distinct raw d1 col H1 Hin Hhas) as [Hr1 Hc1].
  unfold add_reg_date in H. destruct (has_col "created_date_utc" d1).
  - assert (Hne : disp col <> "regDate").
    { intros Heq. eapply price_cols_not_regDate; [exact Hin | symmetry; exact Heq]. }
    destruct (to_datetime (column "created_date_utc" d1)) as [dates|e];
      simpl in H; [|discriminate].
    destruct (assign_col_other _ (disp col) _ d1 df H Hne) as (_ & Hr2 & Hc2).
    split; [|congruence].
    eapply Forall2_weaken; [|exact (Forall2_compose _ _ _ _ _ Hr1 Hr2)].
    intros r r' [x [(v & n & Hv & Hn & Hx) Hr']]. exists v, n.
    split; [exact Hv|]. split; [exact Hn | congruence].
  - inversion H; subst. split; assumption.
Qed.

End DisplayColumns.

(** ** The rent range *)

Lemma Qle_bool_total (x y : Q) : Qle_bool x y = false -> Qle_bool y x = true.
Proof.
  intros H. apply Qle_bool_iff. apply Qlt_le_weak. apply Qnot_le_lt.
  intros Hle. apply Qle_bool_iff in Hle. congruence.
Qed.

Lemma col_min_le (l : list number) (q : Q) :
  In (Num q) l -> exists m, col_min l = Num m /\ Qle_bool m q = true.
Proof.
  induction l as [|a l IH]; intros Hin; [destruct Hin|].
  change (col_min (a :: l)) with (num_min2 a (col_min l)).
  destruct Hin as [->|Hin].
  - destruct (col_min l) as [|y]; simpl.
    + exists q. split; [reflexivity | apply Qle_bool_iff, Qle_refl].
    + destruct (Qle_bool q y) eqn:Hqy.
      * exists q. split; [reflexivity | apply Qle_bool_iff, Qle_refl].
      * exists y. split; [reflexivity | apply Qle_bool_total; exact Hqy].
  - destruct (IH Hin) as [m [Hm Hle]]. rewrite Hm.
    destruct a as [|x]; simpl; [exists m; split; [reflexivity | exact Hle]|].
    destruct (Qle_bool x m) eqn:Hxm.
    + exists x. split; [reflexivity|]. apply Qle_bool_iff.
      apply Qle_bool_iff in Hxm, Hle. eapply Qle_trans; eassumption.
    + exists m. split; [reflexivity | exact Hle].
Qed.

Lemma col_max_ge (l : list number) (q : Q) :
  In (Num q) l -> exists m, col_max l = Num m /\ Qle_bool q m = true.
Proof.
  induction l as [|a l IH]; intros Hin; [destruct Hin|].
  change (col_max (a :: l)) with (num_max2 a (col_max l)).
  destruct Hin as [->|Hin].
  - destruct (col_max l) as [|y]; simpl.
    + exists q. split; [reflexivity | apply Qle_bool_iff, Qle_refl].
    + destruct (Qle_bool q y) eqn:Hqy.
      * exists y. split; [reflexivity | exact Hqy].
      * exists q. split; [reflexivity | apply Qle_bool_iff, Qle_refl].
  - destruct (IH Hin) as [m [Hm Hle]]. rewrite Hm.
    destruct a as [|x]; simpl; [exists m; split; [reflexivity | exact Hle]|].
    destruct (Qle_bool x m) eqn:Hxm.
    + exists m. split; [reflexivity | exact Hle].
    + exists x. split; [reflexivity|]. apply Qle_bool_iff.
      apply Qle_bool_total in Hxm. apply Qle_bool_iff in Hxm, Hle.
      eapply Qle_trans; eassumption.
Qed.

(** [min_rent == max_rent] leaves [min_rent < max_rent] false. *)
Lemma num_eqb_not_ltb (a b : number) : num_eqb a b = true -> num_ltb a b = false.
Proof.
  destruct a as [|x], b as [|y]; simpl; try discriminate. intros H.
  unfold Qlt_bool. apply Qeq_bool_iff in H.
  assert (Hle : Qle_bool y x = true).
  { apply Qle_bool_iff. rewrite H. apply Qle_refl. }
  rewrite Hle. reflexivity.
Qed.

(** Every row of a numeric, NaN-free column lies between the column's
    minimum and maximum. *)
Lemma rows_within_min_max (df : DataFrame) (col : list number) :
  numeric_col "monthly_rent_disp" df = Ok col ->
  Forall (fun r => exists q, cell r "monthly_rent_disp" = VNum q) (rows df) ->
  Forall (fun r => match as_number (cell r "monthly_rent_disp") with
                   | Ok n => in_range (col_min col, col_max col) n
                   | Raise _ => false
                   end = true) (rows df).
Proof.
  intros Hcol Hnum. unfold numeric_col in Hcol. apply res_mapM_Ok in Hcol.
  apply Stdlib.Lists.List.Forall_forall. intros r Hin.
  rewrite Stdlib.Lists.List.Forall_forall in Hnum.
  destruct (Hnum r Hin) as [q Hq].
  destruct (Forall2_In_l _ _ _ r Hcol Hin) as [n [Hn Hrn]].
  rewrite Hq in Hrn |- *. simpl in Hrn |- *. inversion Hrn; subst n.
  destruct (col_min_le col q Hn) as [lo [-> Hlo]].
  destruct (col_max_ge col q Hn) as [hi [-> Hhi]].
  unfold in_range. simpl. rewrite Hlo, Hhi. reflexivity.
Qed.

(** C8: when the minimum and the maximum of the display rent column are
    equal, the range is that single value taken as both bounds (no slider is
    drawn), the rent filter raises nothing and keeps the whole table, and so
    does the whole filter when no other criterion is set. *)
Theorem degenerate_rent_range (regex : Type) (re_compile : string -> option regex)
    (re_search : regex -> string -> bool) (to_datetime : list pyval -> res (list pyval))
    (target_unit : string) (w : widgets) (raw df : DataFrame)
    (Hpre : preprocess to_datetime target_unit raw = Ok df)
    (Hrent : has_col "monthly_rent" raw = true) :
  exists col,
    numeric_col "monthly_rent_disp" df = Ok col
    /\ (num_eqb (col_min col) (col_max col) = true ->
          rent_range w df = Ok (col_min col, col_max col)
          /\ step_rent (col_min col, col_max col) df = Ok df
          /\ f_df regex re_compile re_search
               {| c_sel_ind := all_industries; c_search_station := "";
                  c_hide_premium_closed := false;
                  c_rent_range := (col_min col, col_max col) |} df
             = Ok df).
Proof.
  destruct (preprocess_disp target_unit to_datetime raw df "monthly_rent" Hpre)
    as [Hrows Hhas]; [simpl; auto | exact Hrent |].
  change (disp "monthly_rent") with "monthly_rent_disp" in *.
  assert (Hnum : Forall (fun r => exists q, cell r "monthly_rent_disp" = VNum q)
                        (rows df)).
  { clear -Hrows.
    induction Hrows as [|r r' l l' (v & n & _ & Hn & Hv) _ IH]; constructor;
      [|exact IH].
    destruct (convert_price_is_num v target_unit n Hn) as [q Hq].
    exists q. rewrite Hv, Hq. reflexivity. }
  assert (Hok : Forall rent_ok (rows df)).
  { eapply Stdlib.Lists.List.Forall_impl; [|exact Hnum]. intros r [q Hq]. exists (Num q).
    rewrite Hq. reflexivity. }
  destruct (numeric_col_total df Hok) as [col Hcol].
  exists col. split; [exact Hcol|]. intros Heq.
  assert (Hstep : step_rent (col_min col, col_max col) df = Ok df).
  { unfold step_rent. rewrite Hhas, Hcol. simpl.
    rewrite filter_rows_all; [reflexivity|].
    apply rows_within_min_max; assumption. }
  split; [|split].
  - unfold rent_range. rewrite Hhas, Hcol. simpl.
    rewrite (num_eqb_not_ltb _ _ Heq). reflexivity.
  - exact Hstep.
  - unfold f_df. simpl. exact Hstep.
Qed.

(** ** Views over an empty result *)

(** C5: when no row is left, the count reads 0, the median KPIs (and the
    mean area) show the dash without any aggregate being computed, the charts
    and the trend give way to their "no data" notice, and neither the table
    nor the detail panel is built, so that no row is looked up in an empty
    selection; nothing is raised. *)
Theorem empty_result_degrades (ui : display) (target_unit base_comment : string)
    (s : selection) (filtered : DataFrame) (Hempty : rows filtered = []) :
  kpi_count filtered = "0 건"
  /\ kpi_median "monthly_rent_disp" target_unit filtered = Ok "-"
  /\ kpi_median "deposit_disp" target_unit filtered = Ok "-"
  /\ kpi_size filtered = Ok "-"
  /\ trend filtered = None
  /\ render ui target_unit base_comment s filtered
     = Ok {| v_count := "0 건"; v_rent := "-"; v_deposit := "-"; v_size := "-";
             v_charts := false; v_trend := None; v_results := None |}.
Proof.
  assert (He : frame_empty filtered = true) by (unfold frame_empty; now rewrite Hempty).
  assert (Hc : kpi_count filtered = "0 건") by (unfold kpi_count; now rewrite Hempty).
  assert (Ht : trend filtered = None).
  { unfold trend. rewrite He. simpl. rewrite andb_false_r. reflexivity. }
  unfold render, charts, show_trend, kpi_median, kpi_size. rewrite He, Hc, Ht. simpl.
  repeat split; reflexivity.
Qed.

(** ** One unit in every view *)

Lemma cell_delete_ne (r : gmap string pyval) (k k' : string) :
  k <> k' -> cell (delete k r) k' = cell r k'.
Proof. intros Hne. unfold cell. rewrite lookup_delete_ne by exact Hne. reflexivity. Qed.

Lemma project_lookup (r : gmap string pyval) (cols : list string) (c : string) :
  In c cols ->
  cell (list_to_map (List.map (fun c => (c, cell r c)) cols)) c = cell r c.
Proof.
  induction cols as [|c0 cols IH]; intros Hin; [destruct Hin|]. simpl.
  destruct (String.eqb_spec c0 c) as [->|Hne].
  - apply cell_insert_eq.
  - rewrite cell_insert_ne by exact Hne. apply IH.
    destruct Hin as [Heq|Hin]; [contradiction | exact Hin].
Qed.

Lemma existsb_eqb_In (c : string) (cols : list string) :
  existsb (String.eqb c) cols = true <-> In c cols.
Proof.
  rewrite existsb_exists. split.
  - intros [x [Hx Heq]]. apply String.eqb_eq in Heq. subst. exact Hx.
  - intros Hin. exists c. split; [exact Hin | apply String.eqb_refl].
Qed.

Lemma project_Forall2 (cols : list string) (df : DataFrame) (c : string) :
  In c cols ->
  Forall2 (fun r r' => cell r' c = cell r c) (rows df) (rows (project cols df))
  /\ has_col c (project cols df) = true.
Proof.
  intros Hin. split.
  - unfold project. simpl. induction (rows df) as [|r l IH]; simpl; constructor;
      [apply project_lookup; exact Hin | exact IH].
  - unfold has_col, project. simpl. apply existsb_eqb_In. exact Hin.
Qed.

Lemma drop_col_other (col k : string) (d : DataFrame) :
  k <> col ->
  Forall2 (fun r r' => cell r' k = cell r k) (rows d) (rows (drop_col col d))
  /\ has_col k (drop_col col d) = has_col k d.
Proof.
  intros Hne. split.
  - unfold drop_col. simpl. induction (rows d) as [|r l IH]; simpl; constructor;
      [apply cell_delete_ne; congruence | exact IH].
  - unfold has_col, drop_col. simpl. induction (columns d) as [|c l IH]; simpl;
      [reflexivity|].
    destruct (String.eqb_spec c col) as [->|Hc]; simpl.
    + destruct (String.eqb_spec k col); [contradiction | exact IH].
    + rewrite IH. reflexivity.
Qed.

Lemma rename_col_other (old new k : string) (d : DataFrame) :
  k <> old -> k <> new ->
  Forall2 (fun r r' => cell r' k = cell r k) (rows d) (rows (rename_col old new d)).
Proof.
  intros Ho Hn. unfold rename_col. simpl.
  induction (rows d) as [|r l IH]; simpl; constructor; [|exact IH].
  destruct (r !! old); [|reflexivity].
  rewrite cell_insert_ne by congruence. apply cell_delete_ne. congruence.
Qed.

Lemma fold_rename_other (k : string) (m : list (string * string)) :
  (forall e, In e m -> k <> fst e /\ k <> snd e) ->
  forall t, Forall2 (fun r r' => cell r' k = cell r k)
                    (rows t) (rows (fold_left rename_present m t)).
Proof.
  induction m as [|e m IH]; intros Hk t; simpl; [apply Forall2_refl_cell|].
  eapply Forall2_cell_trans; [|apply IH; intros e' He'; apply Hk; right; exact He'].
  unfold rename_present. destruct (has_col (fst e) t); [|apply Forall2_refl_cell].
  destruct (Hk e (or_introl eq_refl)) as [H1 H2]. apply rename_col_other; assumption.
Qed.

Section TableView.

Variable target_unit : string.

Lemma format_price_col_other (t t' : DataFrame) (e : string * string) (k : string) :
  format_price_col target_unit t e = Ok t' -> k <> fst e -> k <> snd e ->
  Forall2 (fun r r' => cell r' k = cell r k) (rows t) (rows t')
  /\ has_col k t' = has_col k t.
Proof.
  unfold format_price_col. intros H Hf Hs. destruct (has_col (fst e) t).
  - destruct (apply_col _ (fst e) (snd e) t) as [t1|x] eqn:H1; simpl in H;
      [|discriminate].
    inversion H; subst t'; clear H.
    destruct (apply_col_other _ _ _ k t t1 H1 Hs) as [Hr1 Hc1].
    destruct (drop_col_other (fst e) k t1 Hf) as [Hr2 Hc2].
    split; [eapply Forall2_cell_trans; eassumption | congruence].
  - inversion H; subst. split; [apply Forall2_refl_cell | reflexivity].
Qed.

Lemma format_price_col_target (t t' : DataFrame) (e : string * string) :
  format_price_col target_unit t e = Ok t' ->
  has_col (fst e) t = true -> fst e <> snd e ->
  Forall2 (fun r r' => exists n, as_number (cell r (fst e)) = Ok n
                                 /\ cell r' (snd e)
                                    = VStr (format_price_display n target_unit))
          (rows t) (rows t').
Proof.
  unfold format_price_col. intros H Hhas Hne. rewrite Hhas in H.
  destruct (apply_col _ (fst e) (snd e) t) as [t1|x] eqn:H1; simpl in H;
    [|discriminate].
  inversion H; subst t'; clear H.
  destruct (apply_col_target _ _ _ t t1 H1) as [Hr1 _].
  destruct (drop_col_other (fst e) (snd e) t1 (not_eq_sym Hne)) as [Hr2 _].
  eapply Forall2_weaken; [|exact (Forall2_compose _ _ _ _ _ Hr1 Hr2)].
  intros r r' [x [Hx Hr']]. unfold format_cell in Hx.
  destruct (as_number (cell r (fst e))) as [n|err]; simpl in Hx; [|discriminate].
  exists n. split; [reflexivity|]. inversion Hx. congruence.
Qed.

Lemma fold_format_other (k : string) (pm : list (string * string)) :
  (forall e, In e pm -> k <> fst e /\ k <> snd e) ->
  forall t t', res_foldM (format_price_col target_unit) pm t = Ok t' ->
  Forall2 (fun r r' => cell r' k = cell r k) (rows t) (rows t')
  /\ has_col k t' = has_col k t.
Proof.
  induction pm as [|e pm IH]; intros Hk t t' H; simpl in H.
  - inversion H; subst. split; [apply Forall2_refl_cell | reflexivity].
  - destruct (format_price_col target_unit t e) as [t1|x] eqn:H1; simpl in H;
      [|discriminate].
    destruct (Hk e (or_introl eq_refl)) as [Hf Hs].
    destruct (format_price_col_other t t1 e k H1 Hf Hs) as [Hr1 Hc1].
    destruct (IH (fun e' He' => Hk e' (or_intror He')) t1 t' H) as [Hr2 Hc2].
    split; [eapply Forall2_cell_trans; eassumption | congruence].
Qed.

(** After the loop over the price map, the formatted column of every
    entry whose source column is present holds the formatted source, for a
    map whose names are pairwise distinct. *)
Lemma fold_format_target (pm : list (string * string)) :
  (forall e e', In e pm -> In e' pm -> fst e <> snd e') ->
  (forall e e', In e pm -> In e' pm -> e <> e' ->
                fst e <> fst e' /\ snd e <> snd e') ->
  List.NoDup pm ->
  forall t t' e,
    res_foldM (format_price_col target_unit) pm t = Ok t' ->
    In e pm -> has_col (fst e) t = true ->
    Forall2 (fun r r' => exists n, as_number (cell r (fst e)) = Ok n
                                   /\ cell r' (snd e)
                                      = VStr (format_price_display n target_unit))
            (rows t) (rows t').
Proof.
  induction pm as [|e0 pm IH]; intros Hfs Hdist Hnd t t' e H Hin Hhas;
    [destruct Hin|].
  simpl in H.
  destruct (format_price_col target_unit t e0) as [t1|x] eqn:H1; simpl in H;
    [|discriminate].
  inversion Hnd as [|? ? Hnotin Hnd']; subst.
  destruct Hin as [<-|Hin].
  - pose proof (format_price_col_target t t1 e0 H1 Hhas
                  (Hfs e0 e0 (or_introl eq_refl) (or_introl eq_refl))) as Hr1.
    assert (Hk : forall e', In e' pm -> snd e0 <> fst e' /\ snd e0 <> snd e').
    { intros e' He'. split.
      - apply not_eq_sym. apply Hfs; [right; exact He' | left; reflexivity].
      - apply (Hdist e0 e'); [left; reflexivity | right; exact He'|].
        intros ->. contradiction. }
    destruct (fold_format_other (snd e0) pm Hk t1 t' H) as [Hr2 _].
    eapply Forall2_weaken; [|exact (Forall2_compose _ _ _ _ _ Hr1 Hr2)].
    intros r r' [x [[n [Hn Hx]] Hr']]. exists n. split; [exact Hn | congruence].
  - assert (Hne : e0 <> e) by (intros ->; contradiction).
    destruct (Hdist e0 e (or_introl eq_refl) (or_intror Hin) Hne) as [Hf _].
    pose proof (Hfs e e0 (or_intror Hin) (or_introl eq_refl)) as Hs.
    destruct (format_price_col_other t t1 e0 (fst e) H1 (not_eq_sym Hf) Hs)
      as [Hr1 Hc1].
    assert (Hhas1 : has_col (fst e) t1 = true) by congruence.
    pose proof (IH (fun a b Ha Hb => Hfs a b (or_intror Ha) (or_intror Hb))
                   (fun a b Ha Hb => Hdist a b (or_intror Ha) (or_intror Hb))
                   Hnd' t1 t' e H Hin Hhas1) as Hr2.
    eapply Forall2_weaken; [|exact (Forall2_compose _ _ _ _ _ Hr1 Hr2)].
    intros r r' [x [Hx [n [Hn Hr']]]]. exists n. split; [congruence | exact Hr'].
Qed.

Lemma price_map_names :
  (forall e e', In e price_map -> In e' price_map -> fst e <> snd e')
  /\ (forall e e', In e price_map -> In e' price_map -> e <> e' ->
                   fst e <> fst e' /\ snd e <> snd e')
  /\ List.NoDup price_map
  /\ (forall e e', In e price_map -> In e' column_rename_map ->
                   snd e <> fst e' /\ snd e <> snd e')
  /\ (forall e, In e price_map -> In (fst e) cols_to_use).
Proof.
  unfold price_map, column_rename_map, cols_to_use. simpl.
  split; [|split; [|split; [|split]]].
  - intros e e' He He'. intuition (subst; discriminate).
  - intros e e' He He' Hne. intuition (subst; first [discriminate | congruence]).
  - repeat (constructor; [simpl; intuition discriminate|]). constructor.
  - intros e e' He He'. intuition (subst; discriminate).
  - intros e He. intuition (subst; simpl; tauto).
Qed.

(** The table: every price column that is present is shown formatted in
    the chosen unit, under its display name. *)
Lemma table_view_formats (f t : DataFrame) (e : string * string) :
  table_view target_unit f = Ok t ->
  In e price_map -> has_col (fst e) f = true ->
  Forall2 (fun r r' => exists n, as_number (cell r (fst e)) = Ok n
                                 /\ cell r' (snd e)
                                    = VStr (format_price_display n target_unit))
          (rows f) (rows t).
Proof.
  destruct price_map_names as (Hfs & Hdist & Hnd & Hren & Huse).
  unfold table_view. intros H He Hhas.
  set (display_cols := List.filter (fun c => has_col c f) cols_to_use) in *.
  destruct (res_foldM (format_price_col target_unit) price_map
              (project display_cols f)) as [t1|x] eqn:H1; simpl in H; [|discriminate].
  inversion H; subst t; clear H.
  assert (Hdisp : In (fst e) display_cols).
  { apply filter_In. split; [apply Huse; exact He | exact Hhas]. }
  destruct (project_Forall2 display_cols f (fst e) Hdisp) as [Hr0 Hc0].
  pose proof (fold_format_target price_map Hfs Hdist Hnd _ t1 e H1 He Hc0) as Hr1.
  pose proof (fold_rename_other (snd e) column_rename_map
                (fun e' He' => Hren e e' He He') t1) as Hr2.
  eapply Forall2_weaken;
    [|exact (Forall2_compose _ _ _ _ _ Hr0 (Forall2_compose _ _ _ _ _ Hr1 Hr2))].
  intros r r' [x [Hx [y [[n [Hn Hy]] Hr']]]].
  exists n. split; [congruence | congruence].
Qed.

End TableView.

Lemma kpi_median_unit (col target_unit : string) (f : DataFrame) (shown : string) :
  kpi_median col target_unit f = Ok shown ->
  shown = no_value
  \/ exists c, numeric_col col f = Ok c
               /\ shown = format_price_display (median c) target_unit.
Proof.
  unfold kpi_median. destruct (negb (frame_empty f) && has_col col f).
  - destruct (numeric_col col f) as [c|e]; simpl; [|discriminate].
    intros H. inversion H. right. exists c. split; reflexivity.
  - intros H. inversion H. left. reflexivity.
Qed.

Lemma select_item_In (sel : pyval) (f : DataFrame) (item : gmap string pyval) :
  select_item sel f = Ok item -> In item (rows f).
Proof.
  unfold select_item. destruct (res_mapM _ (rows f)) as [mask|e]; simpl;
    [|discriminate].
  destruct (List.filter _ (rows f)) as [|r l] eqn:Hf; [discriminate|].
  intros H. inversion H; subst r.
  assert (Hin : In item (item :: l)) by (left; reflexivity).
  rewrite <- Hf in Hin. apply filter_In in Hin. tauto.
Qed.

Lemma detail_metric_unit (target_unit : string) (f : DataFrame)
    (item : gmap string pyval) (col shown : string) :
  detail_metric target_unit f item col = Ok shown ->
  exists n, as_number (item_get f item col (VNum 0)) = Ok n
            /\ shown = format_price_display n target_unit.
Proof.
  unfold detail_metric. destruct (as_number _) as [n|e]; simpl; [|discriminate].
  intros H. inversion H. exists n. split; reflexivity.
Qed.

Lemma detail_unit (ui : display) (target_unit base_comment : string)
    (s : selection) (f : DataFrame) (dv : detail_view) :
  detail ui target_unit base_comment s f = Ok dv ->
  exists item, In item (rows f) /\ detail_in_unit target_unit f item dv.
Proof.
  unfold detail. destruct (has_col "title" f); simpl; [|discriminate].
  destruct (select_item _ f) as [item|e] eqn:Hsel; simpl; [|discriminate].
  destruct (gallery ui f item) as [photos|e]; simpl; [|discriminate].
  destruct (detail_metric target_unit f item "deposit_disp") as [dep|e] eqn:H1;
    simpl; [|discriminate].
  destruct (detail_metric target_unit f item "monthly_rent_disp") as [rent|e] eqn:H2;
    simpl; [|discriminate].
  destruct (detail_metric target_unit f item "premium_disp") as [prem|e] eqn:H3;
    simpl; [|discriminate].
  destruct (detail_metric target_unit f item "maintenance_fee_disp") as [fee|e] eqn:H4;
    simpl; [|discriminate].
  destruct (comment_of base_comment (cell item "title")) as [com|e]; simpl;
    [|discriminate].
  intros H. inversion H; subst dv; clear H. exists item.
  split; [eapply select_item_In; exact Hsel|].
  unfold detail_in_unit. simpl.
  repeat split; apply detail_metric_unit; assumption.
Qed.

Lemma render_unit (ui : display) (u base_comment : string) (s : selection)
    (f : DataFrame) (d : dashboard) :
  render ui u base_comment s f = Ok d -> views_in_unit u f d.
Proof.
  unfold render.
  destruct (kpi_median "monthly_rent_disp" u f) as [rent|e] eqn:Hrent; simpl;
    [|discriminate].
  destruct (kpi_median "deposit_disp" u f) as [dep|e] eqn:Hdep; simpl;
    [|discriminate].
  destruct (kpi_size f) as [size|e]; simpl; [|discriminate].
  destruct (charts ui f) as [plotted|e]; simpl; [|discriminate].
  destruct (show_trend ui f) as [counts|e]; simpl; [|discriminate].
  destruct (negb (frame_empty f)).
  - destruct (table_view u f) as [t|e] eqn:Ht; simpl; [|discriminate].
    destruct (st_dataframe ui t) as [[]|e]; simpl; [|discriminate].
    destruct (detail ui u base_comment s f) as [dv|e] eqn:Hd; simpl; [|discriminate].
    intros H. inversion H; subst d; clear H. unfold views_in_unit. simpl.
    split; [eapply kpi_median_unit; exact Hrent|].
    split; [eapply kpi_median_unit; exact Hdep|].
    intros t' dv' Heq. inversion Heq; subst t' dv'. split.
    + intros e He Hhas. eapply table_view_formats; eassumption.
    + eapply detail_unit. exact Hd.
  - simpl. intros H. inversion H; subst d; clear H. unfold views_in_unit. simpl.
    split; [eapply kpi_median_unit; exact Hrent|].
    split; [eapply kpi_median_unit; exact Hdep|].
    intros t dv Heq. discriminate.
Qed.

(** C9: in one render cycle the unit chosen in the sidebar is the one unit
    at work: each display column of the five price fields holds
    [convert_price] of the stored value in that unit, and the median KPIs,
    the price columns of the table and the figures of the detail panel are
    [format_price_display] in that same unit. *)
Theorem unit_applied_uniformly (json_loads : string -> option pyval)
    (regex : Type) (re_compile : string -> option regex)
    (re_search : regex -> string -> bool)
    (to_datetime : list pyval -> res (list pyval)) (ui : display)
    (query : res DataFrame) (base_comment : string) (w : widgets) (s : selection)
    (d : dashboard)
    (Hrun : run json_loads regex re_compile re_search to_datetime ui query
              base_comment w s
            = Ok (Some d)) :
  let u := target_unit_of (unit_choice w) in
  let raw_df := fst (load_db_data json_loads query) in
  (u = unit_won \/ u = unit_man)
  /\ exists df c filtered,
       preprocess to_datetime u raw_df = Ok df
       /\ read_criteria w df = Ok c
       /\ f_df regex re_compile re_search c df = Ok filtered
       /\ (forall col, In col price_cols -> has_col col raw_df = true ->
             Forall2 (fun r r' => exists v n, as_price (cell r col) = Ok v
                                            /\ convert_price v u = Ok n
                                            /\ cell r' (disp col) = of_number n)
                     (rows raw_df) (rows df))
       /\ views_in_unit u filtered d.
Proof.
  intros u raw_df. split.
  { unfold u, target_unit_of. destruct (String.eqb (unit_choice w) "원");
      [left | right]; reflexivity. }
  unfold run in Hrun. fold raw_df in Hrun. fold u in Hrun.
  destruct (frame_empty raw_df); [discriminate|].
  destruct (preprocess to_datetime u raw_df) as [df|e] eqn:Hpre; simpl in Hrun;
    [|discriminate].
  destruct (industries df) as [[]|e]; simpl in Hrun; [|discriminate].
  destruct (read_criteria w df) as [c|e] eqn:Hc; simpl in Hrun; [|discriminate].
  destruct (f_df regex re_compile re_search c df) as [filtered|e] eqn:Hf;
    simpl in Hrun; [|discriminate].
  destruct (render ui u base_comment s filtered) as [d'|e] eqn:Hr; simpl in Hrun;
    [|discriminate].
  inversion Hrun; subst d'; clear Hrun.
  exists df, c, filtered.
  split; [reflexivity|]. split; [assumption|]. split; [assumption|]. split.
  - intros col Hcol Hhas.
    apply (proj1 (preprocess_disp u to_datetime raw_df df col Hpre Hcol Hhas)).
  - apply (render_unit ui u base_comment s filtered d Hr).
Qed.

(* ===================================================================== *)
(** ** The properties on the sample dataset *)
(* ===================================================================== *)

Lemma filter_order_independent_witness :
  apply_steps
    (rev (steps (list atom) re_compile_literal_dot re_search_literal_dot
            sample_criteria))
    sample_df
  = f_df (list atom) re_compile_literal_dot re_search_literal_dot
      sample_criteria sample_df
  /\ exists out,
       f_df (list atom) re_compile_literal_dot re_search_literal_dot
         sample_criteria sample_df = Ok out
       /\ out = filter_rows (row_passes (list atom) re_compile_literal_dot
                               re_search_literal_dot sample_criteria sample_df)
                            sample_df
       /\ List.map (fun r => cell r "title") (rows out)
          = [VStr "동부이촌동 1층 상가"].
Proof.
  assert (Hread : read_criteria sample_active_widgets sample_df = Ok sample_criteria)
    by (vm_compute; reflexivity).
  destruct (filter_order_independent (list atom) re_compile_literal_dot
              re_search_literal_dot sample_active_widgets sample_df
              sample_criteria Hread) as (Horder & Hand & _).
  split.
  - apply Horder. apply Permutation_sym, Permutation_rev.
  - destruct (f_df (list atom) re_compile_literal_dot re_search_literal_dot
                sample_criteria sample_df) as [out|e] eqn:Hf.
    + exists out. split; [reflexivity|]. split; [apply Hand; reflexivity|].
      vm_compute in Hf. inversion Hf. vm_compute. reflexivity.
    + vm_compute in Hf. discriminate.
Defined.

Lemma exclude_undisclosed_premium_witness :
  (hide_premium_closed sample_active_widgets sample_flags = true
   /\ exists out,
        step_premium (hide_premium_closed sample_active_widgets sample_flags)
          sample_flags = Ok out
        /\ (forall r, In r (rows out) <->
                      In r (rows sample_flags)
                      /\ flag_of (cell r "is_premium_closed") = Some false)
        /\ ~ In sample_unflagged_row (rows out))
  /\ step_premium true sample_unflagged = Ok sample_unflagged
  /\ step_premium (hide_premium_closed sample_widgets sample_flags) sample_flags
     = Ok sample_flags.
Proof.
  split; [|split].
  - destruct (proj1 (exclude_undisclosed_premium sample_active_widgets sample_flags))
      as (Hhide & out & Hout & _ & _ & Hkept & _ & Hmissing);
      [reflexivity | reflexivity |].
    split; [exact Hhide|]. exists out. split; [exact Hout|].
    split; [exact Hkept|]. apply Hmissing. left. reflexivity.
  - apply (proj1 (proj2 (exclude_undisclosed_premium sample_widgets
                           sample_unflagged))).
    reflexivity.
  - apply (proj2 (proj2 (exclude_undisclosed_premium sample_widgets sample_flags))).
    reflexivity.
Defined.

(** C7 as stated fails: the listing whose flag is NULL is dropped with the
    one whose flag is true, although its flag is not true. *)
Lemma premium_filter_drops_missing_flag :
  exists out,
    step_premium true sample_flags = Ok out
    /\ In sample_unflagged_row (rows sample_flags)
    /\ flag_of (cell sample_unflagged_row "is_premium_closed") <> Some true
    /\ ~ In sample_unflagged_row (rows out)
    /\ column "title" out = [VStr "동부이촌동 1층 상가"; VStr "Seoul cafe"].
Proof.
  eexists. split; [reflexivity|]. split; [|split; [|split]].
  - simpl. right. right. right. left. reflexivity.
  - discriminate.
  - apply (step_premium_drops_missing sample_flags);
      [reflexivity | left; reflexivity | reflexivity].
  - vm_compute. reflexivity.
Qed.

Lemma degenerate_rent_range_witness :
  rent_range sample_widgets sample_uniform_df = Ok (Num 50, Num 50)
  /\ step_rent (Num 50, Num 50) sample_uniform_df = Ok sample_uniform_df.
Proof.
  assert (Hpre : preprocess to_datetime_iso unit_man sample_uniform_raw
                 = Ok sample_uniform_df) by (vm_compute; reflexivity).
  assert (Hrent : has_col "monthly_rent" sample_uniform_raw = true) by reflexivity.
  destruct (degenerate_rent_range (list atom) re_compile_literal_dot
              re_search_literal_dot to_datetime_iso unit_man sample_widgets
              sample_uniform_raw sample_uniform_df Hpre Hrent) as [col [Hcol H]].
  assert (Hval : numeric_col "monthly_rent_disp" sample_uniform_df
                 = Ok [Num 50; Num 50]) by (vm_compute; reflexivity).
  rewrite Hval in Hcol. inversion Hcol; subst col.
  destruct H as (H1 & H2 & _); [vm_compute; reflexivity|].
  split; [exact H1 | exact H2].
Defined.

Lemma empty_result_degrades_witness :
  render display_web unit_man "" {| title_row := 0 |} sample_no_match
  = Ok {| v_count := "0 건"; v_rent := "-"; v_deposit := "-"; v_size := "-";
          v_charts := false; v_trend := None; v_results := None |}.
Proof.
  apply (empty_result_degrades display_web unit_man "" {| title_row := 0 |}
           sample_no_match).
  vm_compute; reflexivity.
Defined.

Lemma unit_applied_uniformly_witness :
  exists d,
    run_ref (Ok sample_raw) "채광이 좋은 코너 상가" sample_widgets {| title_row := 0 |}
    = Ok (Some d)
    /\ exists filtered, views_in_unit unit_man filtered d.
Proof.
  destruct (run_ref (Ok sample_raw) "채광이 좋은 코너 상가" sample_widgets
              {| title_row := 0 |}) as [[d|]|e] eqn:Hrun.
  - exists d. split; [reflexivity|].
    destruct (unit_applied_uniformly json_loads_strings (list atom)
                re_compile_literal_dot re_search_literal_dot to_datetime_iso
                display_all (Ok sample_raw) "채광이 좋은 코너 상가" sample_widgets
                {| title_row := 0 |} d Hrun)
      as [_ (df & c & filtered & _ & _ & _ & _ & Hv)].
    exists filtered. exact Hv.
  - vm_compute in Hrun. discriminate.
  - vm_compute in Hrun. discriminate.
Defined.

(** C6 at a search text that is not plain: the location statement hands the
    text to [Series.str.contains], which reads it as a pattern.  With the
    search text ["."] every row that has a location is kept, although no
    location contains a full stop; with ["("] the statement raises.  (For the
    rest, [step_location_rows]: rows without a location are dropped, and a
    row is kept exactly when the pattern is found in its location.) *)
Theorem location_search_reads_pattern :
  (exists out,
     step_location (list atom) re_compile_literal_dot re_search_literal_dot
       "." sample_df = Ok out
     /\ List.map (fun r => cell r "near_subway_station") (rows out)
        = [VStr "이촌역, 도보 3분"; VStr "A"])
  /\ contains "." "이촌역, 도보 3분" = false
  /\ contains "." "A" = false
  /\ step_location (list atom) re_compile_literal_dot re_search_literal_dot
       "(" sample_df = Raise ReError.
Proof.
  split; [|split; [|split]].
  - eexists. split; vm_compute; reflexivity.
  - vm_compute; reflexivity.
  - vm_compute; reflexivity.
  - vm_compute; reflexivity.
Qed.

(* ===================================================================== *)
(** * Further properties of the script *)
(* ===================================================================== *)

(** ** The sample dataset, computed once *)

Lemma sample_loaded_ok :
  load_db_data json_loads_strings (Ok sample_raw) = (sample_loaded, None).
Proof. vm_compute; reflexivity. Qed.

Lemma sample_df_ok : preprocess to_datetime_iso unit_man sample_raw = Ok sample_df.
Proof. vm_compute; reflexivity. Qed.

Lemma sample_criteria_ok :
  read_criteria sample_active_widgets sample_df = Ok sample_criteria.
Proof. vm_compute; reflexivity. Qed.

Lemma Forall_forallb {A} (P : A -> Prop) (p : A -> bool) (l : list A) :
  (forall a, p a = true -> P a) -> forallb p l = true -> Forall P l.
Proof.
  intros HP. induction l as [|a l IH]; simpl; [constructor|].
  intros H. apply andb_true_iff in H. destruct H as [Ha Hl].
  constructor; [apply HP; exact Ha | apply IH; exact Hl].
Qed.

(** ** Conversion and formatting *)

Lemma length_append (a b : string) :
  String.length (a ++ b) = (String.length a + String.length b)%nat.
Proof.
  induction a as [|c a IH]; [reflexivity|].
  rewrite append_cons. simpl. rewrite IH. reflexivity.
Qed.

Lemma not_dash_suffix (a b : string) : (2 <= String.length b)%nat -> a ++ b <> "-".
Proof.
  intros Hb Heq. apply (f_equal String.length) in Heq.
  rewrite length_append in Heq. simpl in Heq. lia.
Qed.

Lemma not_dash_prefix (a b : string) : (2 <= String.length a)%nat -> a ++ b <> "-".
Proof.
  intros Ha Heq. apply (f_equal String.length) in Heq.
  rewrite length_append in Heq. simpl in Heq. lia.
Qed.

(** The dash stands for a zero amount and for nothing else: every other
    number, NaN included, is rendered as text that is not the dash. *)
Theorem dash_only_for_zero (val : number) (u : string) :
  format_price_display val u = "-" <-> exists v, val = Num v /\ (v == 0)%Q.
Proof.
  split.
  - destruct val as [|v]; simpl.
    + destruct (String.eqb u "만"); discriminate.
    + destruct (Qeq_bool v 0) eqn:Hz.
      * intros _. exists v. split; [reflexivity | apply Qeq_bool_iff; exact Hz].
      * intros H. exfalso. revert H.
        destruct (String.eqb u "만").
        -- destruct (Qle_bool 10000 v).
           ++ destruct (0 <? py_int (py_mod v 10000)).
              ** apply not_dash_suffix. rewrite !length_append. simpl. lia.
              ** apply not_dash_suffix. simpl. lia.
           ++ apply not_dash_suffix. simpl. lia.
        -- apply not_dash_prefix. simpl. lia.
  - intros [v [-> Hv]]. simpl. apply Qeq_bool_iff in Hv. rewrite Hv. reflexivity.
Qed.

Lemma py_int_within_one (q : Q) :
  (inject_Z (py_int q) - 1 < q)%Q /\ (q < inject_Z (py_int q) + 1)%Q.
Proof.
  destruct q as [n d]. unfold py_int, Qlt, Qminus, Qplus, Qopp, inject_Z. simpl.
  pose proof (Z.quot_rem' n (Zpos d)) as Hqr.
  pose proof (Z.rem_bound_abs n (Zpos d)) as Hb.
  assert (Hd : Z.abs (Z.rem n (Z.pos d)) < Z.pos d) by (apply Hb; lia).
  split; nia.
Qed.

(** *** The rounding error of a float operation *)

Lemma Qpow2_pos (e : Z) : (0 < Qpow2 e)%Q.
Proof. unfold Qpow2. apply Qpower_0_lt. reflexivity. Qed.

Lemma Qpow2_plus (a b : Z) : (Qpow2 (a + b) == Qpow2 a * Qpow2 b)%Q.
Proof. unfold Qpow2. apply Qpower_plus. discriminate. Qed.

Lemma Qpow2_Z (e : Z) : 0 <= e -> (Qpow2 e == inject_Z (2 ^ e))%Q.
Proof. intros H. unfold Qpow2. symmetry. apply (Zpower_Qpower 2 e H). Qed.

Lemma Qabs'_nonneg (q : Q) : (0 <= Qabs' q)%Q.
Proof.
  unfold Qabs', Qlt_bool. destruct (Qle_bool 0 q) eqn:H; simpl.
  - apply Qle_bool_iff. exact H.
  - assert (~ (0 <= q)%Q) by (intros Hle; apply Qle_bool_iff in Hle; congruence).
    lra.
Qed.

(** Rounding to the nearest integer moves a number by a half at most. *)
Lemma round_half_even_near (x : Q) :
  (x - (1 # 2) <= inject_Z (round_half_even x))%Q
  /\ (inject_Z (round_half_even x) <= x + (1 # 2))%Q.
Proof.
  unfold round_half_even.
  pose proof (Qfloor_le x) as Hlo. pose proof (Qlt_floor x) as Hhi.
  rewrite inject_Z_plus in Hhi. change (inject_Z 1) with 1%Q in Hhi.
  set (f := Qfloor x) in *.
  assert (Hf1 : (inject_Z (f + 1) == inject_Z f + 1)%Q)
    by (rewrite inject_Z_plus; reflexivity).
  destruct (x - inject_Z f ?= 1 # 2)%Q eqn:Hc.
  - apply (proj2 (Qeq_alt _ _)) in Hc.
    destruct (Z.even f); [|rewrite Hf1]; split; lra.
  - apply (proj2 (Qlt_alt _ _)) in Hc. split; lra.
  - apply (proj2 (Qgt_alt _ _)) in Hc. rewrite Hf1. split; lra.
Qed.

(** The binade of a positive number starts below it. *)
Lemma binade_le (a : Q) : (0 < a)%Q -> (Qpow2 (binade a) <= a)%Q.
Proof.
  intros Ha. unfold binade. destruct (Qle_bool 1 a) eqn:H1.
  - apply Qle_bool_iff in H1.
    assert (Hfl : 1 <= Qfloor a).
    { change 1 with (Qfloor 1). apply Qfloor_resp_le. exact H1. }
    rewrite Qpow2_Z by apply Z.log2_nonneg.
    destruct (Z.log2_spec (Qfloor a) ltac:(lia)) as [Hspec _].
    apply Qle_trans with (inject_Z (Qfloor a)); [|apply Qfloor_le].
    rewrite <- Zle_Qle. exact Hspec.
  - set (c := Qceiling (/ a)). set (j := Z.log2_up c).
    assert (Hj : 0 <= j) by apply Z.log2_up_nonneg.
    assert (Hc : c <= 2 ^ j).
    { destruct (Z_lt_le_dec 1 c) as [Hgt|Hle].
      - apply (Z.log2_up_spec c Hgt).
      - unfold j. rewrite (Z.log2_up_eqn0 c Hle). simpl. lia. }
    assert (Hinv : (/ a <= inject_Z (2 ^ j))%Q).
    { apply Qle_trans with (inject_Z c); [apply Qle_ceiling|].
      rewrite <- Zle_Qle. exact Hc. }
    assert (Hone : (1 <= inject_Z (2 ^ j) * a)%Q).
    { assert (Hm : (/ a * a <= inject_Z (2 ^ j) * a)%Q).
      { apply Qmult_le_compat_r; [exact Hinv | lra]. }
      rewrite (Qmult_comm (/ a)), Qmult_inv_r in Hm by lra. exact Hm. }
    unfold Qpow2. rewrite Qpower_opp. fold (Qpow2 j). rewrite (Qpow2_Z j Hj).
    assert (Hp : (0 < inject_Z (2 ^ j))%Q).
    { change 0%Q with (inject_Z 0). rewrite <- Zlt_Qlt.
      apply Z.pow_pos_nonneg; lia. }
    assert (E : (/ inject_Z (2 ^ j) == 1 / inject_Z (2 ^ j))%Q)
      by (unfold Qdiv; ring).
    rewrite E.
    apply Qle_shift_div_r; [exact Hp|].
    rewrite Qmult_comm. exact Hone.
Qed.

(** Half a unit in the last place is at most the relative error [2^-53]
    of the number, or half the subnormal step. *)
Lemma half_ulp_bound (a : Q) :
  (0 < a)%Q ->
  (Qpow2 (b64_ulp a) * (1 # 2) <= a * Qpow2 (-53) + Qpow2 (-1075))%Q.
Proof.
  intros Ha. unfold b64_ulp.
  pose proof (Qpow2_pos (-1075)) as Htiny. pose proof (Qpow2_pos (-53)) as Heps.
  destruct (Z.max_spec (binade a - 52) (-1074)) as [[_ ->]|[_ ->]].
  - assert (H : (Qpow2 (-1074) == 2 * Qpow2 (-1075))%Q).
    { change (-1074) with (1 + -1075). rewrite Qpow2_plus. reflexivity. }
    rewrite H.
    assert (0 <= a * Qpow2 (-53))%Q by (apply Qmult_le_0_compat; lra).
    lra.
  - pose proof (binade_le a Ha) as Hk.
    assert (H : (Qpow2 (binade a - 52) == 2 * (Qpow2 (binade a) * Qpow2 (-53)))%Q).
    { replace (binade a - 52) with (1 + (binade a + -53)) by lia.
      rewrite !Qpow2_plus. reflexivity. }
    rewrite H.
    assert (Hm : (Qpow2 (binade a) * Qpow2 (-53) <= a * Qpow2 (-53))%Q).
    { apply Qmult_le_compat_r; [exact Hk | lra]. }
    lra.
Qed.

(** A float operation returns its exact result up to the relative error
    [2^-53], or up to half the subnormal step. *)
Lemma b64_error (q r : Q) :
  b64 q = Some r ->
  (q - (Qabs' q * Qpow2 (-53) + Qpow2 (-1075)) <= r)%Q
  /\ (r <= q + (Qabs' q * Qpow2 (-53) + Qpow2 (-1075)))%Q.
Proof.
  unfold b64.
  pose proof (Qpow2_pos (-1075)) as Htiny. pose proof (Qpow2_pos (-53)) as Heps.
  pose proof (Qabs'_nonneg q) as Habs.
  assert (Hprod : (0 <= Qabs' q * Qpow2 (-53))%Q) by (apply Qmult_le_0_compat; lra).
  destruct (Qeq_bool q 0) eqn:Hz.
  - apply Qeq_bool_iff in Hz. intros H. inversion H; subst r. split; lra.
  - assert (Hq : ~ (q == 0)%Q) by (intros H; apply Qeq_bool_iff in H; congruence).
    cbv zeta. set (a := Qabs' q) in *. set (e := b64_ulp a).
    set (m := round_half_even (a / Qpow2 e)).
    destruct (Qle_bool (Qpow2 1024) (inject_Z m * Qpow2 e)); [discriminate|].
    intros H. inversion H as [Hr]. clear H Hr.
    pose proof (Qpow2_pos e) as Hpe.
    assert (Hapos : (0 < a)%Q).
    { unfold a, Qabs', Qlt_bool in *. destruct (Qle_bool 0 q) eqn:H0; simpl in *.
      - apply Qle_bool_iff in H0. lra.
      - assert (~ (0 <= q)%Q) by (intros Hle; apply Qle_bool_iff in Hle; congruence).
        lra. }
    destruct (round_half_even_near (a / Qpow2 e)) as [Hlo Hhi]. fold m in Hlo, Hhi.
    assert (Hdiv : (a / Qpow2 e * Qpow2 e == a)%Q) by (field; lra).
    assert (Hlo' : ((a / Qpow2 e - (1 # 2)) * Qpow2 e <= inject_Z m * Qpow2 e)%Q)
      by (apply Qmult_le_compat_r; lra).
    assert (Hhi' : (inject_Z m * Qpow2 e <= (a / Qpow2 e + (1 # 2)) * Qpow2 e)%Q)
      by (apply Qmult_le_compat_r; lra).
    pose proof (half_ulp_bound a Hapos) as Hulp. fold e in Hulp.
    set (r0 := (inject_Z m * Qpow2 e)%Q) in *.
    assert (Hr0 : (a - (a * Qpow2 (-53) + Qpow2 (-1075)) <= r0)%Q
                  /\ (r0 <= a + (a * Qpow2 (-53) + Qpow2 (-1075)))%Q).
    { set (x := (a / Qpow2 e)%Q) in *. set (P := Qpow2 e) in *.
      assert (E1 : ((x - (1 # 2)) * P == x * P - P * (1 # 2))%Q) by ring.
      assert (E2 : ((x + (1 # 2)) * P == x * P + P * (1 # 2))%Q) by ring.
      rewrite E1 in Hlo'. rewrite E2 in Hhi'. rewrite Hdiv in Hlo', Hhi'.
      split; lra. }
    rewrite Qred_correct.
    unfold a, Qabs' in Hr0 |- *. destruct (Qlt_bool q 0); lra.
Qed.

Lemma Qabs'_of_nonneg (q : Q) : (0 <= q)%Q -> Qabs' q = q.
Proof.
  intros H. unfold Qabs', Qlt_bool. apply Qle_bool_iff in H. rewrite H. reflexivity.
Qed.

(** The two display units describe the same amount: 10,000 times the 만원
    figure and the 원 figure differ by less than the one 원 that [int] can
    cut off and the rounding of the two float operations, a relative
    [2^-53] each. *)
Theorem units_agree (v : Q) (won man : number)
    (Hv : (0 <= v)%Q)
    (Hwon : convert_price (Some (Num v)) unit_won = Ok won)
    (Hman : convert_price (Some (Num v)) unit_man = Ok man) :
  exists (a : Z) (b : Q),
    won = Num (inject_Z a) /\ man = Num b
    /\ (inject_Z a - 10000 * b
        < 1 + (2000 * v * Qpow2 (-53) + 10001 * Qpow2 (-1075)))%Q
    /\ (10000 * b - inject_Z a
        < 1 + (2000 * v * Qpow2 (-53) + 10001 * Qpow2 (-1075)))%Q.
Proof.
  unfold convert_price in Hwon, Hman.
  change (String.eqb unit_won "원") with true in Hwon.
  change (String.eqb unit_man "원") with false in Hman. cbv iota in Hwon, Hman.
  destruct (b64 (v * 1000)) as [p|] eqn:Hp; [|discriminate].
  destruct (b64 (v / 10)) as [b|] eqn:Hb; [|discriminate].
  inversion Hwon; subst won. inversion Hman; subst man.
  exists (py_int p), b. split; [reflexivity|]. split; [reflexivity|].
  destruct (b64_error _ _ Hp) as [Hp1 Hp2].
  destruct (b64_error _ _ Hb) as [Hb1 Hb2].
  assert (H1000 : (0 <= v * 1000)%Q) by lra.
  assert (H10 : (0 <= v / 10)%Q).
  { assert (E : (v / 10 == v * (1 # 10))%Q) by (field). rewrite E. lra. }
  rewrite (Qabs'_of_nonneg _ H1000) in Hp1, Hp2.
  rewrite (Qabs'_of_nonneg _ H10) in Hb1, Hb2.
  assert (E : (v / 10 == v * (1 # 10))%Q) by (field).
  rewrite E in Hb1, Hb2.
  destruct (py_int_within_one p) as [Hz1 Hz2].
  pose proof (Qpow2_pos (-1075)) as Htiny. pose proof (Qpow2_pos (-53)) as Heps.
  set (eps := Qpow2 (-53)) in *. set (tiny := Qpow2 (-1075)) in *.
  set (z := inject_Z (py_int p)) in *.
  assert (Hve : (0 <= v * eps)%Q) by (apply Qmult_le_0_compat; lra).
  assert (E1 : (v * 1000 * eps == 1000 * (v * eps))%Q) by ring.
  assert (E2 : (v * (1 # 10) * eps == (1 # 10) * (v * eps))%Q) by ring.
  assert (E3 : (2000 * v * eps == 2000 * (v * eps))%Q) by ring.
  rewrite E1 in Hp1, Hp2. rewrite E2 in Hb1, Hb2. rewrite E3.
  set (ve := (v * eps)%Q) in *.
  split; lra.
Qed.

Lemma units_agree_witness :
  exists (a : Z) (b : Q),
    convert_price (Some (Num (5134103575202365 # 9007199254740992))) unit_won
    = Ok (Num (inject_Z a))
    /\ convert_price (Some (Num (5134103575202365 # 9007199254740992))) unit_man
       = Ok (Num b)
    /\ (inject_Z a - 10000 * b < 2)%Q /\ (10000 * b - inject_Z a < 2)%Q.
Proof.
  destruct (units_agree (5134103575202365 # 9007199254740992)
              (Num 570) (Num (1026820715040473 # 18014398509481984)))
    as (a & b & Ha & Hb & H1 & H2).
  - unfold Qle; simpl; lia.
  - vm_compute; reflexivity.
  - vm_compute; reflexivity.
  - exists a, b. rewrite <- Ha, <- Hb. split; [vm_compute; reflexivity|].
    split; [vm_compute; reflexivity|].
    assert (Hs : (2000 * (5134103575202365 # 9007199254740992) * Qpow2 (-53)
                  + 10001 * Qpow2 (-1075) < 1)%Q) by (vm_compute; reflexivity).
    split; lra.
Defined.

(** ** Loading *)

Lemma Forall2_fn_refl {A B} (g : A -> B) (l : list A) :
  Forall2 (fun a a' => g a' = g a) l l.
Proof. induction l; constructor; [reflexivity | assumption]. Qed.

Lemma Forall2_fn_trans {A B} (g : A -> B) (l1 l2 l3 : list A) :
  Forall2 (fun a a' => g a' = g a) l1 l2 ->
  Forall2 (fun a a' => g a' = g a) l2 l3 ->
  Forall2 (fun a a' => g a' = g a) l1 l3.
Proof.
  intros H1 H2. eapply Forall2_weaken; [|exact (Forall2_compose _ _ _ _ _ H1 H2)].
  intros a c [b [Hb Hc]]. congruence.
Qed.

Lemma Forall2_same_length {A B} (P : A -> B -> Prop) (l1 : list A) (l2 : list B) :
  Forall2 P l1 l2 -> List.length l1 = List.length l2.
Proof. induction 1; simpl; congruence. Qed.

Lemma add_col_present (dst : string) (cols : list string) :
  existsb (String.eqb dst) cols = true -> add_col dst cols = cols.
Proof. unfold add_col. intros ->. reflexivity. Qed.

(** A column update leaves every other key of every row as it was. *)
Lemma apply_col_lookup_other (f : pyval -> res pyval) (src dst k : string)
    (d d' : DataFrame) :
  apply_col f src dst d = Ok d' -> k <> dst ->
  Forall2 (fun r r' => r' !! k = r !! k) (rows d) (rows d').
Proof.
  intros H Hne. apply apply_col_Ok in H. destruct H as [_ Hrows].
  eapply Forall2_weaken; [|exact Hrows]. intros r r' [v [_ ->]].
  apply lookup_insert_ne. congruence.
Qed.

Section LoadingMore.

Variable json_loads : string -> option pyval.

Lemma decode_step_keeps (d d' : DataFrame) (col k : string) :
  (if has_col col d then apply_col (decode_json_cell json_loads) col col d else Ok d)
  = Ok d' ->
  columns d' = columns d
  /\ (k <> col -> Forall2 (fun r r' => r' !! k = r !! k) (rows d) (rows d'))
  /\ List.length (rows d') = List.length (rows d).
Proof.
  destruct (has_col col d) eqn:Hhas; intros H.
  - pose proof (apply_col_Ok _ _ _ _ _ H) as [Hcols Hrows]. split; [|split].
    + rewrite Hcols. apply add_col_present. exact Hhas.
    + intros Hne. eapply apply_col_lookup_other; eassumption.
    + symmetry. eapply Forall2_same_length. exact Hrows.
  - inversion H; subst. split; [reflexivity|]. split; [|reflexivity].
    intros _. apply Forall2_fn_refl.
Qed.

(** A successful load changes nothing but the cells of the two photo
    columns: same columns, same number of rows, every other cell as read;
    and a table without photo columns is returned as it is. *)
Theorem load_db_data_keeps_table (df df' : DataFrame)
    (Hload : load_db_data json_loads (Ok df) = (df', None)) :
  columns df' = columns df
  /\ List.length (rows df') = List.length (rows df)
  /\ (forall k, ~ In k json_cols ->
        Forall2 (fun r r' => r' !! k = r !! k) (rows df) (rows df'))
  /\ (has_col "small_photo_urls" df = false ->
      has_col "origin_photo_urls" df = false -> df' = df).
Proof.
  unfold load_db_data in Hload. simpl in Hload.
  destruct (decode_json_cols json_loads df) as [d2|e] eqn:Hd; [|discriminate].
  inversion Hload; subst d2; clear Hload.
  unfold decode_json_cols, json_cols in Hd. simpl in Hd.
  destruct (if has_col "small_photo_urls" df
            then apply_col (decode_json_cell json_loads) "small_photo_urls"
                   "small_photo_urls" df
            else Ok df) as [d1|e] eqn:H1; simpl in Hd; [|discriminate].
  assert (H2 : (if has_col "origin_photo_urls" d1
                then apply_col (decode_json_cell json_loads) "origin_photo_urls"
                       "origin_photo_urls" d1
                else Ok d1) = Ok df').
  { destruct (has_col "origin_photo_urls" d1); [|exact Hd].
    destruct (apply_col _ "origin_photo_urls" "origin_photo_urls" d1);
      simpl in Hd; [exact Hd | discriminate]. }
  destruct (decode_step_keeps df d1 "small_photo_urls" "small_photo_urls" H1)
    as (Hc1 & _ & Hl1).
  destruct (decode_step_keeps d1 df' "origin_photo_urls" "origin_photo_urls" H2)
    as (Hc2 & _ & Hl2).
  split; [congruence|]. split; [congruence|]. split.
  - intros k Hk.
    destruct (decode_step_keeps df d1 "small_photo_urls" k H1) as (_ & Hk1 & _).
    destruct (decode_step_keeps d1 df' "origin_photo_urls" k H2) as (_ & Hk2 & _).
    eapply Forall2_fn_trans; [apply Hk1 | apply Hk2]; intros ->; apply Hk;
      simpl; auto.
  - intros Hs Ho. rewrite Hs in H1. inversion H1; subst d1.
    rewrite Ho in H2. inversion H2. reflexivity.
Qed.

End LoadingMore.

Lemma load_db_data_keeps_table_witness :
  columns sample_loaded = columns sample_raw
  /\ Forall2 (fun r r' => r' !! "title" = r !! "title") (rows sample_raw)
       (rows sample_loaded).
Proof.
  destruct (load_db_data_keeps_table json_loads_strings sample_raw sample_loaded
              sample_loaded_ok) as (Hc & _ & Hk & _).
  split; [exact Hc|]. apply Hk. simpl. intuition discriminate.
Defined.

Section Stopping.

Variable json_loads : string -> option pyval.
Variable regex : Type.
Variable re_compile : string -> option regex.
Variable re_search : regex -> string -> bool.
Variable to_datetime : list pyval -> res (list pyval).
Variable ui : display.

(** The script stops at the "no data" warning, whatever the widgets say,
    when the database cannot be read, when the table has no row, and also
    when a single cell of a photo column starts with ["["] and is rejected by
    the JSON decoder: that one cell empties the whole dashboard. *)
Theorem run_stops_without_data (base_comment : string) (w : widgets) (s : selection) :
  (forall e,
     run json_loads regex re_compile re_search to_datetime ui (Raise e)
       base_comment w s
     = Ok None)
  /\ (forall df, frame_empty (fst (load_db_data json_loads (Ok df))) = true ->
        run json_loads regex re_compile re_search to_datetime ui (Ok df)
          base_comment w s
        = Ok None)
  /\ (forall df col r text,
        In col json_cols -> has_col col df = true -> In r (rows df) ->
        cell r col = VStr text -> String.prefix "[" text = true ->
        json_loads text = None ->
        run json_loads regex re_compile re_search to_datetime ui (Ok df)
          base_comment w s
        = Ok None).
Proof.
  split; [|split].
  - intros e. reflexivity.
  - intros df H. unfold run. rewrite H. reflexivity.
  - intros df col r text Hcol Hhas Hin Hcell Hp Hj. unfold run, load_db_data.
    simpl. rewrite (decode_json_cols_malformed json_loads df col r text);
      try assumption. reflexivity.
Qed.

End Stopping.

Lemma run_stops_without_data_witness :
  run_ref (Ok sample_malformed) "" sample_widgets {| title_row := 0 |} = Ok None
  /\ run_ref (Ok empty_frame) "" sample_widgets {| title_row := 0 |} = Ok None.
Proof.
  destruct (run_stops_without_data json_loads_strings (list atom)
              re_compile_literal_dot re_search_literal_dot to_datetime_iso
              display_all "" sample_widgets {| title_row := 0 |}) as (_ & Hempty & Hbad).
  split.
  - apply (Hbad sample_malformed "small_photo_urls" sample_malformed_row "[abc").
    + simpl; auto.
    + reflexivity.
    + simpl; auto.
    + vm_compute; reflexivity.
    + reflexivity.
    + reflexivity.
  - apply Hempty. reflexivity.
Defined.

(** ** The comment file *)

Lemma append_nil_r (s : string) : s ++ "" = s.
Proof. induction s as [|c s IH]; [reflexivity|]. rewrite append_cons, IH. reflexivity. Qed.

Lemma append_assoc (a b c : string) : (a ++ b) ++ c = a ++ b ++ c.
Proof.
  induction a as [|x a IH]; [reflexivity|]. rewrite !append_cons, IH. reflexivity.
Qed.

Lemma string_of_list_app (a b : list ascii) :
  string_of_list_ascii (a ++ b) = string_of_list_ascii a ++ string_of_list_ascii b.
Proof.
  induction a as [|x a IH]; [reflexivity|]. simpl. rewrite IH, append_cons. reflexivity.
Qed.

Lemma concat_cons (x : string) (l : list string) :
  String.concat "" (x :: l) = x ++ String.concat "" l.
Proof. destruct l; simpl; [rewrite append_nil_r|]; reflexivity. Qed.

Lemma concat_app (l1 l2 : list string) :
  String.concat "" (l1 ++ l2) = String.concat "" l1 ++ String.concat "" l2.
Proof.
  induction l1 as [|x l1 IH]; [reflexivity|].
  change ((x :: l1) ++ l2)%list with (x :: (l1 ++ l2))%list.
  rewrite !concat_cons, IH, append_assoc. reflexivity.
Qed.

(** Cutting a text into characters loses nothing. *)
Lemma chars_of_concat (cs cur : list ascii) :
  String.concat "" (chars_of cs cur) = string_of_list_ascii (rev cur ++ cs).
Proof.
  revert cur. induction cs as [|c cs IH]; intros cur.
  - rewrite app_nil_r. destruct cur; reflexivity.
  - change (chars_of (c :: cs) cur)
      with (if is_cont c then chars_of cs (c :: cur)
            else (match cur with
                  | [] => []
                  | _ :: _ => [string_of_list_ascii (rev cur)]
                  end ++ chars_of cs [c])%list).
    destruct (is_cont c).
    + rewrite IH. simpl. rewrite <- app_assoc. reflexivity.
    + rewrite concat_app, IH. change (rev [c] ++ cs)%list with (c :: cs).
      rewrite (string_of_list_app (rev cur) (c :: cs)). f_equal.
      destruct cur; reflexivity.
Qed.

Lemma drop_spaces_suffix (l : list string) :
  exists pre, l = (pre ++ drop_spaces l)%list.
Proof.
  induction l as [|ch l [pre IH]]; [exists []; reflexivity|]. simpl.
  destruct (is_space ch).
  - exists (ch :: pre). simpl. rewrite <- IH. reflexivity.
  - exists []. reflexivity.
Qed.

(** [strip] returns a part of its argument. *)
Lemma py_strip_inside (s : string) : exists pre post, s = pre ++ py_strip s ++ post.
Proof.
  unfold py_strip.
  set (chars := chars_of (list_ascii_of_string s) []).
  destruct (drop_spaces_suffix chars) as [pre1 H1].
  destruct (drop_spaces_suffix (rev (drop_spaces chars))) as [pre2 H2].
  exists (String.concat "" pre1), (String.concat "" (rev pre2)).
  rewrite <- !concat_app.
  assert (Hrev : drop_spaces chars
                 = (rev (drop_spaces (rev (drop_spaces chars))) ++ rev pre2)%list).
  { rewrite <- rev_app_distr, <- H2, rev_involutive. reflexivity. }
  rewrite <- Hrev, <- H1. unfold chars. rewrite chars_of_concat. simpl.
  symmetry. apply string_of_list_ascii_of_string.
Qed.

Lemma split_go_skip (sep a rest : string) (cur : list ascii) :
  split_go sep (a ++ rest) (String.length a) cur = split_go sep rest O cur.
Proof.
  induction a as [|c a IH]; [reflexivity|]. rewrite append_cons. simpl. exact IH.
Qed.

Lemma split_go_not_nil (sep s : string) (skip : nat) (cur : list ascii) :
  split_go sep s skip cur <> [].
Proof.
  revert skip cur. induction s as [|c s IH]; intros skip cur.
  - simpl. intros H; discriminate.
  - destruct skip as [|k]; [|apply IH].
    change (split_go sep (String c s) O cur)
      with (if String.prefix sep (String c s)
            then string_of_list_ascii (rev cur)
                 :: split_go sep s (String.length sep - 1) []
            else split_go sep s O (c :: cur)).
    destruct (String.prefix sep (String c s)); [intros H; discriminate | apply IH].
Qed.

Lemma last_cons_not_nil {A} (x d : A) (l : list A) :
  l <> [] -> List.last (x :: l) d = List.last l d.
Proof. destruct l; [contradiction | reflexivity]. Qed.

Lemma string_of_list_snoc (l : list ascii) (c : ascii) (t : string) :
  string_of_list_ascii (l ++ [c]) ++ t = string_of_list_ascii l ++ String c t.
Proof. rewrite string_of_list_app, append_assoc. reflexivity. Qed.

(** The last piece of a split: the whole text when the separator does not
    occur, and otherwise what follows an occurrence of the separator. *)
Lemma split_go_last (sep : string) :
  sep <> "" ->
  forall n s cur, (String.length s <= n)%nat ->
    let p := List.last (split_go sep s O cur) "" in
    (contains sep s = false /\ p = string_of_list_ascii (rev cur) ++ s)
    \/ (exists pre, string_of_list_ascii (rev cur) ++ s = pre ++ sep ++ p).
Proof.
  intros Hsep. induction n as [|n IH]; intros s cur Hlen.
  - destruct s; [|simpl in Hlen; lia]. simpl. left.
    split; [|rewrite append_nil_r; reflexivity].
    change (contains sep "") with (String.prefix sep "" || false).
    destruct sep; [contradiction | reflexivity].
  - destruct s as [|c t].
    + simpl. left. split; [|rewrite append_nil_r; reflexivity].
      change (contains sep "") with (String.prefix sep "" || false).
      destruct sep; [contradiction | reflexivity].
    + simpl in Hlen.
      change (split_go sep (String c t) O cur)
        with (if String.prefix sep (String c t)
              then string_of_list_ascii (rev cur)
                   :: split_go sep t (String.length sep - 1) []
              else split_go sep t O (c :: cur)).
      change (contains sep (String c t))
        with (String.prefix sep (String c t) || contains sep t).
      destruct (String.prefix sep (String c t)) eqn:Hp.
      * apply prefix_spec in Hp. destruct Hp as [rest Hrest].
        destruct sep as [|c0 sep']; [contradiction|].
        rewrite append_cons in Hrest. inversion Hrest; subst c0 t.
        replace (String.length (String c sep') - 1)%nat with (String.length sep')
          by (simpl; lia).
        rewrite split_go_skip.
        rewrite last_cons_not_nil by apply split_go_not_nil.
        assert (Hl : (String.length rest <= n)%nat).
        { rewrite length_append in Hlen. lia. }
        right. destruct (IH rest [] Hl) as [[_ Hlast]|[pre Hpre]].
        -- exists (string_of_list_ascii (rev cur)). simpl in Hlast.
           rewrite Hlast, append_nil_l, append_cons. reflexivity.
        -- exists (string_of_list_ascii (rev cur) ++ String c sep' ++ pre).
           simpl in Hpre. rewrite append_nil_l in Hpre. rewrite Hpre at 1.
           rewrite !append_assoc, !append_cons. reflexivity.
      * assert (Hl : (String.length t <= n)%nat) by lia.
        destruct (IH t (c :: cur) Hl) as [[Hno Hlast]|[pre Hpre]].
        -- left. split; [exact Hno|]. rewrite Hlast. simpl.
           apply string_of_list_snoc.
        -- right. exists pre. rewrite <- Hpre. simpl. symmetry.
           apply string_of_list_snoc.
Qed.

Lemma py_find_Some (needle s : string) (i : nat) :
  py_find needle s = Some i ->
  String.prefix needle (string_drop i s) = true
  /\ exists pre, s = pre ++ string_drop i s.
Proof.
  revert i. induction s as [|c s IH]; intros i.
  - change (py_find needle "")
      with (if String.prefix needle "" then Some O else @None nat).
    destruct (String.prefix needle "") eqn:Hp; [|discriminate].
    intros H. inversion H; subst. split; [exact Hp | exists ""; reflexivity].
  - change (py_find needle (String c s))
      with (if String.prefix needle (String c s) then Some O
            else option_map S (py_find needle s)).
    destruct (String.prefix needle (String c s)) eqn:Hp.
    + intros H. inversion H; subst. split; [exact Hp | exists ""; reflexivity].
    + destruct (py_find needle s) as [j|]; [|discriminate].
      intros H. inversion H; subst. destruct (IH j eq_refl) as [Hpre [pre Hs]].
      split; [exact Hpre|]. exists (String c pre). simpl string_drop.
      rewrite append_cons, <- Hs. reflexivity.
Qed.

(** What [load_html_from_md] returns is empty, or it is a part of the file
    that begins with ["<div"] and lies after the marker sentence.  It is
    empty in particular when the file cannot be read and when the marker
    sentence is not in it. *)
Theorem load_html_from_md_shape (file : res string) :
  (load_html_from_md file = ""
   \/ exists content before between after,
        file = Ok content
        /\ content = before ++ json_end_marker ++ between
                     ++ load_html_from_md file ++ after
        /\ String.prefix "<div" (load_html_from_md file) = true)
  /\ (forall e, file = Raise e -> load_html_from_md file = "")
  /\ (forall content, file = Ok content ->
        contains json_end_marker content = false -> load_html_from_md file = "").
Proof.
  split; [|split].
  - destruct file as [content|e]; [|left; reflexivity]. unfold load_html_from_md.
    destruct (contains json_end_marker content) eqn:Hc; [|left; reflexivity].
    unfold py_split. simpl String.eqb.
    assert (Hsep : json_end_marker <> "") by discriminate.
    destruct (split_go_last json_end_marker Hsep (String.length content) content []
                (Nat.le_refl _)) as [[Hno _]|[pre Hpre]]; [congruence|].
    set (piece := List.last (split_go json_end_marker content O []) "") in *.
    destruct (py_strip_inside piece) as [a [b Hstrip]].
    destruct (py_find "<div" (py_strip piece)) as [i|] eqn:Hfind; [|left; reflexivity].
    destruct (py_find_Some _ _ _ Hfind) as [Hdiv [c Hcut]].
    right. exists content, pre, (a ++ c), b. split; [reflexivity|].
    split; [|exact Hdiv].
    simpl in Hpre. rewrite append_nil_l in Hpre. rewrite Hpre at 1. f_equal. f_equal.
    rewrite Hstrip at 1. rewrite Hcut at 1. rewrite !append_assoc. reflexivity.
  - intros e ->. reflexivity.
  - intros content -> Hc. unfold load_html_from_md. rewrite Hc. reflexivity.
Qed.

Lemma load_html_from_md_shape_witness :
  String.prefix "<div" (load_html_from_md (Ok sample_md)) = true
  /\ load_html_from_md (Raise DatabaseError) = ""
  /\ load_html_from_md (Ok "no marker sentence here") = "".
Proof.
  destruct (load_html_from_md_shape (Ok sample_md)) as [[Hempty|Hfound] _].
  - vm_compute in Hempty. discriminate.
  - destruct Hfound as (content & before & between & after & _ & _ & Hdiv).
    split; [exact Hdiv|]. split.
    + apply (proj1 (proj2 (load_html_from_md_shape (Raise DatabaseError)))
               DatabaseError). reflexivity.
    + apply (proj2 (proj2 (load_html_from_md_shape (Ok "no marker sentence here")))
               "no marker sentence here"); reflexivity.
Defined.

Lemma resolve_comment_not_empty (base_comment title : string) :
  resolve_comment base_comment title <> "".
Proof.
  unfold resolve_comment. destruct (contains marker title); [|discriminate].
  destruct (String.eqb_spec base_comment "") as [->|Hne]; simpl;
    [discriminate | exact Hne].
Qed.

Section CommentFallback.

Variable find_comment_text : string -> res (option (option string)).

(** When the comment cannot be had (the file is unreadable, the marker or
    the HTML block is missing, the HTML search raises, finds no comment
    block or finds no paragraph in it) the extracted comment is empty, no
    error surfaces, and a listing whose title carries the marker shows the
    "being prepared" notice. *)
Theorem missing_comment_shows_pending (md_file : res string) (title : string)
    (Hmissing :
       load_html_from_md md_file = ""
       \/ (exists e, find_comment_text (load_html_from_md md_file) = Raise e)
       \/ find_comment_text (load_html_from_md md_file) = Ok None
       \/ find_comment_text (load_html_from_md md_file) = Ok (Some None))
    (Htitle : contains marker title = true) :
  base_comment_of find_comment_text md_file = ""
  /\ comment_of (base_comment_of find_comment_text md_file) (VStr title)
     = Ok comment_pending.
Proof.
  assert (Hbase : base_comment_of find_comment_text md_file = "").
  { unfold base_comment_of, extract_agent_comment.
    destruct (String.eqb (load_html_from_md md_file) "") eqn:He; [reflexivity|].
    destruct Hmissing as [H|[[e H]|[H|H]]].
    - rewrite H in He. discriminate.
    - rewrite H. reflexivity.
    - rewrite H. reflexivity.
    - rewrite H. reflexivity. }
  split; [exact Hbase|]. rewrite Hbase. simpl. unfold resolve_comment.
  rewrite Htitle. reflexivity.
Qed.

End CommentFallback.

Lemma missing_comment_shows_pending_witness :
  base_comment_of find_comment_absent (Ok sample_md) = ""
  /\ comment_of (base_comment_of find_comment_absent (Ok sample_md))
       (VStr "동부이촌동 1층 상가") = Ok comment_pending.
Proof.
  apply (missing_comment_shows_pending find_comment_absent (Ok sample_md)
           "동부이촌동 1층 상가").
  - right. right. left. reflexivity.
  - vm_compute; reflexivity.
Defined.

(** ** Preprocessing *)

Lemma Forall2_Forall_r {A B} (R : A -> B -> Prop) (P : B -> Prop)
    (l : list A) (l' : list B) :
  Forall2 R l l' -> (forall a b, R a b -> P b) -> Forall P l'.
Proof. intros H HP. induction H; constructor; eauto. Qed.

Lemma Forall2_Forall_l {A} (R : A -> A -> Prop) (P : A -> Prop) (l l' : list A) :
  Forall2 R l l' -> (forall a b, R a b -> P a -> P b) -> Forall P l -> Forall P l'.
Proof.
  intros H HP. induction H as [|a b l l' Hab _ IH]; intros Hl; [constructor|].
  inversion Hl; subst. constructor; [eapply HP; eassumption | apply IH; assumption].
Qed.

Lemma res_mapM_fixed {A} (g : A -> res A) (l : list A) :
  Forall (fun a => g a = Ok a) l -> res_mapM g l = Ok l.
Proof.
  induction 1 as [|a l Ha _ IH]; [reflexivity|]. simpl. rewrite Ha. simpl.
  rewrite IH. reflexivity.
Qed.

Lemma res_foldM_fixed {A B} (f : A -> B -> res A) (l : list B) (a : A) :
  (forall b, In b l -> f a b = Ok a) -> res_foldM f l a = Ok a.
Proof.
  induction l as [|b l IH]; intros H; [reflexivity|]. simpl.
  rewrite (H b (or_introl eq_refl)). simpl. apply IH. intros b' Hb'. apply H.
  right. exact Hb'.
Qed.

(** Updating a column whose cells already hold what the update computes
    changes nothing. *)
Lemma apply_col_fixed (f : pyval -> res pyval) (src dst : string) (d : DataFrame) :
  has_col dst d = true ->
  Forall (fun r => exists v, f (cell r src) = Ok v /\ r !! dst = Some v) (rows d) ->
  apply_col f src dst d = Ok d.
Proof.
  intros Hhas Hrows. unfold apply_col. rewrite res_mapM_fixed.
  - simpl. unfold has_col in Hhas. rewrite (add_col_present _ _ Hhas).
    rewrite frame_eta. reflexivity.
  - eapply Stdlib.Lists.List.Forall_impl; [|exact Hrows].
    intros r [v [Hv Hlook]]. rewrite Hv. simpl. rewrite (insert_id _ _ _ Hlook).
    reflexivity.
Qed.

Lemma set_cells_fixed (dst : string) (rs : list (gmap string pyval))
    (vals : list pyval) :
  Forall2 (fun r v => r !! dst = Some v) rs vals -> set_cells dst rs vals = Ok rs.
Proof.
  induction 1 as [|r v rs vals Hr _ IH]; [reflexivity|]. simpl. rewrite IH. simpl.
  rewrite (insert_id _ _ _ Hr). reflexivity.
Qed.

(** Assigning to a column the values it already holds changes nothing. *)
Lemma assign_col_fixed (dst : string) (vals : list pyval) (d : DataFrame) :
  has_col dst d = true ->
  Forall2 (fun r v => r !! dst = Some v) (rows d) vals ->
  assign_col dst vals d = Ok d.
Proof.
  intros Hhas Hrows. unfold assign_col. rewrite (set_cells_fixed _ _ _ Hrows).
  simpl. unfold has_col in Hhas. rewrite (add_col_present _ _ Hhas).
  rewrite frame_eta. reflexivity.
Qed.

Lemma assign_col_holds (dst : string) (vals : list pyval) (d d' : DataFrame) :
  assign_col dst vals d = Ok d' ->
  has_col dst d' = true /\ Forall2 (fun r v => r !! dst = Some v) (rows d') vals.
Proof.
  unfold assign_col. intros H.
  destruct (set_cells dst (rows d) vals) as [l|e] eqn:Hl; simpl in H; [|discriminate].
  inversion H; subst. simpl. split.
  - unfold has_col. simpl. rewrite has_col_add_col, String.eqb_refl.
    apply orb_true_r.
  - clear H. revert vals l Hl.
    induction (rows d) as [|r rs IH]; intros [|v vals] l Hl; simpl in Hl;
      try discriminate.
    + inversion Hl. constructor.
    + destruct (set_cells dst rs vals) as [l'|e] eqn:Hl'; simpl in Hl;
        [|discriminate].
      inversion Hl; subst. constructor; [apply lookup_insert_eq | eauto].
Qed.

Lemma column_same (k : string) (d d' : DataFrame) :
  Forall2 (fun r r' => cell r' k = cell r k) (rows d) (rows d') ->
  column k d' = column k d.
Proof.
  unfold column. induction 1 as [|r r' l l' Hr _ IH]; [reflexivity|]. simpl.
  rewrite Hr, IH. reflexivity.
Qed.

Section PreprocessMore.

Variable target_unit : string.

Lemma fold_disp_lookup_other (cols : list string) (k : string) :
  (forall c, In c cols -> k <> disp c) ->
  forall d d', res_foldM (add_disp_col target_unit) cols d = Ok d' ->
  Forall2 (fun r r' => r' !! k = r !! k) (rows d) (rows d').
Proof.
  induction cols as [|c0 cols IH]; intros Hk d d' H; simpl in H.
  - inversion H; subst. apply Forall2_fn_refl.
  - destruct (add_disp_col target_unit d c0) as [d1|e] eqn:H1; simpl in H;
      [|discriminate].
    eapply Forall2_fn_trans; [|apply (IH (fun c Hc => Hk c (or_intror Hc)) d1 d' H)].
    unfold add_disp_col in H1. destruct (has_col c0 d).
    + eapply apply_col_lookup_other; [exact H1 | apply Hk; left; reflexivity].
    + inversion H1; subst. apply Forall2_fn_refl.
Qed.

(** The rows in which the display column of [col] holds the conversion of
    the cell under [col]. *)
Lemma add_disp_col_holds (d d' : DataFrame) (col : string) :
  add_disp_col target_unit d col = Ok d' -> has_col col d = true ->
  col <> disp col ->
  Forall (fun r => exists v, convert_cell target_unit (cell r col) = Ok v
                             /\ r !! disp col = Some v) (rows d').
Proof.
  unfold add_disp_col. intros H Hhas Hne. rewrite Hhas in H.
  apply apply_col_Ok in H. destruct H as [_ Hrows].
  eapply Forall2_Forall_r; [exact Hrows|]. intros r r' [v [Hv ->]].
  exists v. split; [|apply lookup_insert_eq].
  rewrite cell_insert_ne by congruence. exact Hv.
Qed.

Lemma add_disp_col_keeps_holding (d d' : DataFrame) (c0 col : string) :
  add_disp_col target_unit d c0 = Ok d' ->
  disp c0 <> col -> disp c0 <> disp col ->
  Forall (fun r => exists v, convert_cell target_unit (cell r col) = Ok v
                             /\ r !! disp col = Some v) (rows d) ->
  Forall (fun r => exists v, convert_cell target_unit (cell r col) = Ok v
                             /\ r !! disp col = Some v) (rows d').
Proof.
  unfold add_disp_col. intros H Hsrc Hdst. destruct (has_col c0 d).
  - apply apply_col_Ok in H. destruct H as [_ Hrows].
    eapply Forall2_Forall_l; [exact Hrows|]. intros r r' [x [_ ->]] [v [Hv Hlook]].
    exists v. split.
    + rewrite cell_insert_ne by exact Hsrc. exact Hv.
    + rewrite lookup_insert_ne by exact Hdst. exact Hlook.
  - inversion H; subst. auto.
Qed.

Lemma fold_disp_keeps_holding (cols : list string) (col : string) :
  (forall c, In c cols -> disp c <> col /\ disp c <> disp col) ->
  forall d d',
    res_foldM (add_disp_col target_unit) cols d = Ok d' ->
    Forall (fun r => exists v, convert_cell target_unit (cell r col) = Ok v
                               /\ r !! disp col = Some v) (rows d) ->
    Forall (fun r => exists v, convert_cell target_unit (cell r col) = Ok v
                               /\ r !! disp col = Some v) (rows d').
Proof.
  induction cols as [|c0 cols IH]; intros Hk d d' H Hd; simpl in H.
  - inversion H; subst. exact Hd.
  - destruct (add_disp_col target_unit d c0) as [d1|e] eqn:H1; simpl in H;
      [|discriminate].
    destruct (Hk c0 (or_introl eq_refl)) as [Hsrc Hdst].
    apply (IH (fun c Hc => Hk c (or_intror Hc)) d1 d' H).
    apply (add_disp_col_keeps_holding d d1 c0 col H1 Hsrc Hdst Hd).
Qed.

Lemma fold_disp_holds (cols : list string) :
  List.NoDup cols ->
  (forall c c', In c cols -> In c' cols -> c' <> disp c) ->
  (forall c c', In c cols -> In c' cols -> c <> c' -> disp c <> disp c') ->
  forall d d' col,
    res_foldM (add_disp_col target_unit) cols d = Ok d' ->
    In col cols -> has_col col d = true ->
    Forall (fun r => exists v, convert_cell target_unit (cell r col) = Ok v
                               /\ r !! disp col = Some v) (rows d').
Proof.
  induction cols as [|c0 cols IH]; intros Hnd Hfresh Hdist d d' col H Hin Hhas;
    [destruct Hin|].
  simpl in H.
  destruct (add_disp_col target_unit d c0) as [d1|e] eqn:H1; simpl in H;
    [|discriminate].
  inversion Hnd as [|? ? Hnotin Hnd']; subst.
  destruct Hin as [<-|Hin].
  - assert (Hself : c0 <> disp c0) by (apply Hfresh; left; reflexivity).
    pose proof (add_disp_col_holds d d1 c0 H1 Hhas Hself) as Hd1.
    apply (fold_disp_keeps_holding cols c0) with (d := d1); [|exact H|exact Hd1].
    intros c Hc. split.
    + apply not_eq_sym. apply Hfresh; [right; exact Hc | left; reflexivity].
    + apply Hdist; [right; exact Hc | left; reflexivity|].
      intros ->. contradiction.
  - assert (Hne : col <> disp c0)
      by (apply Hfresh; [left; reflexivity | right; exact Hin]).
    destruct (add_disp_col_other target_unit d d1 c0 col H1 Hne) as [_ Hc1].
    apply (IH Hnd'
              (fun c c' Hc Hc' => Hfresh c c' (or_intror Hc) (or_intror Hc'))
              (fun c c' Hc Hc' => Hdist c c' (or_intror Hc) (or_intror Hc'))
              d1 d' col H Hin).
    congruence.
Qed.

End PreprocessMore.

Section PreprocessTheorems.

Variable to_datetime : list pyval -> res (list pyval).
Variable target_unit : string.

Lemma preprocess_other (raw df : DataFrame) (k : string) :
  preprocess to_datetime target_unit raw = Ok df ->
  k <> "regDate" -> (forall c, In c price_cols -> k <> disp c) ->
  Forall2 (fun r r' => r' !! k = r !! k) (rows raw) (rows df)
  /\ has_col k df = has_col k raw.
Proof.
  unfold preprocess. intros Hpre Hreg Hk.
  destruct (res_foldM (add_disp_col target_unit) price_cols raw) as [d1|e] eqn:H1;
    simpl in Hpre; [|discriminate].
  pose proof (fold_disp_lookup_other target_unit price_cols k Hk raw d1 H1) as Hr1.
  destruct (fold_disp_other target_unit price_cols k Hk raw d1 H1) as [_ Hc1].
  unfold add_reg_date in Hpre. destruct (has_col "created_date_utc" d1).
  - destruct (to_datetime (column "created_date_utc" d1)) as [dates|e];
      simpl in Hpre; [|discriminate].
    destruct (assign_col_other _ k _ d1 df Hpre Hreg) as (Hr2 & _ & Hc2).
    split; [eapply Forall2_fn_trans; eassumption | congruence].
  - inversion Hpre; subst. split; assumption.
Qed.

Lemma fold_disp_has_col (cols : list string) (k : string) (d d' : DataFrame) :
  res_foldM (add_disp_col target_unit) cols d = Ok d' ->
  has_col k d = true -> has_col k d' = true.
Proof.
  revert d. induction cols as [|c0 l IH]; intros d H1 Hk; simpl in H1.
  - inversion H1; subst. exact Hk.
  - destruct (add_disp_col target_unit d c0) as [d0|e] eqn:H0; simpl in H1;
      [|discriminate].
    apply (IH d0 H1). unfold add_disp_col in H0. destruct (has_col c0 d).
    + apply apply_col_Ok in H0. destruct H0 as [Hc _]. unfold has_col.
      rewrite Hc, has_col_add_col. unfold has_col in Hk. rewrite Hk. reflexivity.
    + inversion H0; subst. exact Hk.
Qed.

(** Preprocessing only adds: the table keeps its rows, in number and in
    order, every column it had, and every cell outside the derived columns
    (the five display columns and the registration date). *)
Theorem preprocess_keeps_raw (raw df : DataFrame)
    (Hpre : preprocess to_datetime target_unit raw = Ok df) :
  List.length (rows df) = List.length (rows raw)
  /\ (forall k, has_col k raw = true -> has_col k df = true)
  /\ (forall k, k <> "regDate" -> (forall c, In c price_cols -> k <> disp c) ->
        Forall2 (fun r r' => r' !! k = r !! k) (rows raw) (rows df)
        /\ has_col k df = has_col k raw).
Proof.
  split; [|split].
  - destruct (preprocess_other raw df "" Hpre ltac:(discriminate)) as [Hr _].
    + intros c Hc. unfold price_cols in Hc. simpl in Hc.
      intuition (subst; discriminate).
    + symmetry. eapply Forall2_same_length. exact Hr.
  - intros k Hk. unfold preprocess in Hpre.
    destruct (res_foldM (add_disp_col target_unit) price_cols raw) as [d1|e] eqn:H1;
      simpl in Hpre; [|discriminate].
    pose proof (fold_disp_has_col price_cols k raw d1 H1 Hk) as H1k.
    unfold add_reg_date in Hpre. destruct (has_col "created_date_utc" d1).
    + destruct (to_datetime (column "created_date_utc" d1)) as [dates|e];
        simpl in Hpre; [|discriminate].
      apply assign_col_Ok in Hpre. destruct Hpre as [Hc _]. unfold has_col.
      rewrite Hc, has_col_add_col. unfold has_col in H1k. rewrite H1k. reflexivity.
    + inversion Hpre; subst. exact H1k.
  - intros k. apply preprocess_other. exact Hpre.
Qed.

(** Preprocessing a table that is already preprocessed, in the same unit,
    gives that table back: the derived columns are computed from the stored
    columns only. *)
Theorem preprocess_idempotent (raw df : DataFrame)
    (Hpre : preprocess to_datetime target_unit raw = Ok df) :
  preprocess to_datetime target_unit df = Ok df.
Proof.
  pose proof Hpre as Hpre0. unfold preprocess in Hpre.
  destruct (res_foldM (add_disp_col target_unit) price_cols raw) as [d1|e] eqn:H1;
    simpl in Hpre; [|discriminate].
  (* the date column after the first pass *)
  assert (Hdate : has_col "created_date_utc" df = true ->
            exists dates,
              to_datetime (column "created_date_utc" df) = Ok dates
              /\ has_col "regDate" df = true
              /\ Forall2 (fun r v => r !! "regDate" = Some v) (rows df) dates).
  { unfold add_reg_date in Hpre.
    destruct (has_col "created_date_utc" d1) eqn:Hc1.
    - intros _.
      destruct (to_datetime (column "created_date_utc" d1)) as [dates|e] eqn:Hdates;
        simpl in Hpre; [|discriminate].
      exists dates. destruct (assign_col_holds _ _ _ _ Hpre) as [Hreg Hrows].
      destruct (assign_col_other _ "created_date_utc" _ d1 df Hpre
                  ltac:(discriminate)) as (_ & Hcells & _).
      rewrite (column_same _ _ _ Hcells). auto.
    - inversion Hpre; subst. congruence. }
  (* the display columns after the first pass *)
  assert (Hdisp : forall col, In col price_cols -> has_col col df = true ->
            has_col (disp col) df = true
            /\ Forall (fun r => exists v, convert_cell target_unit (cell r col) = Ok v
                                          /\ r !! disp col = Some v) (rows df)).
  { intros col Hcol Hhas.
    assert (Hraw : has_col col raw = true).
    { destruct (preprocess_other raw df col Hpre0) as [_ Heq].
      - intros Heq. subst col. unfold price_cols in Hcol. simpl in Hcol.
        intuition discriminate.
      - intros c Hc. apply (price_cols_fresh c col Hc Hcol).
      - congruence. }
    destruct (preprocess_disp target_unit to_datetime raw df col Hpre0 Hcol Hraw)
      as [_ Hd].
    split; [exact Hd|].
    pose proof (fold_disp_holds target_unit price_cols price_cols_NoDup
                  price_cols_fresh price_cols_distinct raw d1 col H1 Hcol Hraw) as Hold.
    unfold add_reg_date in Hpre. destruct (has_col "created_date_utc" d1).
    - destruct (to_datetime (column "created_date_utc" d1)) as [dates|e];
        simpl in Hpre; [|discriminate].
      apply assign_col_Ok in Hpre. destruct Hpre as (_ & Hrows & _).
      eapply Forall2_Forall_l; [exact Hrows| |exact Hold].
      intros r r' [x ->] [v [Hv Hlook]]. exists v. split.
      + rewrite cell_insert_ne; [exact Hv|].
        intros Heq. subst col. unfold price_cols in Hcol. simpl in Hcol.
        intuition discriminate.
      + rewrite lookup_insert_ne; [exact Hlook|].
        apply (price_cols_not_regDate col Hcol).
    - inversion Hpre; subst. exact Hold. }
  unfold preprocess. rewrite res_foldM_fixed.
  - simpl. unfold add_reg_date.
    destruct (has_col "created_date_utc" df) eqn:Hc; [|reflexivity].
    destruct (Hdate eq_refl) as (dates & Hdates & Hreg & Hrows).
    rewrite Hdates. simpl. apply assign_col_fixed; assumption.
  - intros col Hcol. unfold add_disp_col.
    destruct (has_col col df) eqn:Hhas; [|reflexivity].
    destruct (Hdisp col Hcol Hhas) as [Hd Hrows]. apply apply_col_fixed; assumption.
Qed.

(** A price that is missing (NULL or NaN) or zero in the stored table is
    shown as the dash, in either unit: its display cell formats to ["-"]. *)
Theorem missing_price_shows_dash (raw df : DataFrame) (col : string)
    (Hpre : preprocess to_datetime target_unit raw = Ok df)
    (Hcol : In col price_cols) (Hhas : has_col col raw = true) :
  Forall2 (fun r r' =>
             cell r col = VNone \/ cell r col = VNaN
             \/ (exists q, cell r col = VNum q /\ (q == 0)%Q) ->
             format_cell target_unit (cell r' (disp col)) = Ok (VStr "-"))
          (rows raw) (rows df).
Proof.
  destruct (preprocess_disp target_unit to_datetime raw df col Hpre Hcol Hhas) as [Hrows _].
  eapply Forall2_weaken; [|exact Hrows].
  intros r r' (v & n & Hv & Hn & Hcell) Hmissing. rewrite Hcell.
  assert (Hzero : exists z, convert_price v target_unit = Ok (Num z) /\ (z == 0)%Q).
  { apply convert_price_zero.
    destruct Hmissing as [Hc|[Hc|[q [Hc Hq]]]]; rewrite Hc in Hv; simpl in Hv;
      inversion Hv; subst v; eauto. }
  destruct Hzero as [z [Hz0 Hz]]. rewrite Hz0 in Hn. inversion Hn; subst n.
  unfold format_cell. simpl.
  apply Qeq_bool_iff in Hz. rewrite Hz. reflexivity.
Qed.

End PreprocessTheorems.

Lemma preprocess_keeps_raw_witness :
  List.length (rows sample_df) = List.length (rows sample_raw)
  /\ (Forall2 (fun r r' => r' !! "title" = r !! "title") (rows sample_raw)
        (rows sample_df)
      /\ has_col "title" sample_df = has_col "title" sample_raw).
Proof.
  destruct (preprocess_keeps_raw to_datetime_iso unit_man sample_raw sample_df
              sample_df_ok) as (Hlen & _ & Hother).
  split; [exact Hlen|]. apply Hother; [discriminate|].
  intros c Hc. unfold price_cols in Hc. simpl in Hc. intuition (subst; discriminate).
Defined.

Lemma preprocess_idempotent_witness :
  preprocess to_datetime_iso unit_man sample_df = Ok sample_df.
Proof.
  apply (preprocess_idempotent to_datetime_iso unit_man sample_raw sample_df).
  exact sample_df_ok.
Defined.

Lemma missing_price_shows_dash_witness :
  Forall2 (fun r r' =>
             cell r "premium" = VNone \/ cell r "premium" = VNaN
             \/ (exists q, cell r "premium" = VNum q /\ (q == 0)%Q) ->
             format_cell unit_man (cell r' (disp "premium")) = Ok (VStr "-"))
          (rows sample_raw) (rows sample_df).
Proof.
  apply (missing_price_shows_dash to_datetime_iso unit_man sample_raw sample_df "premium").
  - exact sample_df_ok.
  - simpl; auto.
  - reflexivity.
Defined.

(** ** Filtering, again *)

Section FilteringMore.

Variable regex : Type.
Variable re_compile : string -> option regex.
Variable re_search : regex -> string -> bool.
Variable to_datetime : list pyval -> res (list pyval).

(** On any frame that has the columns of [df] and a numeric rent column,
    the filter of the script keeps the rows that pass the four row tests,
    provided it succeeds on [df] itself. *)
Lemma f_df_on (c : criteria) (df d out : DataFrame) :
  c_sel_ind c = all_industries \/ has_col "business_middle_code_name" df = true ->
  step_inv (columns df) df -> step_inv (columns df) d ->
  f_df regex re_compile re_search c df = Ok out ->
  f_df regex re_compile re_search c d
  = Ok (filter_rows (row_passes regex re_compile re_search c df) d).
Proof.
  intros Hcat Hinv Hd. unfold f_df.
  rewrite (step_category_keep c df Hcat df Hinv), (step_category_keep c df Hcat d Hd).
  simpl.
  pose proof (step_inv_filter _ (keep_category c) _ Hinv) as H1.
  pose proof (step_inv_filter _ (keep_category c) _ Hd) as D1.
  rewrite (step_location_keep regex re_compile re_search c df _ H1),
          (step_location_keep regex re_compile re_search c df _ D1).
  destruct (negb (String.eqb (c_search_station c) "")
            && has_col "near_subway_station" df);
    [destruct (re_compile (c_search_station c)); [|discriminate]|]; simpl.
  all: intros _;
    pose proof (step_inv_filter _ (keep_location regex re_compile re_search c df)
                  _ D1) as D2;
    rewrite (step_premium_keep c df _ D2); simpl;
    pose proof (step_inv_filter _ (keep_premium c df) _ D2) as D3;
    rewrite (step_rent_keep c df _ D3);
    rewrite !filter_rows_and; unfold filter_rows;
    f_equal; f_equal; apply List.filter_ext; intros x; unfold row_passes;
    rewrite !andb_assoc; reflexivity.
Qed.

Lemma filter_twice {A} (p : A -> bool) (l : list A) :
  List.filter p (List.filter p l) = List.filter p l.
Proof.
  rewrite filter_and. apply List.filter_ext. intros a. apply andb_diag.
Qed.

Lemma filter_length_le {A} (p : A -> bool) (l : list A) :
  (List.length (List.filter p l) <= List.length l)%nat.
Proof. induction l as [|a l IH]; simpl; [lia|]. destruct (p a); simpl; lia. Qed.

(** Filtering only narrows, and it settles: the result has the columns of
    the table and no row the table did not have, and filtering the result
    again with the same criteria returns it unchanged. *)
Theorem f_df_narrows_and_settles (w : widgets) (df : DataFrame) (c : criteria)
    (out : DataFrame)
    (Hread : read_criteria w df = Ok c)
    (Hout : f_df regex re_compile re_search c df = Ok out) :
  columns out = columns df
  /\ (forall r, In r (rows out) -> In r (rows df))
  /\ (List.length (rows out) <= List.length (rows df))%nat
  /\ f_df regex re_compile re_search c out = Ok out.
Proof.
  destruct (read_criteria_inv w df c Hread) as [Hinv Hcat].
  pose proof (f_df_on c df df out Hcat Hinv Hinv Hout) as Hdf.
  rewrite Hout in Hdf. inversion Hdf as [Heq].
  split; [reflexivity|]. split; [|split].
  - intros r Hr. simpl in Hr. apply filter_In in Hr. tauto.
  - simpl. apply filter_length_le.
  - rewrite <- Heq.
    rewrite (f_df_on c df out out Hcat Hinv); [| |exact Hout].
    + rewrite Heq at 2. rewrite Heq. unfold filter_rows. simpl.
      rewrite filter_twice. reflexivity.
    + rewrite Heq. apply step_inv_filter. exact Hinv.
Qed.

(** With the widgets untouched (all industries, no search text, the box
    unticked, the slider at its full range) nothing is filtered out: the
    dashboard starts from the whole table. *)
Theorem untouched_widgets_keep_everything (target_unit : string) (w : widgets)
    (raw df : DataFrame)
    (Hpre : preprocess to_datetime target_unit raw = Ok df)
    (Hrent : has_col "monthly_rent" raw = true)
    (Hind : industry_choice w = all_industries)
    (Hsearch : search_station w = "")
    (Hbox : premium_checkbox w = false)
    (Hslider : slider_choice w = None) :
  exists c,
    read_criteria w df = Ok c
    /\ f_df regex re_compile re_search c df = Ok df.
Proof.
  destruct (preprocess_disp target_unit to_datetime raw df "monthly_rent" Hpre)
    as [Hrows Hhas]; [simpl; auto | exact Hrent |].
  change (disp "monthly_rent") with "monthly_rent_disp" in *.
  assert (Hnum : Forall (fun r => exists q, cell r "monthly_rent_disp" = VNum q)
                        (rows df)).
  { clear -Hrows.
    induction Hrows as [|r r' l l' (v & n & _ & Hn & Hv) _ IH]; constructor;
      [|exact IH].
    destruct (convert_price_is_num v target_unit n Hn) as [q Hq].
    exists q. rewrite Hv, Hq. reflexivity. }
  assert (Hok : Forall rent_ok (rows df)).
  { eapply Stdlib.Lists.List.Forall_impl; [|exact Hnum]. intros r [q Hq].
    exists (Num q). rewrite Hq. reflexivity. }
  destruct (numeric_col_total df Hok) as [col Hcol].
  assert (Hrange : rent_range w df = Ok (col_min col, col_max col)).
  { unfold rent_range. rewrite Hhas, Hcol. simpl. unfold slider. rewrite Hslider.
    destruct (num_ltb (col_min col) (col_max col)); reflexivity. }
  eexists. split.
  - unfold read_criteria. rewrite Hrange. simpl. reflexivity.
  - unfold f_df. simpl.
    assert (Hsel : sel_ind w df = all_industries).
    { unfold sel_ind. rewrite Hind.
      destruct (has_col "business_middle_code_name" df); reflexivity. }
    assert (Hhide : hide_premium_closed w df = false).
    { unfold hide_premium_closed. rewrite Hbox.
      destruct (has_col "is_premium_closed" df); reflexivity. }
    rewrite Hsel, Hsearch, Hhide. simpl.
    unfold step_rent. rewrite Hhas, Hcol. simpl.
    rewrite filter_rows_all; [reflexivity|].
    apply rows_within_min_max; assumption.
Qed.

End FilteringMore.

Lemma f_df_narrows_and_settles_witness :
  exists out,
    f_df (list atom) re_compile_literal_dot re_search_literal_dot sample_criteria
      sample_df = Ok out
    /\ f_df (list atom) re_compile_literal_dot re_search_literal_dot sample_criteria
         out = Ok out
    /\ (List.length (rows out) <= List.length (rows sample_df))%nat.
Proof.
  destruct (f_df (list atom) re_compile_literal_dot re_search_literal_dot
              sample_criteria sample_df) as [out|e] eqn:Hf.
  - exists out. split; [reflexivity|].
    destruct (f_df_narrows_and_settles (list atom) re_compile_literal_dot
                re_search_literal_dot sample_active_widgets sample_df
                sample_criteria out sample_criteria_ok Hf)
      as (_ & _ & Hlen & Hagain).
    split; [exact Hagain | exact Hlen].
  - vm_compute in Hf. discriminate.
Defined.

Lemma untouched_widgets_keep_everything_witness :
  exists c,
    read_criteria sample_widgets sample_df = Ok c
    /\ f_df (list atom) re_compile_literal_dot re_search_literal_dot c sample_df
       = Ok sample_df.
Proof.
  apply (untouched_widgets_keep_everything (list atom) re_compile_literal_dot
           re_search_literal_dot to_datetime_iso unit_man sample_widgets sample_raw
           sample_df).
  - exact sample_df_ok.
  - reflexivity.
  - reflexivity.
  - reflexivity.
  - reflexivity.
  - reflexivity.
Defined.

(** ** The detail panel *)

Lemma firstn_length_le {A} (n : nat) (l : list A) : (List.length (firstn n l) <= n)%nat.
Proof.
  revert l. induction n as [|n IH]; intros [|a l]; simpl; try lia.
  specialize (IH l). lia.
Qed.

Lemma show_images_Ok (ui : display) (urls shown : list pyval) :
  show_images ui urls = Ok shown ->
  shown = urls /\ Forall (fun x => st_image ui x = Ok tt) urls.
Proof.
  unfold show_images. destruct (res_mapM (st_image ui) urls) as [l|e] eqn:Hl;
    simpl; [|discriminate].
  intros H. inversion H; subst. split; [reflexivity|].
  apply res_mapM_Ok in Hl. clear -Hl.
  induction Hl as [|x [] l l' Hx _ IH]; constructor; assumption.
Qed.

(** The gallery never shows more than six pictures. *)
Theorem gallery_at_most_six (ui : display) (f : DataFrame)
    (item : gmap string pyval) (photos : list pyval)
    (Hgallery : gallery ui f item = Ok photos) :
  (List.length photos <= 6)%nat.
Proof.
  unfold gallery in Hgallery.
  destruct (if negb (truthy _) then VList [] else _) as [| |q|b|t|l|d];
    try discriminate; apply show_images_Ok in Hgallery;
    destruct Hgallery as [-> _].
  - rewrite length_map. apply firstn_length_le.
  - apply firstn_length_le.
Qed.

Lemma gallery_at_most_six_witness :
  exists photos,
    gallery display_all sample_loaded (nth 0 (rows sample_loaded) ∅) = Ok photos
    /\ (List.length photos <= 6)%nat.
Proof.
  exists [VStr "a.jpg"; VStr "b.jpg"].
  assert (H : gallery display_all sample_loaded (nth 0 (rows sample_loaded) ∅)
              = Ok [VStr "a.jpg"; VStr "b.jpg"]) by (vm_compute; reflexivity).
  split; [exact H|].
  apply (gallery_at_most_six display_all sample_loaded
           (nth 0 (rows sample_loaded) ∅) _ H).
Defined.

Lemma filter_first {A} (p : A -> bool) (l : list A) (x : A) (t : list A) :
  List.filter p l = x :: t ->
  exists before after,
    l = (before ++ x :: after)%list /\ p x = true
    /\ Forall (fun a => p a = false) before.
Proof.
  induction l as [|a l IH]; simpl; [discriminate|].
  destruct (p a) eqn:Hp.
  - intros H. inversion H; subst. exists [], l. repeat split; [exact Hp | constructor].
  - intros H. destruct (IH H) as (before & after & Hl & Hx & Hb).
    exists (a :: before), after. split; [simpl; rewrite Hl; reflexivity|].
    split; [exact Hx | constructor; assumption].
Qed.

Lemma res_mapM_pure {A B} (g : A -> B) (l : list A) :
  res_mapM (fun a => Ok (g a)) l = Ok (List.map g l).
Proof.
  induction l as [|a l IH]; [reflexivity|]. simpl. rewrite IH. reflexivity.
Qed.

Lemma select_item_total (s : selection) (f : DataFrame) :
  Forall (fun r => exists t, cell r "title" = VStr t) (rows f) ->
  rows f <> [] ->
  exists item t,
    selected_title s f = VStr t
    /\ select_item (selected_title s f) f = Ok item
    /\ In item (rows f)
    /\ cell item "title" = VStr t.
Proof.
  intros Htext Hne.
  assert (Hsel : exists r t, In r (rows f) /\ selected_title s f = cell r "title"
                             /\ cell r "title" = VStr t).
  { unfold selected_title. rewrite Stdlib.Lists.List.Forall_forall in Htext.
    destruct (nth_error (rows f) (title_row s)) as [r|] eqn:Hn.
    - apply nth_error_In in Hn. destruct (Htext r Hn) as [t Ht].
      exists r, t. repeat split; assumption.
    - destruct (rows f) as [|r l] eqn:Hrows; [contradiction|].
      destruct (Htext r (or_introl eq_refl)) as [t Ht].
      exists r, t. repeat split; [left; reflexivity | exact Ht]. }
  destruct Hsel as (r0 & t & Hin0 & Hsel & Ht). rewrite Hsel, Ht.
  unfold select_item.
  assert (Hmask : res_mapM (fun r => eq_cell (VStr t) (cell r "title")) (rows f)
                  = Ok (List.map (fun r => eq_text t (cell r "title")) (rows f)))
    by apply res_mapM_pure.
  rewrite Hmask. simpl.
  change (List.filter
            (fun r => match eq_cell (VStr t) (cell r "title") with
                      | Ok b => b
                      | Raise _ => false
                      end) (rows f))
    with (List.filter (fun r => eq_text t (cell r "title")) (rows f)).
  destruct (List.filter (fun r => eq_text t (cell r "title")) (rows f))
    as [|item l] eqn:Hf.
  - exfalso.
    assert (Hin : In r0 (List.filter (fun r => eq_text t (cell r "title"))
                           (rows f))).
    { apply filter_In. split; [exact Hin0|]. rewrite Ht. simpl.
      apply String.eqb_refl. }
    rewrite Hf in Hin. destruct Hin.
  - exists item, t. split; [reflexivity|]. split; [reflexivity|].
    assert (Hin : In item (item :: l)) by (left; reflexivity).
    rewrite <- Hf in Hin. apply filter_In in Hin. destruct Hin as [Hrow Hp].
    split; [exact Hrow|].
    unfold eq_text in Hp.
    destruct (cell item "title"); try discriminate.
    apply String.eqb_eq in Hp. subst. reflexivity.
Qed.

(** Selecting a listing by its title: the row shown is the first row of the
    filtered table that carries the selected title.  When every title is
    text the selection always finds its row, so the lookup of the first
    match cannot fail on a table that has rows. *)
Theorem select_item_first_match (s : selection) (f : DataFrame) :
  (forall sel item, select_item sel f = Ok item ->
     exists before after,
       rows f = (before ++ item :: after)%list
       /\ eq_cell sel (cell item "title") = Ok true
       /\ Forall (fun r => eq_cell sel (cell r "title") = Ok false) before)
  /\ (Forall (fun r => exists t, cell r "title" = VStr t) (rows f) ->
      rows f <> [] ->
      exists item t,
        selected_title s f = VStr t
        /\ select_item (selected_title s f) f = Ok item
        /\ cell item "title" = VStr t).
Proof.
  split.
  - intros sel item. unfold select_item.
    destruct (res_mapM _ (rows f)) as [mask|e] eqn:Hmask; simpl; [|discriminate].
    destruct (List.filter _ (rows f)) as [|r l] eqn:Hf; [discriminate|].
    intros H. inversion H; subst r.
    apply res_mapM_Ok in Hmask.
    destruct (filter_first _ _ _ _ Hf) as (before & after & Hl & Hx & Hb).
    exists before, after. split; [exact Hl|].
    assert (Hall : Forall (fun r => exists b, eq_cell sel (cell r "title") = Ok b)
                          (rows f)).
    { clear -Hmask. induction Hmask; constructor; eauto. }
    rewrite Hl in Hall. apply Forall_app in Hall. destruct Hall as [Hbefore Hrest].
    inversion Hrest as [|? ? [b Hitem] _]; subst. split.
    + rewrite Hitem in Hx |- *. congruence.
    + clear -Hb Hbefore. induction Hb as [|r l Hr _ IH]; constructor.
      * inversion Hbefore as [|? ? [b Hrb] _]; subst. rewrite Hrb in Hr |- *.
        congruence.
      * apply IH. inversion Hbefore; assumption.
  - intros Htext Hne.
    destruct (select_item_total s f Htext Hne) as (item & t & Hs & Hi & _ & Ht).
    exists item, t. repeat split; assumption.
Qed.

Lemma select_item_first_match_witness :
  exists item t,
    selected_title {| title_row := 2 |} sample_raw = VStr t
    /\ select_item (selected_title {| title_row := 2 |} sample_raw) sample_raw
       = Ok item
    /\ cell item "title" = VStr t.
Proof.
  apply (proj2 (select_item_first_match {| title_row := 2 |} sample_raw)).
  - apply (Forall_forallb _ (fun r => match cell r "title" with
                                       | VStr _ => true
                                       | _ => false
                                       end)).
    + intros r Hr. destruct (cell r "title"); try discriminate.
      eexists; reflexivity.
    + vm_compute; reflexivity.
  - discriminate.
Defined.

Lemma filter_none {A} (l : list A) : List.filter (fun _ => false) l = [].
Proof. induction l; [reflexivity | assumption]. Qed.

(** A listing without a title cannot be opened: when the selected title is
    NULL or NaN no row compares equal to it, and taking the first match
    raises [IndexError].  The select box offers the title of the first row
    by default, so a table whose first title is missing fails this way as
    soon as it is shown. *)
Theorem detail_untitled_selection (ui : display) (target_unit base_comment : string)
    (s : selection) (f : DataFrame)
    (Htitle : has_col "title" f = true)
    (Hsel : selected_title s f = VNone \/ selected_title s f = VNaN) :
  detail ui target_unit base_comment s f = Raise IndexError.
Proof.
  unfold detail. rewrite Htitle. simpl. unfold select_item.
  assert (Hmask : forall sel, sel = VNone \/ sel = VNaN ->
            res_mapM (fun r => eq_cell sel (cell r "title")) (rows f)
            = Ok (List.map (fun _ => false) (rows f))
            /\ List.filter (fun r => match eq_cell sel (cell r "title") with
                                     | Ok b => b
                                     | Raise _ => false
                                     end) (rows f) = []).
  { intros sel [Hs|Hs]; subst sel; split;
      first [apply (res_mapM_pure (fun _ => false)) | apply filter_none]. }
  destruct (Hmask _ Hsel) as [Hm Hf]. rewrite Hm. simpl. rewrite Hf. reflexivity.
Qed.

Lemma detail_untitled_selection_witness :
  detail display_all unit_man "" {| title_row := 0 |} sample_untitled
  = Raise IndexError.
Proof.
  apply detail_untitled_selection.
  - reflexivity.
  - left. vm_compute. reflexivity.
Defined.

(** ** The table *)

Lemma project_lookup_some (r : gmap string pyval) (cols : list string) (c : string) :
  In c cols ->
  (list_to_map (List.map (fun c => (c, cell r c)) cols) : gmap string pyval) !! c
  = Some (cell r c).
Proof.
  induction cols as [|c0 cols IH]; intros Hin; [destruct Hin|]. simpl.
  destruct (String.eqb_spec c0 c) as [->|Hne].
  - apply lookup_insert_eq.
  - rewrite lookup_insert_ne by exact Hne. apply IH.
    destruct Hin as [Heq|Hin]; [contradiction | exact Hin].
Qed.

Lemma drop_col_lookup_other (col k : string) (d : DataFrame) :
  k <> col ->
  Forall2 (fun r r' => r' !! k = r !! k) (rows d) (rows (drop_col col d)).
Proof.
  intros Hne. unfold drop_col. simpl.
  induction (rows d) as [|r l IH]; simpl; constructor; [|exact IH].
  apply lookup_delete_ne. congruence.
Qed.

Lemma rename_col_lookup_other (old new k : string) (d : DataFrame) :
  k <> old -> k <> new ->
  Forall2 (fun r r' => r' !! k = r !! k) (rows d) (rows (rename_col old new d)).
Proof.
  intros Ho Hn. unfold rename_col. simpl.
  induction (rows d) as [|r l IH]; simpl; constructor; [|exact IH].
  destruct (r !! old); [|reflexivity].
  rewrite lookup_insert_ne by congruence. apply lookup_delete_ne. congruence.
Qed.

Lemma rename_col_target (old new : string) (d : DataFrame) :
  Forall2 (fun r r' => forall x, r !! old = Some x -> r' !! new = Some x)
          (rows d) (rows (rename_col old new d)).
Proof.
  unfold rename_col. simpl.
  induction (rows d) as [|r l IH]; simpl; constructor; [|exact IH].
  intros x Hx. rewrite Hx. apply lookup_insert_eq.
Qed.

Lemma rename_col_has_col (old new k : string) (d : DataFrame) :
  k <> old -> k <> new -> has_col k (rename_col old new d) = has_col k d.
Proof.
  intros Ho Hn. unfold has_col, rename_col. simpl.
  induction (columns d) as [|c l IH]; simpl; [reflexivity|]. rewrite IH. f_equal.
  destruct (String.eqb_spec c old) as [->|Hc].
  - destruct (String.eqb_spec k new); [contradiction|].
    destruct (String.eqb_spec k old); [contradiction | reflexivity].
  - reflexivity.
Qed.

Lemma rename_present_other (t : DataFrame) (e : string * string) (k : string) :
  k <> fst e -> k <> snd e ->
  Forall2 (fun r r' => r' !! k = r !! k) (rows t) (rows (rename_present t e))
  /\ has_col k (rename_present t e) = has_col k t.
Proof.
  intros Hf Hs. unfold rename_present. destruct (has_col (fst e) t).
  - split; [apply rename_col_lookup_other | apply rename_col_has_col]; assumption.
  - split; [apply Forall2_fn_refl | reflexivity].
Qed.

Lemma fold_rename_lookup_other (k : string) (m : list (string * string)) :
  (forall e, In e m -> k <> fst e /\ k <> snd e) ->
  forall t, Forall2 (fun r r' => r' !! k = r !! k)
                    (rows t) (rows (fold_left rename_present m t)).
Proof.
  induction m as [|e m IH]; intros Hk t; simpl; [apply Forall2_fn_refl|].
  destruct (Hk e (or_introl eq_refl)) as [H1 H2].
  eapply Forall2_fn_trans; [apply (rename_present_other t e k H1 H2)|].
  apply IH. intros e' He'. apply Hk. right. exact He'.
Qed.

(** After the renaming loop every column that was present is found under
    its display name, for a map whose names are pairwise distinct. *)
Lemma fold_rename_target (m : list (string * string)) :
  (forall e e', In e m -> In e' m -> fst e <> snd e') ->
  (forall e e', In e m -> In e' m -> e <> e' ->
                fst e <> fst e' /\ snd e <> snd e') ->
  List.NoDup m ->
  forall t e, In e m -> has_col (fst e) t = true ->
    Forall2 (fun r r' => forall x, r !! fst e = Some x -> r' !! snd e = Some x)
            (rows t) (rows (fold_left rename_present m t)).
Proof.
  induction m as [|e0 m IH]; intros Hfs Hdist Hnd t e Hin Hhas; [destruct Hin|].
  simpl. inversion Hnd as [|? ? Hnotin Hnd']; subst.
  destruct Hin as [<-|Hin].
  - assert (Hk : forall e', In e' m -> snd e0 <> fst e' /\ snd e0 <> snd e').
    { intros e' He'. split.
      - apply not_eq_sym. apply Hfs; [right; exact He' | left; reflexivity].
      - apply (Hdist e0 e'); [left; reflexivity | right; exact He'|].
        intros ->. contradiction. }
    pose proof (fold_rename_lookup_other (snd e0) m Hk (rename_present t e0)) as Hr2.
    assert (Hr1 : Forall2 (fun r r' => forall x, r !! fst e0 = Some x ->
                                                 r' !! snd e0 = Some x)
                          (rows t) (rows (rename_present t e0))).
    { unfold rename_present. rewrite Hhas. apply rename_col_target. }
    eapply Forall2_weaken; [|exact (Forall2_compose _ _ _ _ _ Hr1 Hr2)].
    intros r r' [y [Hy Hr']] x Hx. rewrite Hr'. apply Hy. exact Hx.
  - assert (Hne : e0 <> e) by (intros ->; contradiction).
    destruct (Hdist e0 e (or_introl eq_refl) (or_intror Hin) Hne) as [Hf _].
    pose proof (Hfs e e0 (or_intror Hin) (or_introl eq_refl)) as Hs.
    destruct (rename_present_other t e0 (fst e) (not_eq_sym Hf) Hs) as [Hr1 Hc1].
    assert (Hhas1 : has_col (fst e) (rename_present t e0) = true) by congruence.
    pose proof (IH (fun a b Ha Hb => Hfs a b (or_intror Ha) (or_intror Hb))
                   (fun a b Ha Hb => Hdist a b (or_intror Ha) (or_intror Hb))
                   Hnd' (rename_present t e0) e Hin Hhas1) as Hr2.
    eapply Forall2_weaken; [|exact (Forall2_compose _ _ _ _ _ Hr1 Hr2)].
    intros r r' [y [Hy Hr']] x Hx. apply Hr'. rewrite Hy. exact Hx.
Qed.

Section TableMore.

Variable target_unit : string.

Lemma format_price_col_lookup_other (t t' : DataFrame) (e : string * string)
    (k : string) :
  format_price_col target_unit t e = Ok t' -> k <> fst e -> k <> snd e ->
  Forall2 (fun r r' => r' !! k = r !! k) (rows t) (rows t').
Proof.
  unfold format_price_col. intros H Hf Hs. destruct (has_col (fst e) t).
  - destruct (apply_col _ (fst e) (snd e) t) as [t1|x] eqn:H1; simpl in H;
      [|discriminate].
    inversion H; subst t'; clear H.
    eapply Forall2_fn_trans;
      [exact (apply_col_lookup_other _ _ _ k t t1 H1 Hs)
      |exact (drop_col_lookup_other (fst e) k t1 Hf)].
  - inversion H; subst. apply Forall2_fn_refl.
Qed.

Lemma fold_format_lookup_other (k : string) (pm : list (string * string)) :
  (forall e, In e pm -> k <> fst e /\ k <> snd e) ->
  forall t t', res_foldM (format_price_col target_unit) pm t = Ok t' ->
  Forall2 (fun r r' => r' !! k = r !! k) (rows t) (rows t').
Proof.
  induction pm as [|e pm IH]; intros Hk t t' H; simpl in H.
  - inversion H; subst. apply Forall2_fn_refl.
  - destruct (format_price_col target_unit t e) as [t1|x] eqn:H1; simpl in H;
      [|discriminate].
    destruct (Hk e (or_introl eq_refl)) as [Hf Hs].
    eapply Forall2_fn_trans;
      [exact (format_price_col_lookup_other t t1 e k H1 Hf Hs)
      |exact (IH (fun e' He' => Hk e' (or_intror He')) t1 t' H)].
Qed.

Lemma rename_map_names :
  (forall e e', In e column_rename_map -> In e' column_rename_map ->
                fst e <> snd e')
  /\ (forall e e', In e column_rename_map -> In e' column_rename_map -> e <> e' ->
                   fst e <> fst e' /\ snd e <> snd e')
  /\ List.NoDup column_rename_map
  /\ (forall e e', In e column_rename_map -> In e' price_map ->
                   fst e <> fst e' /\ fst e <> snd e')
  /\ (forall e, In e column_rename_map -> In (fst e) cols_to_use)
  /\ (forall e, In e price_map -> "" <> fst e /\ "" <> snd e)
  /\ (forall e, In e column_rename_map -> "" <> fst e /\ "" <> snd e).
Proof.
  unfold price_map, column_rename_map, cols_to_use. simpl.
  split; [|split; [|split; [|split; [|split; [|split]]]]].
  - intros e e' He He'. intuition (subst; discriminate).
  - intros e e' He He' Hne. intuition (subst; first [discriminate | congruence]).
  - repeat (constructor; [simpl; intuition discriminate|]). constructor.
  - intros e e' He He'. intuition (subst; discriminate).
  - intros e He. intuition (subst; simpl; tauto).
  - intros e He. intuition (subst; discriminate).
  - intros e He. intuition (subst; discriminate).
Qed.

(** The table shows one row per filtered row, in the same order, and every
    column outside the prices as it is stored: the cell under the Korean
    header is the cell of the source column. *)
Theorem table_view_keeps_cells (f t : DataFrame)
    (Htable : table_view target_unit f = Ok t) :
  List.length (rows t) = List.length (rows f)
  /\ forall e, In e column_rename_map -> has_col (fst e) f = true ->
       Forall2 (fun r r' => r' !! snd e = Some (cell r (fst e))) (rows f) (rows t).
Proof.
  destruct rename_map_names as (Hfs & Hdist & Hnd & Hpm & Huse & Hnil1 & Hnil2).
  unfold table_view in Htable.
  set (display_cols := List.filter (fun c => has_col c f) cols_to_use) in *.
  destruct (res_foldM (format_price_col target_unit) price_map
              (project display_cols f)) as [t1|x] eqn:H1; simpl in Htable;
    [|discriminate].
  inversion Htable; subst t; clear Htable. split.
  - pose proof (fold_format_lookup_other "" price_map Hnil1 _ t1 H1) as Ha.
    pose proof (fold_rename_lookup_other "" column_rename_map Hnil2 t1) as Hb.
    apply Forall2_same_length in Ha, Hb.
    etransitivity; [symmetry; exact Hb|]. etransitivity; [symmetry; exact Ha|].
    unfold project. simpl. apply length_map.
  - intros e He Hhas.
    assert (Hdisp : In (fst e) display_cols).
    { apply filter_In. split; [apply Huse; exact He | exact Hhas]. }
    assert (Hr0 : Forall2 (fun r r' => r' !! fst e = Some (cell r (fst e)))
                          (rows f) (rows (project display_cols f))).
    { unfold project. simpl. induction (rows f) as [|r l IH]; simpl; constructor;
        [apply project_lookup_some; exact Hdisp | exact IH]. }
    assert (Hk : forall e', In e' price_map -> fst e <> fst e' /\ fst e <> snd e')
      by (intros e' He'; apply Hpm; assumption).
    pose proof (fold_format_lookup_other (fst e) price_map Hk _ t1 H1) as Hr1.
    destruct (fold_format_other target_unit (fst e) price_map Hk _ t1 H1) as [_ Hc1].
    assert (Hhas1 : has_col (fst e) t1 = true).
    { rewrite Hc1. unfold has_col, project. simpl. apply existsb_eqb_In. exact Hdisp. }
    pose proof (fold_rename_target column_rename_map Hfs Hdist Hnd t1 e He Hhas1)
      as Hr2.
    eapply Forall2_weaken;
      [|exact (Forall2_compose _ _ _ _ _ Hr0 (Forall2_compose _ _ _ _ _ Hr1 Hr2))].
    intros r r' [a [Ha [b [Hb Hr']]]]. apply Hr'. rewrite Hb. exact Ha.
Qed.

End TableMore.

Lemma table_view_keeps_cells_witness :
  exists t,
    table_view unit_man sample_df = Ok t
    /\ List.length (rows t) = List.length (rows sample_df)
    /\ Forall2 (fun r r' => r' !! "제목" = Some (cell r "title"))
         (rows sample_df) (rows t).
Proof.
  destruct (table_view unit_man sample_df) as [t|e] eqn:Ht.
  - exists t. split; [reflexivity|].
    destruct (table_view_keeps_cells unit_man sample_df t Ht) as [Hlen Hcells].
    split; [exact Hlen|].
    apply (Hcells ("title", "제목")); [simpl; auto | reflexivity].
  - vm_compute in Ht. discriminate.
Defined.

(** ** A render cycle on a well-formed table *)









Lemma ok_or_display_ok {A} (ui : display) (m : res A) :
  (exists a, m = Ok a) -> ok_or_display ui m.
Proof. intros H. left. exact H. Qed.


Section Totality.

Variable to_datetime : list pyval -> res (list pyval).
Variable u : string.










Section FilterTotality.

Variable regex : Type.
Variable re_compile : string -> option regex.
Variable re_search : regex -> string -> bool.


End FilterTotality.








Variable ui : display.







End Totality.








(** ** The figures shown *)

Lemma Qfloor_unique (q : Q) (z : Z) :
  (inject_Z z <= q)%Q -> (q < inject_Z (z + 1))%Q -> Qfloor q = z.
Proof.
  intros Hlo Hhi.
  pose proof (Qfloor_le q) as H1. pose proof (Qlt_floor q) as H2.
  assert (Ha : (inject_Z z < inject_Z (Qfloor q + 1))%Q) by (eapply Qle_lt_trans; eassumption).
  assert (Hb : (inject_Z (Qfloor q) < inject_Z (z + 1))%Q) by (eapply Qle_lt_trans; eassumption).
  rewrite <- Zlt_Qlt in Ha, Hb. lia.
Qed.

(** From 1억 up, the minor-unit display splits the amount into whole 억
    and whole 만: the two parts shown add up to the amount with its
    fraction of one 만 cut off, and the 만 part is left out when it is 0. *)
Theorem eok_man_parts (v : Q) (Hv : (10000 <= v)%Q) :
  exists eok man : Z,
    format_price_display (Num v) unit_man
    = (if 0 <? man then fmt_int eok ++ "억 " ++ fmt_int_grouped man ++ "만"
       else fmt_int eok ++ "억")
    /\ 1 <= eok /\ 0 <= man < 10000
    /\ (inject_Z (10000 * eok + man) <= v)%Q
    /\ (v < inject_Z (10000 * eok + man) + 1)%Q.
Proof.
  exists (py_int (py_floordiv v 10000)), (py_int (py_mod v 10000)).
  split.
  - unfold format_price_display.
    assert (Hz : Qeq_bool v 0 = false).
    { destruct (Qeq_bool v 0) eqn:H; [|reflexivity].
      apply Qeq_bool_iff in H. lra. }
    rewrite Hz. change (String.eqb unit_man "만") with true. cbv iota.
    apply Qle_bool_iff in Hv. rewrite Hv. reflexivity.
  - unfold py_mod, py_floordiv. rewrite py_int_inject_Z.
    set (e := Qfloor (v / 10000)).
    pose proof (Qfloor_le (v / 10000)) as Hlo.
    pose proof (Qlt_floor (v / 10000)) as Hhi. fold e in Hlo, Hhi.
    rewrite inject_Z_plus in Hhi. change (inject_Z 1) with 1%Q in Hhi.
    assert (Hdiv : (v / 10000 == v * (1 # 10000))%Q) by (field).
    rewrite Hdiv in Hlo, Hhi.
    set (m := (v - 10000 * inject_Z e)%Q).
    assert (Hmeq : (m == v - 10000 * inject_Z e)%Q) by reflexivity.
    clearbody m.
    assert (Hm0 : (0 <= m)%Q) by lra.
    assert (Hm1 : (m < 10000)%Q) by lra.
    rewrite (py_int_nonneg_floor m Hm0).
    pose proof (Qfloor_le m) as Hml. pose proof (Qlt_floor m) as Hmh.
    rewrite inject_Z_plus in Hmh. change (inject_Z 1) with 1%Q in Hmh.
    assert (He : 1 <= e).
    { assert (H : (inject_Z 0 < inject_Z (e + 1))%Q).
      { rewrite inject_Z_plus. change (inject_Z 1) with 1%Q. change (inject_Z 0) with 0%Q. lra. }
      rewrite <- Zlt_Qlt in H.
      assert (H' : (inject_Z 1 < inject_Z (e + 1))%Q).
      { rewrite inject_Z_plus. change (inject_Z 1) with 1%Q. lra. }
      rewrite <- Zlt_Qlt in H'. lia. }
    assert (Hman0 : 0 <= Qfloor m).
    { change 0 with (Qfloor 0). apply Qfloor_resp_le. exact Hm0. }
    assert (Hman1 : Qfloor m < 10000).
    { assert (H : (inject_Z (Qfloor m) < inject_Z 10000)%Q)
        by (change (inject_Z 10000) with 10000%Q; lra).
      rewrite <- Zlt_Qlt in H. exact H. }
    split; [exact He|]. split; [lia|].
    rewrite inject_Z_plus, inject_Z_mult. change (inject_Z 10000) with 10000%Q.
    split; lra.
Qed.

Lemma eok_man_parts_witness :
  exists eok man : Z,
    format_price_display (Num (250005 # 10)) unit_man
    = (if 0 <? man then fmt_int eok ++ "억 " ++ fmt_int_grouped man ++ "만"
       else fmt_int eok ++ "억")
    /\ 1 <= eok /\ 0 <= man < 10000
    /\ (inject_Z (10000 * eok + man) <= 250005 # 10)%Q
    /\ (250005 # 10 < inject_Z (10000 * eok + man) + 1)%Q.
Proof. apply (eok_man_parts (250005 # 10)). unfold Qle; simpl; lia. Defined.

Lemma round_half_even_upper (q : Q) (z : Z) :
  (inject_Z z + (1 # 2) < q)%Q -> (q < inject_Z z + 1)%Q ->
  round_half_even q = z + 1.
Proof.
  intros Hlo Hhi. unfold round_half_even.
  assert (Hf : Qfloor q = z).
  { apply Qfloor_unique; [lra|]. rewrite inject_Z_plus. change (inject_Z 1) with 1%Q. exact Hhi. }
  rewrite Hf.
  assert (Hc : (q - inject_Z z ?= 1 # 2)%Q = Gt).
  { apply (proj1 (Qgt_alt _ _)). lra. }
  rewrite Hc. reflexivity.
Qed.

Lemma round_half_even_tie_odd (q : Q) (z : Z) :
  (q == inject_Z z + (1 # 2))%Q -> Z.even z = false ->
  round_half_even q = z + 1.
Proof.
  intros Hq Hodd. unfold round_half_even.
  assert (Hf : Qfloor q = z).
  { apply Qfloor_unique; [lra|]. rewrite inject_Z_plus. change (inject_Z 1) with 1%Q. lra. }
  rewrite Hf.
  assert (Hc : (q - inject_Z z ?= 1 # 2)%Q = Eq).
  { apply (proj1 (Qeq_alt _ _)). lra. }
  rewrite Hc, Hodd. reflexivity.
Qed.

(** The split into 억 is decided before rounding: an amount from 9,999.5
    up to, but below, 10,000 is formatted with no decimals and reads
    10,000만, while 10,000 itself reads 1억. *)
Theorem just_below_eok_rounds_up (v : Q)
    (Hlo : (19999 # 2 <= v)%Q) (Hhi : (v < 10000)%Q) :
  format_price_display (Num v) unit_man = "10,000만".
Proof.
  unfold format_price_display.
  assert (Hz : Qeq_bool v 0 = false).
  { destruct (Qeq_bool v 0) eqn:H; [|reflexivity].
    apply Qeq_bool_iff in H. lra. }
  rewrite Hz. change (String.eqb unit_man "만") with true. cbv iota.
  assert (Hge : Qle_bool 10000 v = false).
  { destruct (Qle_bool 10000 v) eqn:H; [|reflexivity].
    apply Qle_bool_iff in H. lra. }
  rewrite Hge. unfold fmt_f0_grouped, Qabs', Qlt_bool.
  assert (Hpos : Qle_bool 0 v = true) by (apply Qle_bool_iff; lra).
  rewrite Hpos. simpl negb. cbv iota.
  assert (Hr : round_half_even v = 10000).
  { destruct (Qlt_le_dec (19999 # 2) v) as [Hgt|Hle].
    - apply (round_half_even_upper v 9999); change (inject_Z 9999) with 9999%Q; lra.
    - apply (round_half_even_tie_odd v 9999); [|reflexivity].
      change (inject_Z 9999) with 9999%Q. lra. }
  rewrite Hr. reflexivity.
Qed.

Lemma just_below_eok_rounds_up_witness :
  format_price_display (Num (99996 # 10)) unit_man = "10,000만"
  /\ format_price_display (Num 10000) unit_man = "1억".
Proof.
  split; [|reflexivity].
  apply (just_below_eok_rounds_up (99996 # 10)); unfold Qle, Qlt; simpl; lia.
Defined.

Lemma round_half_even_whole (n : Z) : round_half_even (inject_Z n) = n.
Proof.
  unfold round_half_even.
  assert (Hf : Qfloor (inject_Z n) = n) by apply Qfloor_Z.
  rewrite Hf.
  assert (Hc : (inject_Z n - inject_Z n ?= 1 # 2)%Q = Lt).
  { apply (proj1 (Qlt_alt _ _)). lra. }
  rewrite Hc. reflexivity.
Qed.

Lemma fmt_f0_grouped_whole (z : Z) : fmt_f0_grouped (inject_Z z) = fmt_int_grouped z.
Proof.
  unfold fmt_f0_grouped, fmt_int_grouped, Qabs', Qlt_bool.
  destruct (z <? 0) eqn:Hneg.
  - apply Z.ltb_lt in Hneg.
    assert (H : Qle_bool 0 (inject_Z z) = false).
    { destruct (Qle_bool 0 (inject_Z z)) eqn:H; [|reflexivity].
      apply Qle_bool_iff in H. change 0%Q with (inject_Z 0) in H.
      rewrite <- Zle_Qle in H. lia. }
    rewrite H. simpl negb. cbv iota.
    change (- inject_Z z)%Q with (inject_Z (- z)).
    rewrite round_half_even_whole.
    replace (Z.to_N (- z)) with (Z.abs_N z) by lia. reflexivity.
  - apply Z.ltb_ge in Hneg.
    assert (H : Qle_bool 0 (inject_Z z) = true).
    { apply Qle_bool_iff. change 0%Q with (inject_Z 0). rewrite <- Zle_Qle. exact Hneg. }
    rewrite H. simpl negb. cbv iota.
    rewrite round_half_even_whole.
    replace (Z.to_N z) with (Z.abs_N z) by lia. reflexivity.
Qed.

(** In the major unit the display adds nothing to the conversion: what
    [convert_price] returns is a whole number, and the figure shown is that
    number digit for digit, or the dash when it is 0. *)
Theorem won_display_exact (v : option number) (n : number)
    (Hconv : convert_price v unit_won = Ok n) :
  exists z : Z,
    n = Num (inject_Z z)
    /\ format_price_display n unit_won
       = if z =? 0 then "-" else "₩" ++ fmt_int_grouped z.
Proof.
  assert (Hz : exists z, n = Num (inject_Z z)).
  { unfold convert_price in Hconv. destruct v as [[|q]|].
    - inversion Hconv. exists 0. reflexivity.
    - change (String.eqb unit_won "원") with true in Hconv. cbv iota in Hconv.
      destruct (b64 (q * 1000)) as [p|]; inversion Hconv. eauto.
    - inversion Hconv. exists 0. reflexivity. }
  destruct Hz as [z ->]. exists z. split; [reflexivity|].
  unfold format_price_display.
  assert (Hz : Qeq_bool (inject_Z z) 0 = (z =? 0)).
  { destruct (z =? 0) eqn:H.
    - apply Z.eqb_eq in H. rewrite H. reflexivity.
    - destruct (Qeq_bool (inject_Z z) 0) eqn:Hq; [|reflexivity].
      apply Qeq_bool_iff in Hq. apply Z.eqb_neq in H.
      unfold Qeq in Hq. simpl in Hq. lia. }
  rewrite Hz. destruct (z =? 0); [reflexivity|].
  change (String.eqb unit_won "만") with false. cbv iota.
  rewrite fmt_f0_grouped_whole. reflexivity.
Qed.

Lemma won_display_exact_witness :
  convert_price (Some (Num (19753 # 16))) unit_won = Ok (Num 1234562)
  /\ format_price_display (Num 1234562) unit_won = "₩1,234,562".
Proof.
  assert (H : convert_price (Some (Num (19753 # 16))) unit_won = Ok (Num 1234562))
    by (vm_compute; reflexivity).
  split; [exact H|].
  destruct (won_display_exact (Some (Num (19753 # 16))) (Num 1234562) H)
    as (z & Hz & Hshown).
  inversion Hz; subst z. exact Hshown.
Defined.
